(** * CPM-Ant tokenizer: a shallow embedding of
      [src/transformers/models/cpmant/tokenization_cpmant_fast.py]

    The development follows the source file top to bottom: Python values
    (strings, exceptions, insertion-ordered dictionaries), the tensor
    operations [pad] relies on, [load_vocab], [WordpieceTokenizer],
    [CPMAntTokenizerFast], and then the properties of each. *)

From Stdlib Require Import ZArith List Sorted Lia Ascii String.
From stdpp Require Import base tactics option numbers list.

(** ** Python values *)

(** A Python [str] is a sequence of Unicode code points; [list(token)]
    and [len] count code points, slicing is by code point. *)
Definition char := N.
Definition str := list char.

(** String literals of the source, written with Rocq string literals. *)
Definition py (s : string) : str := map N_of_ascii (list_ascii_of_string s).

Definition space : str := [32%N].      (* " "  *)
Definition newline : str := [10%N].    (* "\n" *)

(** The exceptions the modelled code can raise. *)
Inductive exn := KeyError | IndexError | TypeError | AttributeError | RuntimeError.

Inductive result (A : Type) :=
| Ok (a : A)
| Raise (e : exn).
Arguments Ok {A} a.
Arguments Raise {A} e.

#[global] Instance result_ret : MRet result := λ A a, Ok a.
#[global] Instance result_bind : MBind result := λ A B f m,
  match m with Ok a => f a | Raise e => Raise e end.

Definition is_Ok {A} (r : result A) : Prop := ∃ a, r = Ok a.

(** [l[i]] on a Python list. *)
Definition list_getitem {A} (l : list A) (i : nat) : result A :=
  match l !! i with Some a => Ok a | None => Raise IndexError end.

(** [l[start:end]] for non-negative indices (both clamped to [len l]). *)
Definition slice {A} (l : list A) (start end_ : nat) : list A :=
  take (end_ - start) (drop start l).

(** ** Python dictionaries

    A [dict] keeps its keys in insertion order, which [save_vocabulary]
    and the construction of [decoder] observe, so it is an association
    list with the dictionary operations of the language. *)
Abbreviation dict K V := (list (K * V)) (only parsing).

Section dict.
Context {K V : Type} `{EqDecision K}.

Fixpoint dict_get (d : dict K V) (k : K) : option V :=
  match d with
  | [] => None
  | (k', v) :: d' => if decide (k' = k) then Some v else dict_get d' k
  end.

(** [k in d] *)
Definition dict_contains (d : dict K V) (k : K) : bool :=
  match dict_get d k with Some _ => true | None => false end.

(** [d[k]] *)
Definition dict_getitem (d : dict K V) (k : K) : result V :=
  match dict_get d k with Some v => Ok v | None => Raise KeyError end.

(** [d.get(k, dflt)] *)
Definition dict_get_default (d : dict K V) (k : K) (dflt : V) : V :=
  match dict_get d k with Some v => v | None => dflt end.

(** [d[k] = v]: an existing key keeps its position, a new one goes last. *)
Fixpoint dict_setitem (d : dict K V) (k : K) (v : V) : dict K V :=
  match d with
  | [] => [(k, v)]
  | (k', v') :: d' =>
      if decide (k' = k) then (k', v) :: d' else (k', v') :: dict_setitem d' k v
  end.

(** [del d[k]] *)
Definition dict_delitem (d : dict K V) (k : K) : result (dict K V) :=
  if dict_contains d k
  then Ok (filter (λ kv, kv.1 ≠ k) d)
  else Raise KeyError.

(** [d.items()] *)
Definition dict_items (d : dict K V) : list (K * V) := d.

(** Keys are unique in every dictionary the operations build. *)
Definition dict_wf (d : dict K V) : Prop := NoDup d.*1.
End dict.

(** ** Tensors

    [pad] and [_convert_to_tensors] use a handful of operations of the
    tensor library. Integer tensors of rank 0, 1 and 2 are modelled, which
    covers every field [_convert_to_tensors] builds; a field of rank 3 (the
    [dim == 3] branch of [pad]) is outside the tensor type. The tensors
    are tensors of dtype [torch.int32], the dtype [.int()] gives every
    field [_convert_to_tensors] builds: the entries of a tensor are 32-bit
    integers, and [pad], which takes the dtype of the padded container
    from its first item, allocates it in [torch.int32]. *)
Inductive tensor :=
| T0 (x : Z)                                  (* shape ()                *)
| T1 (v : list Z)                             (* shape (len v,)          *)
| T2 (ncols : nat) (rows : list (list Z)).    (* shape (len rows, ncols) *)

(** Every row of a rank-2 tensor has [ncols] entries. *)
Definition tensor_wf (t : tensor) : Prop :=
  match t with
  | T2 ncols rows => Forall (λ r, length r = ncols) rows
  | _ => True
  end.

(** [len(t.shape)] *)
Definition tensor_dim (t : tensor) : nat :=
  match t with T0 _ => 0 | T1 _ => 1 | T2 _ _ => 2 end.

(** [t.shape[-1]] *)
Definition tensor_last_dim (t : tensor) : result nat :=
  match t with
  | T0 _ => Raise IndexError
  | T1 v => Ok (length v)
  | T2 ncols _ => Ok ncols
  end.

(** [t[0]] *)
Definition tensor_getitem0 (t : tensor) : result tensor :=
  match t with
  | T0 _ => Raise IndexError
  | T1 [] => Raise IndexError
  | T1 (x :: _) => Ok (T0 x)
  | T2 _ [] => Raise IndexError
  | T2 _ (r :: _) => Ok (T1 r)
  end.

(** [len(t)] *)
Definition tensor_len (t : tensor) : result nat :=
  match t with
  | T0 _ => Raise TypeError
  | T1 v => Ok (length v)
  | T2 _ rows => Ok (length rows)
  end.

(** [for tr in t] *)
Definition tensor_iter (t : tensor) : result (list tensor) :=
  match t with
  | T0 _ => Raise TypeError
  | T1 v => Ok (T0 <$> v)
  | T2 _ rows => Ok (T1 <$> rows)
  end.

(** [torch.cat(ts, dim=0)]: tensors of shape [(0,)] are skipped, the others
    must agree on the rank and on the trailing dimension. *)
Definition cat_skipped (t : tensor) : bool :=
  match t with T1 [] => true | _ => false end.

Definition torch_cat (ts : list tensor) : result tensor :=
  match ts with
  | [] => Raise RuntimeError
  | _ =>
      match filter (λ t, cat_skipped t = false) ts with
      | [] => Ok (T1 [])
      | T0 _ :: _ => Raise RuntimeError
      | T1 v :: rest =>
          vs ← mapM (λ t, match t with T1 v' => Ok v' | _ => Raise RuntimeError end) rest;
          Ok (T1 (v ++ concat vs))
      | T2 ncols rows :: rest =>
          rs ← mapM (λ t, match t with
                          | T2 ncols' rows' =>
                              if decide (ncols' = ncols) then Ok rows' else Raise RuntimeError
                          | _ => Raise RuntimeError
                          end) rest;
          Ok (T2 ncols (rows ++ concat rs))
      end
  end.

(** A Python integer that a tensor operation takes as a 64-bit scalar, and
    an integer that [torch.int32] holds. *)
Definition fits_int64 (z : Z) : Prop := (- 2 ^ 63 ≤ z < 2 ^ 63)%Z.

Definition fits_int32 (z : Z) : Prop := (- 2 ^ 31 ≤ z < 2 ^ 31)%Z.

(** Conversion to 32 bits, wrapping around: [.int()], and the arithmetic of
    a [torch.int32] tensor. *)
Definition to_int32 (z : Z) : Z := ((z + 2 ^ 31) `mod` 2 ^ 32 - 2 ^ 31)%Z.

(** [torch.zeros((batch_size, max_length), dtype=dtype) + padding_value]:
    the sum is taken in the dtype of the container, so [padding_value]
    wraps around to 32 bits; a [padding_value] outside the 64-bit range is
    refused, as [torch_tensor] refuses it. *)
Definition torch_full (batch_size max_length : nat) (padding_value : Z)
  : result (list (list Z)) :=
  if decide (fits_int64 padding_value)
  then Ok (replicate batch_size (replicate max_length (to_int32 padding_value)))
  else Raise RuntimeError.

(** [row[start:stop] = src] on a row, for [start <= stop <= len(row)]: the
    source must have the length of the slice, or length 1 (broadcast). *)
Definition set_slice (row : list Z) (start stop : nat) (src : list Z)
  : result (list Z) :=
  if decide (length src = stop - start) then
    Ok (take start row ++ src ++ drop stop row)
  else
    match src with
    | [x] => Ok (take start row ++ replicate (stop - start) x ++ drop stop row)
    | _ => Raise RuntimeError
    end.

(** Where the slice [-n:] starts in a row of [m] entries: [-0] is [0]. *)
Definition neg_slice_start (m n : nat) : nat :=
  if decide (n = 0) then 0 else m - n.

(** [torch.tensor(l)] of a list of Python integers: an integer outside the
    64-bit range is refused. *)
Definition torch_tensor (l : list Z) : result (list Z) :=
  if decide (Forall fits_int64 l) then Ok l else Raise RuntimeError.

(** [torch.tensor(l).int().unsqueeze(0)] for a list [l] *)
Definition list_to_tensor (l : list Z) : result tensor :=
  l' ← torch_tensor l;
  Ok (T2 (length l') [to_int32 <$> l']).

(** [torch.tensor(n).int().unsqueeze(0)] for an integer [n] *)
Definition int_to_tensor (n : Z) : result tensor :=
  l' ← torch_tensor [n];
  Ok (T1 (to_int32 <$> l')).

(** ** pad *)

(** The value a bundle stores under a key: a tensor or a list of tensors. *)
Inductive value :=
| VTensor (t : tensor)
| VList (ts : list tensor).

Abbreviation bundle := (dict str value) (only parsing).

(** [item[key]] where the code goes on to use it as a tensor. *)
Definition as_tensor (v : value) : result tensor :=
  match v with VTensor t => Ok t | VList _ => Raise AttributeError end.

(** [for tr in it[key]] *)
Definition value_iter (v : value) : result (list tensor) :=
  match v with VTensor t => tensor_iter t | VList ts => Ok ts end.

Definition enumerate {A} (l : list A) : list (nat * A) := zip (seq 0 (length l)) l.

(** The body of [for i, item in enumerate(items)] when [dim == 2]. *)
Definition pad_copy_row (key : str) (max_length : nat) (padding_side : str)
    (out : list (list Z)) (i : nat) (item : bundle) : result (list (list Z)) :=
  v ← dict_getitem item key;
  t ← as_tensor v;
  sub ← tensor_getitem0 t;
  n ← tensor_len sub;
  match sub with
  | T1 src =>
      row ← list_getitem out i;
      row' ← (if decide (padding_side = py "left")
              then set_slice row (neg_slice_start max_length n) max_length src
              else set_slice row 0 (n `min` max_length) src);
      Ok (<[i := row']> out)
  | _ => Raise RuntimeError
  end.

(** [pad(orig_items, key, padding_value=0, padding_side="left")]. The
    elements of a list value are tensors by their type, so the two
    [isinstance(..., torch.Tensor)] tests only evaluate their argument. *)
Definition pad (orig_items : list bundle) (key : str)
    (padding_value : Z) (padding_side : str) : result tensor :=
  let item_tensor (item : bundle) := v ← dict_getitem item key; as_tensor v in
  first ← list_getitem orig_items 0;
  v0 ← dict_getitem first key;
  items ← match v0 with
           | VList ts0 =>
               _ ← list_getitem ts0 0;
               trs ← mapM (λ it, v ← dict_getitem it key; value_iter v) orig_items;
               Ok ((λ tr, [(key, VTensor tr)]) <$> concat trs)
           | VTensor t0 =>
               _ ← tensor_getitem0 t0;
               Ok orig_items
           end;
  let batch_size := length items in
  item0 ← list_getitem items 0;
  t0 ← item_tensor item0;
  let dim := tensor_dim t0 in
  lengths ← mapM (λ item, t ← item_tensor item; tensor_last_dim t) items;
  let max_length := foldr Nat.max 0 lengths in
  let min_length := foldr Nat.min max_length lengths in
  match dim with
  | 1 => ts ← mapM item_tensor items; torch_cat ts
  | 2 =>
      if decide (max_length = min_length) then
        ts ← mapM item_tensor items; torch_cat ts
      else
        out ← torch_full batch_size max_length padding_value;
        rows ← foldl (λ acc '(i, item),
                        out ← acc; pad_copy_row key max_length padding_side out i item)
                     (Ok out) (enumerate items);
        Ok (T2 max_length rows)
  | _ => Raise IndexError   (* [dim == 0]: not reached, [shape[-1]] has raised *)
  end.

(** What the copy loop of [pad] writes into the row of an item of shape
    [(1, len(src))]: the slice assignment on a row that holds [fill], the
    padding value as the container holds it, everywhere. *)
Definition padded_row (max_length : nat) (fill : Z) (padding_side : str)
    (src : list Z) : result (list Z) :=
  let blank := replicate max_length fill in
  if decide (padding_side = py "left")
  then set_slice blank (neg_slice_start max_length (length src)) max_length src
  else set_slice blank 0 (length src `min` max_length) src.

(** A batch whose field [key] holds one row per bundle (shape [(1, n)]),
    and one whose field holds a rank-1 tensor per bundle. *)
Definition row_batch (key : str) (orig_items : list bundle) (rows : list (list Z))
  : Prop :=
  Forall2 (λ it v, dict_get it key = Some (VTensor (T2 (length v) [v]))) orig_items rows.

Definition rank1_batch (key : str) (orig_items : list bundle) (vs : list (list Z))
  : Prop :=
  Forall2 (λ it v, dict_get it key = Some (VTensor (T1 v))) orig_items vs.

(** A bundle with one field, holding a tensor. *)
Definition field (key : str) (t : tensor) : bundle := [(key, VTensor t)].

(** ** load_vocab *)

(** [token.rstrip("\n")] *)
Fixpoint rstrip_newline (token : str) : str :=
  match token with
  | [] => []
  | c :: token' =>
      match rstrip_newline token' with
      | [] => if decide (c = 10%N) then [] else [c]
      | r => c :: r
      end
  end.

(** [load_vocab(vocab_file)], on the lines [reader.readlines()] returns. *)
Definition load_vocab (lines : list str) : dict str Z :=
  foldl (λ vocab '(index, token),
           dict_setitem vocab (rstrip_newline token) (Z.of_nat index))
        [] (enumerate lines).

(** [reader.readlines()] on the text of a file opened with [open(f, "r")].
    The text is read with universal newlines: a carriage return, and a
    carriage return followed by a line feed, are read as one line feed
    ([after_cr] holds when the code point before was a carriage return).
    There is one line for each line feed, which the line keeps; what
    follows the last line feed is a line too when it is not empty. *)
Fixpoint universal_newlines (after_cr : bool) (text : str) : str :=
  match text with
  | [] => []
  | c :: rest =>
      if decide (c = 13%N) then 10%N :: universal_newlines true rest
      else if decide (c = 10%N)
           then if after_cr then universal_newlines false rest
                else 10%N :: universal_newlines false rest
           else c :: universal_newlines false rest
  end.

Fixpoint split_lines (line : str) (text : str) : list str :=
  match text with
  | [] => if decide (line = []) then [] else [line]
  | c :: rest =>
      if decide (c = 10%N) then (line ++ [c]) :: split_lines [] rest
      else split_lines (line ++ [c]) rest
  end.

Definition readlines (text : str) : list str :=
  split_lines [] (universal_newlines false text).

(** ** WordpieceTokenizer *)
Module WordpieceTokenizer.

Record t := {
  vocab : dict str Z;
  unk_token : str;
  max_input_chars_per_word : Z;
}.

(** [WordpieceTokenizer(vocab, unk_token="<unk>", max_input_chars_per_word=200)] *)
Definition init (vocab : dict str Z) (unk_token : str) : t :=
  {| vocab := vocab; unk_token := unk_token; max_input_chars_per_word := 200 |}.

Section tokenize.
Variable self : t.
Variable chars : list char.

(** The inner [while start < end] loop. It returns [Some (end, cur_substr)]
    when it leaves through [break] and [None] when it runs down to
    [end = start] with [cur_substr] still [None]. *)
Fixpoint inner_loop (start end_ : nat) : option (nat * str) :=
  match end_ with
  | 0 => None
  | S end' =>
      if decide (start < end_) then
        let substr := slice chars start end_ in
        if dict_contains (vocab self) substr
        then Some (end_, substr)
        else inner_loop start end'
      else None
  end.

(** One iteration of the outer loop on the state [(start, sub_tokens)]. *)
Definition loop_body (st : nat * list str) : nat * list str :=
  let '(start, sub_tokens) := st in
  match inner_loop start (length chars) with
  | None => (start + 1, sub_tokens ++ [unk_token self])
  | Some (end_, cur_substr) => (end_, sub_tokens ++ [cur_substr])
  end.

(** The outer [while start < len(chars)] loop; [None] only when the
    iteration budget [fuel] is used up before the loop exits. *)
Fixpoint while_loop (fuel : nat) (st : nat * list str) : option (list str) :=
  if decide (st.1 < length chars) then
    match fuel with
    | 0 => None
    | S fuel' => while_loop fuel' (loop_body st)
    end
  else Some st.2.
End tokenize.

(** [tokenize(self, token)]. The budget [len(chars)] always suffices
    ([while_loop_total] below), so the default is never taken. *)
Definition tokenize (self : t) (token : str) : list str :=
  let chars := token in
  if decide (max_input_chars_per_word self < Z.of_nat (length chars))%Z
  then [unk_token self]
  else default [] (while_loop self chars (length chars) (0, [])).

(** *** The segmenter as the specification words it

    Written on the part of the span that is still to be covered instead
    of on indices: the candidates are the prefixes of the rest, longest
    first. *)
Definition longest_match (V : dict str Z) (rest : list char) : option nat :=
  List.find (λ k, dict_contains V (take k rest)) (rev (seq 1 (length rest))).

Fixpoint spec_scan (V : dict str Z) (unk : str) (fuel : nat) (rest : list char)
  : list str :=
  match fuel, rest with
  | _, [] => []
  | 0, _ => []
  | S fuel', _ =>
      match longest_match V rest with
      | Some k => take k rest :: spec_scan V unk fuel' (drop k rest)
      | None => unk :: spec_scan V unk fuel' (drop 1 rest)
      end
  end.

Definition spec_tokenize (V : dict str Z) (unk : str) (guard : Z) (span : str)
  : list str :=
  if decide (guard < Z.of_nat (length span))%Z then [unk]
  else spec_scan V unk (length span) span.

End WordpieceTokenizer.

(** ** CPMAntTokenizerFast *)
Module CPMAntTokenizerFast.

(** The keyword arguments of [__init__]. *)
Record config := {
  cfg_bod_token : str;
  cfg_eod_token : str;
  cfg_bos_token : str;
  cfg_eos_token : str;
  cfg_pad_token : str;
  cfg_unk_token : str;
  cfg_line_token : str;
  cfg_space_token : str;
}.

Definition default_config : config := {|
  cfg_bod_token := py "<d>";
  cfg_eod_token := py "</d>";
  cfg_bos_token := py "<s>";
  cfg_eos_token := py "</s>";
  cfg_pad_token := py "<pad>";
  cfg_unk_token := py "<unk>";
  cfg_line_token := py "</n>";
  cfg_space_token := py "</_>";
|}.

Record t := {
  bod_token : str;
  eod_token : str;
  bos_token : str;
  eos_token : str;
  pad_token : str;
  unk_token : str;
  encoder : dict str Z;
  decoder : dict Z str;
  wordpiece_tokenizer : WordpieceTokenizer.t;
}.

(** [{v: k for k, v in items}] *)
Definition invert (items : list (str * Z)) : dict Z str :=
  foldl (λ d '(k, v), dict_setitem d v k) [] items.

(** [__init__(self, vocab_file, ...)], on the lines of the vocabulary file.
    The constructor of the base class, which keeps the special tokens, is
    not part of the source file. The segmenter shares the encoder it is
    given. *)
Definition init (vocab_file : list str) (cfg : config) : result t :=
  let encoder := load_vocab vocab_file in
  space_id ← dict_getitem encoder (cfg_space_token cfg);
  let encoder := dict_setitem encoder space space_id in
  line_id ← dict_getitem encoder (cfg_line_token cfg);
  let encoder := dict_setitem encoder newline line_id in
  encoder ← dict_delitem encoder (cfg_space_token cfg);
  encoder ← dict_delitem encoder (cfg_line_token cfg);
  let decoder := invert (dict_items encoder) in
  Ok {| bod_token := cfg_bod_token cfg;
        eod_token := cfg_eod_token cfg;
        bos_token := cfg_bos_token cfg;
        eos_token := cfg_eos_token cfg;
        pad_token := cfg_pad_token cfg;
        unk_token := cfg_unk_token cfg;
        encoder := encoder;
        decoder := decoder;
        wordpiece_tokenizer :=
          WordpieceTokenizer.init encoder (cfg_unk_token cfg) |}.

Definition vocab_size (self : t) : nat := length (encoder self).
Definition bod_id (self : t) : result Z := dict_getitem (encoder self) (bod_token self).
Definition eod_id (self : t) : result Z := dict_getitem (encoder self) (eod_token self).
Definition eos_id (self : t) : result Z := dict_getitem (encoder self) (eos_token self).
Definition bos_id (self : t) : result Z := dict_getitem (encoder self) (bos_token self).
Definition pad_id (self : t) : result Z := dict_getitem (encoder self) (pad_token self).
Definition unk_id (self : t) : result Z := dict_getitem (encoder self) (unk_token self).
Definition newline_id (self : t) : result Z := dict_getitem (encoder self) newline.

Section methods.
(** The external word segmenter, [jieba.cut(text, cut_all=False)]. *)
Variable cut : str → list str.
Variable self : t.

(** [tokenize(self, text)] *)
Definition tokenize (text : str) : list str :=
  foldl (λ output_tokens x,
           output_tokens ++ WordpieceTokenizer.tokenize (wordpiece_tokenizer self) x)
        [] (cut text).

(** [encode(self, text)] *)
Definition encode (text : str) : result (list Z) :=
  mapM (dict_getitem (encoder self)) (tokenize text).

(** [decode(self, tokens)], on a list of ids. *)
Definition decode (tokens : list Z) : result str :=
  let tokens := filter (λ i, 0 ≤ i)%Z tokens in
  pieces ← mapM (dict_getitem (decoder self)) tokens;
  Ok (concat pieces).

(** [check(self, token)] *)
Definition check (token : str) : bool := dict_contains (encoder self) token.

(** [convert_tokens_to_ids(self, tokens)]: the default of [get] is
    evaluated for every element. *)
Definition convert_tokens_to_ids (tokens : list str) : result (list Z) :=
  mapM (λ x, dflt ← dict_getitem (encoder self) (unk_token self);
             Ok (dict_get_default (encoder self) x dflt)) tokens.

(** [convert_ids_to_tokens(self, ids)] *)
Definition convert_ids_to_tokens (ids : list Z) : result (list str) :=
  mapM (λ x, if decide (0 ≤ x)%Z then dict_getitem (decoder self) x
             else Ok (unk_token self)) ids.

(** [logging.warning(...)] in [save_vocabulary]. The name [logging] is
    the module imported by [from ...utils import logging], whose messages
    go through the logger [logging.get_logger(__name__)] gives; the module
    has no attribute [warning], so the call raises at the attribute
    lookup, before anything is logged. *)
Definition logging_warning : result unit := Raise AttributeError.

(** The body of the loop of [save_vocabulary], on the state
    [(index, text written)]. *)
Definition save_step (st : Z * str) (item : str * Z) : result (Z * str) :=
  let '(index, written) := st in
  let '(token, token_index) := item in
  index ← (if decide (index ≠ token_index)
           then _ ← logging_warning; Ok token_index
           else Ok index);
  Ok ((index + 1)%Z, written ++ token ++ newline).

(** The loop of [save_vocabulary] over the items still to be written: the
    text the file holds when the loop ends or raises (the [with] block
    closes the file either way), and how the loop ends. *)
Fixpoint save_loop (items : list (str * Z)) (st : Z * str) : str * result unit :=
  match items with
  | [] => (st.2, Ok ())
  | item :: items =>
      match save_step st item with
      | Ok st => save_loop items st
      | Raise e => (st.2, Raise e)
      end
  end.

(** [save_vocabulary]: the text written to the vocabulary file, and
    whether the call returns or raises. The choice of the file name, which
    is also the value returned, is left out. *)
Definition save_vocabulary : str * result unit :=
  save_loop (dict_items (encoder self)) (0%Z, []).

(** [range(n)] and [[x] * n] for a Python integer [n]. *)
Definition py_range (n : Z) : list Z := Z.of_nat <$> seq 0 (Z.to_nat n).
Definition py_repeat (x : Z) (n : Z) : list Z := replicate (Z.to_nat n) x.

(** [_convert_to_tensors(self, input_text, prompt_length=32, task_id=2)].
    [self.unk_id] in the filter is looked up at least once, since the
    list starts with [bos_id]. *)
Definition _convert_to_tensors (input_text : str) (prompt_length task_id : Z)
  : result bundle :=
  bos ← bos_id self;
  ids ← encode input_text;
  let input_ids := bos :: ids in
  unk ← unk_id self;
  let input_ids := filter (λ j, j ≠ unk) input_ids in
  let input := ((λ x, x + prompt_length * task_id)%Z <$> py_range prompt_length)
                 ++ input_ids in
  let len := Z.of_nat (length input) in
  input_t ← list_to_tensor input;
  length_t ← int_to_tensor len;
  position_t ← list_to_tensor (py_range len);
  span_t ← list_to_tensor (py_repeat 0 len);
  context_t ← list_to_tensor (py_repeat 1 len);
  segment_t ← list_to_tensor
    (py_repeat 0 prompt_length ++ py_repeat 2 (Z.of_nat (length input_ids)));
  Ok [(py "input", VTensor input_t); (py "length", VTensor length_t);
      (py "position", VTensor position_t); (py "span", VTensor span_t);
      (py "context", VTensor context_t); (py "segment", VTensor segment_t)].

(** [get_model_input(self, text_list)]. The keys are iterated as a [set],
    in an order the language leaves open: [set_order] gives the order in
    which the keys of a set are met. *)
Definition get_model_input (set_order : list str → list str) (text_list : list str)
  : result (dict str tensor) :=
  input_tensors ← mapM (λ text, _convert_to_tensors text 32 2) text_list;
  first ← list_getitem input_tensors 0;
  let keys := set_order (dict_items first).*1 in
  foldl (λ acc key,
           padded ← acc;
           t ← pad input_tensors key 0 (py "left");
           Ok (dict_setitem padded key t))
        (Ok []) keys.
End methods.

End CPMAntTokenizerFast.

(** The names of the fields of a bundle, in the order they are set. *)
Definition bundle_keys : list str :=
  [py "input"; py "length"; py "position"; py "span"; py "context"; py "segment"].

(** How a token stands for a piece of the span: a vocabulary entry stands
    for itself, the unknown marker for one character that is no entry. *)
Definition token_of_piece (V : dict str Z) (unk : str) (piece tok : str) : Prop :=
  (dict_contains V piece = true ∧ piece ≠ [] ∧ tok = piece) ∨
  (dict_contains V piece = false ∧ length piece = 1 ∧ tok = unk).

(** The vocabulary of the specification's example. *)
Definition example_vocab : dict str Z :=
  [(py "<unk>", 0%Z); (py "<s>", 1%Z); (py "a", 2%Z); (py "b", 3%Z);
   (py "ab", 4%Z); (space, 5%Z)].

Definition example_wordpiece : WordpieceTokenizer.t :=
  WordpieceTokenizer.init example_vocab (py "<unk>").

(** A vocabulary file whose table is the specification's example
    vocabulary (plus the newline character). *)
Definition example_vocab_file : list str :=
  (λ token, token ++ newline) <$>
    [py "<unk>"; py "<s>"; py "a"; py "b"; py "ab"; py "</_>"; py "</n>"].

Definition example_encoder : dict str Z :=
  [(py "<unk>", 0%Z); (py "<s>", 1%Z); (py "a", 2%Z); (py "b", 3%Z);
   (py "ab", 4%Z); (space, 5%Z); (newline, 6%Z)].

Definition example_decoder : dict Z str :=
  [(0%Z, py "<unk>"); (1%Z, py "<s>"); (2%Z, py "a"); (3%Z, py "b");
   (4%Z, py "ab"); (5%Z, space); (6%Z, newline)].

(** The tokenizer [__init__] builds from [example_vocab_file] with the
    default keyword arguments ([init_example_tokenizer] below). *)
Definition example_tokenizer : CPMAntTokenizerFast.t := {|
  CPMAntTokenizerFast.bod_token := py "<d>";
  CPMAntTokenizerFast.eod_token := py "</d>";
  CPMAntTokenizerFast.bos_token := py "<s>";
  CPMAntTokenizerFast.eos_token := py "</s>";
  CPMAntTokenizerFast.pad_token := py "<pad>";
  CPMAntTokenizerFast.unk_token := py "<unk>";
  CPMAntTokenizerFast.encoder := example_encoder;
  CPMAntTokenizerFast.decoder := example_decoder;
  CPMAntTokenizerFast.wordpiece_tokenizer :=
    WordpieceTokenizer.init example_encoder (py "<unk>");
|}.

(** A vocabulary file without the unknown token. *)
Definition no_unk_vocab_file : list str :=
  (λ token, token ++ newline) <$> [py "</_>"; py "</n>"; py "a"].

Definition no_unk_encoder : dict str Z :=
  [(py "a", 2%Z); (space, 0%Z); (newline, 1%Z)].

Definition no_unk_tokenizer : CPMAntTokenizerFast.t := {|
  CPMAntTokenizerFast.bod_token := py "<d>";
  CPMAntTokenizerFast.eod_token := py "</d>";
  CPMAntTokenizerFast.bos_token := py "<s>";
  CPMAntTokenizerFast.eos_token := py "</s>";
  CPMAntTokenizerFast.pad_token := py "<pad>";
  CPMAntTokenizerFast.unk_token := py "<unk>";
  CPMAntTokenizerFast.encoder := no_unk_encoder;
  CPMAntTokenizerFast.decoder := [(2%Z, py "a"); (0%Z, space); (1%Z, newline)];
  CPMAntTokenizerFast.wordpiece_tokenizer :=
    WordpieceTokenizer.init no_unk_encoder (py "<unk>");
|}.

(** A vocabulary file whose placeholders are not its last two lines: the
    table built from it is not met in the order of its ids. *)
Definition unordered_vocab_file : list str :=
  (λ token, token ++ newline) <$>
    [py "<pad>"; py "<unk>"; py "</n>"; py "</_>"; py "a"; py "b"].

(** The tokenizer [__init__] builds from [unordered_vocab_file] with the
    default keyword arguments. *)
Definition unordered_tokenizer : CPMAntTokenizerFast.t := {|
  CPMAntTokenizerFast.bod_token := py "<d>";
  CPMAntTokenizerFast.eod_token := py "</d>";
  CPMAntTokenizerFast.bos_token := py "<s>";
  CPMAntTokenizerFast.eos_token := py "</s>";
  CPMAntTokenizerFast.pad_token := py "<pad>";
  CPMAntTokenizerFast.unk_token := py "<unk>";
  CPMAntTokenizerFast.encoder :=
    [(py "<pad>", 0%Z); (py "<unk>", 1%Z); (py "a", 4%Z); (py "b", 5%Z);
     (space, 3%Z); (newline, 2%Z)];
  CPMAntTokenizerFast.decoder :=
    [(0%Z, py "<pad>"); (1%Z, py "<unk>"); (4%Z, py "a"); (5%Z, py "b");
     (3%Z, space); (2%Z, newline)];
  CPMAntTokenizerFast.wordpiece_tokenizer :=
    WordpieceTokenizer.init
      [(py "<pad>", 0%Z); (py "<unk>", 1%Z); (py "a", 4%Z); (py "b", 5%Z);
       (space, 3%Z); (newline, 2%Z)] (py "<unk>");
|}.

(** A word segmenter that returns the text as its only span. *)
Definition whole_text_cut (text : str) : list str := [text].

(** The bundle built from "ac" with [prompt_length = 2] and [task_id = 2]
    (prefix ids 4 and 5), and with [task_id = 0] (prefix ids 0 and 1). *)
Definition example_bundle : bundle :=
  [(py "input", VTensor (T2 4 [[4; 5; 1; 2]%Z]));
   (py "length", VTensor (T1 [4%Z]));
   (py "position", VTensor (T2 4 [[0; 1; 2; 3]%Z]));
   (py "span", VTensor (T2 4 [[0; 0; 0; 0]%Z]));
   (py "context", VTensor (T2 4 [[1; 1; 1; 1]%Z]));
   (py "segment", VTensor (T2 4 [[0; 0; 2; 2]%Z]))].

Definition colliding_bundle : bundle :=
  [(py "input", VTensor (T2 4 [[0; 1; 1; 2]%Z]));
   (py "length", VTensor (T1 [4%Z]));
   (py "position", VTensor (T2 4 [[0; 1; 2; 3]%Z]));
   (py "span", VTensor (T2 4 [[0; 0; 0; 0]%Z]));
   (py "context", VTensor (T2 4 [[1; 1; 1; 1]%Z]));
   (py "segment", VTensor (T2 4 [[0; 0; 2; 2]%Z]))].

(** Batches of one-field bundles: rows of lengths 3 and 5, an empty row
    next to a row of length 3, and rank-1 tensors. *)
Definition example_batch : list bundle :=
  [field (py "input") (T2 3 [[1; 2; 3]%Z]); field (py "input") (T2 5 [[4; 5; 6; 7; 8]%Z])].

Definition empty_row_batch : list bundle :=
  [field (py "input") (T2 0 [[]]); field (py "input") (T2 3 [[1; 2; 3]%Z])].

Definition length_batch : list bundle :=
  [field (py "length") (T1 [3%Z]); field (py "length") (T1 [5%Z])].

Definition empty_first_batch : list bundle :=
  [field (py "length") (T1 []); field (py "length") (T1 [5%Z])].

(** Two texts, and the bundles the builder returns for them with the
    default prompt (32 prefix entries, task 2): rows of 34 and 35 entries. *)
Definition model_input_texts : list str := [py "a"; py "aab"].

Definition model_input_bundles : list bundle :=
  Eval vm_compute in
    match mapM (λ text, CPMAntTokenizerFast._convert_to_tensors
                          whole_text_cut example_tokenizer text 32 2)
               model_input_texts with
    | Ok bundles => bundles
    | Raise _ => []
    end.

(** * Properties *)

(** ** The error monad *)

(** Splits a chain of binds that is known to return. *)
Ltac bind_inv H :=
  repeat match type of H with
         | (?m ≫= _) = Ok _ =>
             let E := fresh "E" in
             destruct m eqn:E; cbn [mbind result_bind] in H; [|discriminate H]
         end.

Section mapM_facts.
Context {A B : Type}.
Implicit Types (f : A → result B) (l : list A).

Lemma mapM_cons f x l :
  mapM f (x :: l) = y ← f x; ys ← mapM f l; Ok (y :: ys).
Proof. done. Qed.

Lemma mapM_total f l (g : A → B) :
  (∀ x, x ∈ l → f x = Ok (g x)) → mapM f l = Ok (g <$> l).
Proof.
  induction l as [|x l IH]; intros Hf; [done|].
  rewrite mapM_cons, Hf by left. cbn [mbind result_bind].
  rewrite IH by (intros; apply Hf; by right). done.
Qed.

Lemma mapM_Ok_inv f l ys :
  mapM f l = Ok ys → Forall2 (λ x y, f x = Ok y) l ys.
Proof.
  revert ys. induction l as [|x l IH]; intros ys.
  - intros [= <-]. constructor.
  - rewrite mapM_cons. destruct (f x) as [y|] eqn:Hx; [|done]. cbn [mbind result_bind].
    destruct (mapM f l) as [ys'|]; [|done]. intros [= <-]. constructor; auto.
Qed.

Lemma mapM_Forall2 f l ys :
  Forall2 (λ x y, f x = Ok y) l ys → mapM f l = Ok ys.
Proof.
  induction 1 as [|x y l ys Hxy _ IH]; [done|].
  rewrite mapM_cons, Hxy. cbn [mbind result_bind]. by rewrite IH.
Qed.

Lemma mapM_Ok_elem f l ys y :
  mapM f l = Ok ys → y ∈ ys → ∃ x, x ∈ l ∧ f x = Ok y.
Proof.
  intros H%mapM_Ok_inv. induction H as [|x y' l ys Hxy _ IH].
  - by intros ?%elem_of_nil.
  - intros [->|Hy]%elem_of_cons.
    + exists x. split; [left|done].
    + destruct (IH Hy) as (x' & ? & ?). exists x'. split; [by right|done].
Qed.

Lemma mapM_raise f l e :
  Exists (λ x, f x = Raise e) l →
  Forall (λ x, is_Ok (f x) ∨ f x = Raise e) l →
  mapM f l = Raise e.
Proof.
  induction l as [|x l IH]; intros Hex Hall; [by apply Exists_nil in Hex|].
  apply Forall_cons in Hall as [Hx Hall]. rewrite mapM_cons.
  destruct Hx as [[y Hy]|Hx]; [|by rewrite Hx].
  rewrite Hy. cbn [mbind result_bind].
  apply Exists_cons in Hex as [Hex|Hex]; [congruence|].
  by rewrite IH.
Qed.
End mapM_facts.


(** ** Dictionaries *)
Section dict_facts.
Context {K V : Type} `{EqDecision K}.
Implicit Types (d : dict K V) (k : K) (v : V).

Lemma dict_get_setitem d k v k' :
  dict_get (dict_setitem d k v) k' = if decide (k = k') then Some v else dict_get d k'.
Proof.
  induction d as [|[k0 v0] d IH]; simpl.
  - repeat case_decide; congruence.
  - repeat (case_decide; simpl); try congruence.
Qed.

Lemma dict_get_filter_ne d k k' :
  dict_get (filter (λ kv, kv.1 ≠ k) d) k' = if decide (k = k') then None else dict_get d k'.
Proof.
  induction d as [|[k0 v0] d IH].
  - simpl. by case_decide.
  - rewrite filter_cons. simpl.
    repeat (case_decide; simpl); try congruence.
Qed.

Lemma dict_get_Some_elem d k v : dict_get d k = Some v → (k, v) ∈ d.
Proof.
  induction d as [|[k0 v0] d IH]; simpl; [done|].
  case_decide; intros; simplify_eq; [left | right; auto].
Qed.

Lemma dict_get_None_keys d k : dict_get d k = None ↔ k ∉ d.*1.
Proof.
  induction d as [|[k0 v0] d IH]; csimpl.
  - split; [intros _; apply not_elem_of_nil | done].
  - rewrite not_elem_of_cons, <- IH. case_decide; [|split; [split|intros []]; done].
    split; [done|]. intros [? _]. congruence.
Qed.

Lemma dict_elem_get d k v : dict_wf d → (k, v) ∈ d → dict_get d k = Some v.
Proof.
  unfold dict_wf. induction d as [|[k0 v0] d IH]; csimpl.
  - intros _ H. by apply elem_of_nil in H.
  - rewrite NoDup_cons. intros [Hk0 Hnd] [Heq | Hin]%elem_of_cons.
    + simplify_eq. by rewrite decide_True.
    + case_decide as Hd; [|auto]. subst k0. exfalso. apply Hk0.
      apply list_elem_of_fmap. by exists (k, v).
Qed.

Lemma dict_setitem_keys d k v :
  (dict_setitem d k v).*1 = if dict_contains d k then d.*1 else d.*1 ++ [k].
Proof.
  unfold dict_contains. induction d as [|[k0 v0] d IH]; csimpl; [done|].
  case_decide; csimpl; [by subst|].
  rewrite IH. by destruct (dict_get d k).
Qed.

Lemma dict_setitem_wf d k v : dict_wf d → dict_wf (dict_setitem d k v).
Proof.
  unfold dict_wf. rewrite dict_setitem_keys. unfold dict_contains.
  destruct (dict_get d k) eqn:E; [done|].
  intros Hnd. apply NoDup_app. split_and!; [done| |apply NoDup_singleton].
  intros x Hx ->%list_elem_of_singleton. by apply dict_get_None_keys in E.
Qed.

Lemma dict_filter_wf d (P : K * V → Prop) `{∀ x, Decision (P x)} :
  dict_wf d → dict_wf (filter P d).
Proof.
  unfold dict_wf. induction d as [|[k0 v0] d IH]; csimpl; [done|].
  rewrite NoDup_cons. intros [Hk0 Hnd]. rewrite filter_cons.
  case_decide; csimpl; [|auto].
  apply NoDup_cons. split; [|auto].
  intros ([k1 v1] & ? & [_ Hin]%list_elem_of_filter)%list_elem_of_fmap. simpl in *. subst k1.
  apply Hk0. apply list_elem_of_fmap. by exists (k0, v1).
Qed.

Lemma dict_getitem_Ok d k v : dict_getitem d k = Ok v ↔ dict_get d k = Some v.
Proof. unfold dict_getitem. destruct (dict_get d k); split; congruence. Qed.

Lemma dict_delitem_Ok d k d' :
  dict_delitem d k = Ok d' ↔ is_Some (dict_get d k) ∧ d' = filter (λ kv, kv.1 ≠ k) d.
Proof.
  unfold dict_delitem, dict_contains.
  destruct (dict_get d k) eqn:E.
  - split; [intros [= <-]; eauto | intros [_ ->]; done].
  - split; [done | intros [[? ?] _]; done].
Qed.
End dict_facts.

(** ** WordpieceTokenizer.tokenize *)
Section wordpiece_facts.
Import WordpieceTokenizer.
Variable self : WordpieceTokenizer.t.
Variable chars : list char.

(** What the inner loop returns: the end it stopped at is a match, and no
    longer candidate is. *)
Lemma inner_loop_Some start end_ e s :
  inner_loop self chars start end_ = Some (e, s) →
  start < e ≤ end_ ∧ s = slice chars start e ∧
  dict_contains (vocab self) s = true ∧
  ∀ e', e < e' ≤ end_ → dict_contains (vocab self) (slice chars start e') = false.
Proof.
  induction end_ as [|end' IH]; simpl; [done|].
  case_decide as Hlt; [|done].
  destruct (dict_contains (vocab self) (slice chars start (S end'))) eqn:Hc.
  - intros [= <- <-]. split_and!; [lia|lia|done|done|intros; lia].
  - intros (? & ? & ? & Hmax)%IH. split_and!; [lia|lia|done|done|].
    intros e' He'. destruct (decide (e' = S end')) as [->|]; [done|].
    apply Hmax. lia.
Qed.

Lemma inner_loop_None start end_ :
  inner_loop self chars start end_ = None →
  ∀ e', start < e' ≤ end_ → dict_contains (vocab self) (slice chars start e') = false.
Proof.
  induction end_ as [|end' IH]; simpl; [intros; lia|].
  case_decide as Hlt; [|intros; lia].
  destruct (dict_contains (vocab self) (slice chars start (S end'))) eqn:Hc; [done|].
  intros Hn e' He'. destruct (decide (e' = S end')) as [->|]; [done|].
  apply IH; [done|lia].
Qed.

(** The cursor moves forward, and stays within the span. *)
Lemma loop_body_progress start acc :
  start < length chars →
  start < (loop_body self chars (start, acc)).1 ≤ length chars ∧
  length (loop_body self chars (start, acc)).2 = S (length acc).
Proof.
  intros Hlt. unfold loop_body.
  destruct (inner_loop self chars start (length chars)) as [[e s]|] eqn:E; simpl.
  - apply inner_loop_Some in E as (? & _). rewrite length_app. simpl. lia.
  - rewrite length_app. simpl. lia.
Qed.

Lemma while_loop_unfold fuel st :
  while_loop self chars fuel st =
  if decide (st.1 < length chars) then
    match fuel with
    | 0 => None
    | S fuel' => while_loop self chars fuel' (loop_body self chars st)
    end
  else Some st.2.
Proof. by destruct fuel. Qed.

(** A budget of [len(chars) - start] iterations is enough. *)
Lemma while_loop_total fuel st :
  length chars - st.1 ≤ fuel →
  ∃ toks, while_loop self chars fuel st = Some toks ∧
          length st.2 + (if decide (st.1 < length chars) then 1 else 0) ≤ length toks.
Proof.
  revert st. induction fuel as [|fuel IH]; intros [start acc] Hfuel;
    rewrite while_loop_unfold; cbn [fst snd] in *.
  - case_decide; [lia|]. exists acc. split; [done|lia].
  - case_decide as Hlt; [|exists acc; split; [done|lia]].
    destruct (loop_body_progress start acc Hlt) as [Hp Hl].
    destruct (IH (loop_body self chars (start, acc))) as (toks & -> & Hlen); [lia|].
    exists toks. split; [done|]. rewrite Hl in Hlen. lia.
Qed.

(** A larger budget does not change the result. *)
Lemma while_loop_mono fuel fuel' st toks :
  while_loop self chars fuel st = Some toks → fuel ≤ fuel' →
  while_loop self chars fuel' st = Some toks.
Proof.
  revert fuel' st. induction fuel as [|fuel IH]; intros fuel' st;
    rewrite !(while_loop_unfold _ st); case_decide; try done.
  destruct fuel' as [|fuel']; [lia|]. intros Hrun Hle. apply IH; [done|lia].
Qed.

(** The inner loop is the search through the prefixes of the rest of the
    span, longest first. *)
Lemma rev_seq_S n : rev (seq 1 (S n)) = S n :: rev (seq 1 n).
Proof. by rewrite seq_S, rev_app_distr. Qed.

Lemma inner_loop_find start n :
  inner_loop self chars start (start + n) =
  (λ k, (start + k, take k (drop start chars))) <$>
    List.find (λ k, dict_contains (vocab self) (take k (drop start chars)))
              (rev (seq 1 n)).
Proof.
  induction n as [|n IH].
  - rewrite Nat.add_0_r. destruct start; simpl; [done|]. by rewrite decide_False by lia.
  - rewrite rev_seq_S, Nat.add_succ_r. cbn [inner_loop List.find].
    rewrite decide_True by lia.
    unfold slice at 1 2. replace (S (start + n) - start) with (S n) by lia.
    destruct (dict_contains (vocab self) (take (S n) (drop start chars))); [|exact IH].
    simpl. by rewrite Nat.add_succ_r.
Qed.

Lemma inner_loop_longest_match start :
  start ≤ length chars →
  inner_loop self chars start (length chars) =
  (λ k, (start + k, take k (drop start chars))) <$>
    longest_match (vocab self) (drop start chars).
Proof.
  intros Hle. unfold longest_match. rewrite length_drop.
  rewrite <- inner_loop_find. f_equal. lia.
Qed.

Lemma longest_match_bounds V rest k :
  longest_match V rest = Some k → 1 ≤ k ≤ length rest.
Proof.
  unfold longest_match. intros [Hin _]%find_some.
  apply in_rev, in_seq in Hin. lia.
Qed.

Lemma spec_scan_S V unk fuel rest :
  rest ≠ [] →
  spec_scan V unk (S fuel) rest =
  match longest_match V rest with
  | Some k => take k rest :: spec_scan V unk fuel (drop k rest)
  | None => unk :: spec_scan V unk fuel (drop 1 rest)
  end.
Proof. by destruct rest. Qed.

(** The loop of the source computes the scan of the specification. *)
Lemma while_loop_spec_scan fuel start acc :
  start ≤ length chars → length chars - start ≤ fuel →
  while_loop self chars fuel (start, acc) =
  Some (acc ++ spec_scan (vocab self) (unk_token self) fuel (drop start chars)).
Proof.
  revert start acc. induction fuel as [|fuel IH]; intros start acc Hle Hfuel;
    rewrite while_loop_unfold; cbn [fst snd].
  - rewrite decide_False by lia. rewrite drop_ge by lia.
    by rewrite app_nil_r.
  - case_decide as Hlt.
    + unfold loop_body. rewrite inner_loop_longest_match by done.
      rewrite spec_scan_S.
      2:{ intros Hd%(f_equal length). rewrite length_drop in Hd. simpl in Hd. lia. }
      destruct (longest_match (vocab self) (drop start chars)) as [k|] eqn:Hm; simpl.
      * pose proof (longest_match_bounds _ _ _ Hm) as Hk. rewrite length_drop in Hk.
        rewrite IH by lia. rewrite drop_drop, <- app_assoc. done.
      * rewrite IH by lia. rewrite drop_drop, <- app_assoc. done.
    + rewrite drop_ge by lia. by rewrite app_nil_r.
Qed.
End wordpiece_facts.


(** What [longest_match] finds is a vocabulary entry, and no longer prefix
    of the rest is one. *)
Lemma longest_match_Some V rest k :
  WordpieceTokenizer.longest_match V rest = Some k →
  1 ≤ k ≤ length rest ∧ dict_contains V (take k rest) = true ∧
  ∀ k', k < k' ≤ length rest → dict_contains V (take k' rest) = false.
Proof.
  unfold WordpieceTokenizer.longest_match.
  induction (length rest) as [|n IH].
  - done.
  - rewrite rev_seq_S. cbn [List.find].
    destruct (dict_contains V (take (S n) rest)) eqn:Hc.
    + intros [= <-]. split_and!; [lia|lia|done|intros; lia].
    + intros (? & ? & Hmax)%IH. split_and!; [lia|lia|done|].
      intros k' Hk'. destruct (decide (k' = S n)) as [->|]; [done|]. apply Hmax. lia.
Qed.

Lemma longest_match_None V rest :
  WordpieceTokenizer.longest_match V rest = None →
  ∀ k, 1 ≤ k ≤ length rest → dict_contains V (take k rest) = false.
Proof.
  unfold WordpieceTokenizer.longest_match. intros Hf k Hk.
  apply (find_none _ _ Hf k). apply -> in_rev. apply in_seq. lia.
Qed.

(** C1. The greedy subword segmenter is the reference algorithm of the
    specification: a span longer than the guard yields the unknown marker
    alone; otherwise the span is scanned left to right, each step emitting
    the longest vocabulary entry that starts at the cursor, or the unknown
    marker with the cursor moved by one. On the example vocabulary, "ab"
    yields ["ab"] and "ac" yields ["a", "<unk>"]. *)
Theorem wordpiece_tokenize_is_spec_tokenize :
  (∀ (self : WordpieceTokenizer.t) (token : str),
     WordpieceTokenizer.tokenize self token =
     WordpieceTokenizer.spec_tokenize
       (WordpieceTokenizer.vocab self) (WordpieceTokenizer.unk_token self)
       (WordpieceTokenizer.max_input_chars_per_word self) token) ∧
  (∀ (vocab : dict str Z) (unk_token token : str),
     200 < length token →
     WordpieceTokenizer.tokenize (WordpieceTokenizer.init vocab unk_token) token
     = [unk_token]) ∧
  WordpieceTokenizer.tokenize example_wordpiece (py "ab") = [py "ab"] ∧
  WordpieceTokenizer.tokenize example_wordpiece (py "ac") = [py "a"; py "<unk>"].
Proof.
  split_and!; [| |vm_compute; reflexivity..].
  - intros self token.
    unfold WordpieceTokenizer.tokenize, WordpieceTokenizer.spec_tokenize.
    case_decide; [done|].
    rewrite while_loop_spec_scan by lia. done.
  - intros vocab unk_token token Hlen. unfold WordpieceTokenizer.tokenize. simpl.
    rewrite decide_True by lia. done.
Qed.

(** C2. On a nonempty span within the guard the segmenter terminates (any
    budget of at least [len(chars)] iterations lets the outer loop exit),
    emits at least one token, and every iteration of the outer loop moves
    the cursor strictly forward, never past the end of the span. *)
Theorem wordpiece_tokenize_progress (self : WordpieceTokenizer.t) (token : str) :
  token ≠ [] →
  (Z.of_nat (length token) ≤ WordpieceTokenizer.max_input_chars_per_word self)%Z →
  (∀ fuel, length token ≤ fuel →
     ∃ toks, WordpieceTokenizer.while_loop self token fuel (0, []) = Some toks ∧
             WordpieceTokenizer.tokenize self token = toks ∧
             1 ≤ length toks) ∧
  (∀ start sub_tokens, start < length token →
     start < (WordpieceTokenizer.loop_body self token (start, sub_tokens)).1
           ≤ length token).
Proof.
  intros Hne Hguard. split.
  - intros fuel Hfuel.
    destruct (while_loop_total self token (length token) (0, [])) as (toks & Hrun & Hlen);
      [simpl; lia|].
    exists toks. split_and!.
    + by apply (while_loop_mono _ _ (length token)).
    + unfold WordpieceTokenizer.tokenize. rewrite decide_False by lia.
      by rewrite Hrun.
    + cbn [fst snd] in Hlen. rewrite decide_True in Hlen; [simpl in Hlen; lia|].
      destruct token; [done|simpl; lia].
  - intros start acc Hlt. by apply loop_body_progress.
Qed.

Lemma wordpiece_tokenize_progress_witness :
  py "ac" ≠ [] ∧
  (Z.of_nat (length (py "ac")) ≤
   WordpieceTokenizer.max_input_chars_per_word example_wordpiece)%Z ∧
  (∀ fuel, length (py "ac") ≤ fuel →
     ∃ toks, WordpieceTokenizer.while_loop example_wordpiece (py "ac") fuel (0, []) = Some toks ∧
             WordpieceTokenizer.tokenize example_wordpiece (py "ac") = toks ∧
             1 ≤ length toks) ∧
  (∀ start sub_tokens, start < length (py "ac") →
     start < (WordpieceTokenizer.loop_body example_wordpiece (py "ac") (start, sub_tokens)).1
           ≤ length (py "ac")).
Proof.
  assert (Hne : py "ac" ≠ []) by (vm_compute; discriminate).
  assert (Hg : (Z.of_nat (length (py "ac")) ≤
                WordpieceTokenizer.max_input_chars_per_word example_wordpiece)%Z)
    by (vm_compute; discriminate).
  split; [exact Hne|]. split; [exact Hg|].
  exact (wordpiece_tokenize_progress example_wordpiece (py "ac") Hne Hg).
Defined.

(** ** load_vocab *)

Lemma rstrip_newline_not_newline token : rstrip_newline token ≠ newline.
Proof.
  destruct token as [|c token]; simpl; [done|].
  destruct (rstrip_newline token) eqn:E.
  - case_decide; [done|]. unfold newline. congruence.
  - done.
Qed.

Lemma enumerate_snoc {A} (l : list A) x :
  enumerate (l ++ [x]) = enumerate l ++ [(length l, x)].
Proof.
  unfold enumerate. rewrite length_app. simpl.
  rewrite seq_app. simpl. rewrite zip_with_app by (by rewrite length_seq). done.
Qed.

Lemma load_vocab_snoc lines token :
  load_vocab (lines ++ [token]) =
  dict_setitem (load_vocab lines) (rstrip_newline token) (Z.of_nat (length lines)).
Proof. unfold load_vocab. by rewrite enumerate_snoc, foldl_app. Qed.

Lemma load_vocab_wf lines : dict_wf (load_vocab lines).
Proof.
  induction lines as [|token lines IH] using rev_ind.
  - apply NoDup_nil_2.
  - rewrite load_vocab_snoc. by apply dict_setitem_wf.
Qed.

(** An id of the loaded table is the index of a line that holds the token. *)
Lemma load_vocab_get lines k v :
  dict_get (load_vocab lines) k = Some v →
  ∃ i, v = Z.of_nat i ∧ (rstrip_newline <$> lines) !! i = Some k.
Proof.
  induction lines as [|token lines IH] using rev_ind; [done|].
  rewrite load_vocab_snoc, dict_get_setitem. rewrite fmap_app. simpl.
  case_decide as Hk.
  - intros [= <-]. exists (length lines). split; [done|].
    rewrite lookup_app_r by (by rewrite length_fmap).
    rewrite length_fmap, Nat.sub_diag. simpl. by rewrite Hk.
  - intros (i & -> & Hi)%IH. exists i. split; [done|].
    by apply lookup_app_l_Some.
Qed.

(** The tokens of the loaded table are the tokens of the file. *)
Lemma load_vocab_keys lines k :
  is_Some (dict_get (load_vocab lines) k) ↔ k ∈ rstrip_newline <$> lines.
Proof.
  induction lines as [|token lines IH] using rev_ind.
  - simpl. split; [by intros [? ?] | by intros ?%elem_of_nil].
  - rewrite load_vocab_snoc, dict_get_setitem, fmap_app, elem_of_app, <- IH. simpl.
    rewrite list_elem_of_singleton. case_decide.
    + split; [auto | eauto].
    + split; [auto | intros [?|?]; [done|congruence]].
Qed.

(** Distinct tokens have distinct ids. *)
Lemma load_vocab_injective lines k1 k2 v :
  dict_get (load_vocab lines) k1 = Some v →
  dict_get (load_vocab lines) k2 = Some v → k1 = k2.
Proof.
  intros (i1 & -> & H1)%load_vocab_get (i2 & Hi & H2)%load_vocab_get.
  apply Nat2Z.inj in Hi. subst. congruence.
Qed.

(** ** CPMAntTokenizerFast.__init__ *)

Lemma invert_snoc items k v :
  CPMAntTokenizerFast.invert (items ++ [(k, v)]) =
  dict_setitem (CPMAntTokenizerFast.invert items) v k.
Proof. unfold CPMAntTokenizerFast.invert. by rewrite foldl_app. Qed.

Lemma invert_get_elem items i t :
  dict_get (CPMAntTokenizerFast.invert items) i = Some t → (t, i) ∈ items.
Proof.
  induction items as [|[k v] items IH] using rev_ind; [done|].
  rewrite invert_snoc, dict_get_setitem, elem_of_app, list_elem_of_singleton.
  case_decide; [intros [= <-]; subst; auto | auto].
Qed.

Lemma invert_elem_get items i t :
  (t, i) ∈ items → is_Some (dict_get (CPMAntTokenizerFast.invert items) i).
Proof.
  induction items as [|[k v] items IH] using rev_ind; [by intros ?%elem_of_nil|].
  rewrite invert_snoc, dict_get_setitem, elem_of_app, list_elem_of_singleton.
  case_decide; [eauto|]. intros [?|[= -> ->]]; [auto|done].
Qed.

(** The two maps of a table with unique keys and distinct ids are inverse
    to each other. *)
Lemma invert_inverse (enc : dict str Z) :
  dict_wf enc →
  (∀ k1 k2 v, dict_get enc k1 = Some v → dict_get enc k2 = Some v → k1 = k2) →
  ∀ t i, dict_get enc t = Some i ↔ dict_get (CPMAntTokenizerFast.invert enc) i = Some t.
Proof.
  intros Hwf Hinj t i. split.
  - intros Ht. destruct (invert_elem_get enc i t) as [t' Ht'];
      [by apply dict_get_Some_elem|].
    rewrite Ht'. f_equal. apply (Hinj _ _ i); [|done].
    by apply dict_elem_get, invert_get_elem.
  - intros Hi. by apply dict_elem_get, invert_get_elem.
Qed.

Section init_facts.
Import CPMAntTokenizerFast.
Variable vocab_file : list str.
Variable cfg : config.
Variable tk : t.
Hypothesis Hinit : init vocab_file cfg = Ok tk.

Local Abbreviation E0 := (load_vocab vocab_file).
Local Abbreviation s := (cfg_space_token cfg).
Local Abbreviation l := (cfg_line_token cfg).

(** What a successful construction went through. *)
Lemma init_Ok_inv :
  ∃ space_id line_id,
    dict_get E0 s = Some space_id ∧
    dict_get (dict_setitem E0 space space_id) l = Some line_id ∧
    s ≠ l ∧
    encoder tk =
      filter (λ kv, kv.1 ≠ l)
        (filter (λ kv, kv.1 ≠ s)
           (dict_setitem (dict_setitem E0 space space_id) newline line_id)) ∧
    decoder tk = invert (encoder tk) ∧
    unk_token tk = cfg_unk_token cfg ∧
    wordpiece_tokenizer tk = WordpieceTokenizer.init (encoder tk) (unk_token tk).
Proof.
  revert Hinit. unfold init.
  destruct (dict_getitem E0 s) as [space_id|] eqn:Hs; [|done]. cbn [mbind result_bind].
  destruct (dict_getitem (dict_setitem E0 space space_id) l) as [line_id|] eqn:Hl;
    [|done]. cbn [mbind result_bind].
  destruct (dict_delitem _ s) as [E3|] eqn:H3; [|done]. cbn [mbind result_bind].
  destruct (dict_delitem E3 l) as [E4|] eqn:H4; [|done]. cbn [mbind result_bind].
  intros [= <-]. simpl.
  apply dict_getitem_Ok in Hs, Hl.
  apply dict_delitem_Ok in H3 as [_ ->]. apply dict_delitem_Ok in H4 as [[x Hx] ->].
  exists space_id, line_id. split_and!; try done.
  intros Heq. rewrite dict_get_filter_ne, decide_True in Hx; done.
Qed.

(** The constructed table, entry by entry. *)
Lemma init_encoder_get k :
  ∃ space_id line_id,
    dict_get E0 s = Some space_id ∧
    dict_get (dict_setitem E0 space space_id) l = Some line_id ∧
    s ≠ l ∧
    dict_get (encoder tk) k =
      if decide (l = k) then None
      else if decide (s = k) then None
      else if decide (newline = k) then Some line_id
      else if decide (space = k) then Some space_id
      else dict_get E0 k.
Proof.
  destruct init_Ok_inv as (space_id & line_id & Hs & Hl & Hne & -> & _).
  exists space_id, line_id. split_and!; try done.
  by rewrite !dict_get_filter_ne, !dict_get_setitem.
Qed.

Lemma init_encoder_wf : dict_wf (encoder tk).
Proof.
  destruct init_Ok_inv as (space_id & line_id & _ & _ & _ & -> & _).
  do 2 apply dict_filter_wf. do 2 apply dict_setitem_wf. apply load_vocab_wf.
Qed.

Lemma init_encoder_injective k1 k2 v :
  dict_get (encoder tk) k1 = Some v → dict_get (encoder tk) k2 = Some v → k1 = k2.
Proof.
  destruct (init_encoder_get k1) as (sid & lid & Hs & Hl & Hne & ->).
  destruct (init_encoder_get k2) as (sid' & lid' & Hs' & Hl' & _ & ->).
  assert (sid' = sid) as -> by congruence.
  assert (lid' = lid) as -> by congruence.
  rewrite dict_get_setitem in Hl.
  pose proof (load_vocab_injective vocab_file) as Hinj.
  clear Hs' Hl'.
  repeat case_decide; try done; intros Hk1 Hk2; simplify_eq; try congruence;
    try (by eapply Hinj);
    exfalso;
    match goal with
    | Ha : dict_get _ ?a = Some ?v, Hb : dict_get _ ?b = Some ?v, Hn : ?a ≠ ?b |- _ =>
        exact (Hn (Hinj a b v Ha Hb))
    end.
Qed.
End init_facts.

Lemma init_example_tokenizer :
  CPMAntTokenizerFast.init example_vocab_file CPMAntTokenizerFast.default_config
  = Ok example_tokenizer.
Proof. vm_compute. reflexivity. Qed.

(** C3. After construction the encoder and the decoder are inverse to each
    other: [decoder[encoder[t]] == t] for every token of the encoder, and
    [encoder[decoder[i]] == i] for every id of the decoder. *)
Theorem encoder_decoder_inverse (vocab_file : list str)
    (cfg : CPMAntTokenizerFast.config) (tk : CPMAntTokenizerFast.t) :
  CPMAntTokenizerFast.init vocab_file cfg = Ok tk →
  (∀ t, dict_contains (CPMAntTokenizerFast.encoder tk) t = true →
        (i ← dict_getitem (CPMAntTokenizerFast.encoder tk) t;
         dict_getitem (CPMAntTokenizerFast.decoder tk) i) = Ok t) ∧
  (∀ i, dict_contains (CPMAntTokenizerFast.decoder tk) i = true →
        (t ← dict_getitem (CPMAntTokenizerFast.decoder tk) i;
         dict_getitem (CPMAntTokenizerFast.encoder tk) t) = Ok i).
Proof.
  intros Hinit.
  destruct (init_Ok_inv _ _ _ Hinit) as (_ & _ & _ & _ & _ & _ & Hdec & _).
  pose proof (invert_inverse _ (init_encoder_wf _ _ _ Hinit)
                (init_encoder_injective _ _ _ Hinit)) as Hinv.
  rewrite <- Hdec in Hinv. unfold dict_contains, dict_getitem. split.
  - intros t Ht. destruct (dict_get _ t) as [i|] eqn:E; [|done].
    apply Hinv in E. cbn [mbind result_bind]. by rewrite E.
  - intros i Hi. destruct (dict_get _ i) as [t|] eqn:E; [|done].
    apply Hinv in E. cbn [mbind result_bind]. by rewrite E.
Qed.

Lemma encoder_decoder_inverse_witness :
  CPMAntTokenizerFast.init example_vocab_file CPMAntTokenizerFast.default_config
    = Ok example_tokenizer ∧
  (∀ t, dict_contains (CPMAntTokenizerFast.encoder example_tokenizer) t = true →
        (i ← dict_getitem (CPMAntTokenizerFast.encoder example_tokenizer) t;
         dict_getitem (CPMAntTokenizerFast.decoder example_tokenizer) i) = Ok t) ∧
  (∀ i, dict_contains (CPMAntTokenizerFast.decoder example_tokenizer) i = true →
        (t ← dict_getitem (CPMAntTokenizerFast.decoder example_tokenizer) i;
         dict_getitem (CPMAntTokenizerFast.encoder example_tokenizer) t) = Ok i).
Proof.
  assert (H : CPMAntTokenizerFast.init example_vocab_file
                CPMAntTokenizerFast.default_config = Ok example_tokenizer)
    by (vm_compute; reflexivity).
  split; [exact H|].
  exact (encoder_decoder_inverse example_vocab_file
           CPMAntTokenizerFast.default_config example_tokenizer H).
Defined.

(** C4. When the vocabulary file holds both placeholder tokens (dedicated
    tokens: distinct from each other and from the space character), the
    constructed table is the file's table with two swaps: the space
    character holds the id the file gave to the space placeholder, the
    newline character the id of the line placeholder, both placeholders
    are gone, and every other token keeps the id of its line in the file. *)
Theorem init_swaps_placeholders (vocab_file : list str)
    (cfg : CPMAntTokenizerFast.config) :
  let s := CPMAntTokenizerFast.cfg_space_token cfg in
  let l := CPMAntTokenizerFast.cfg_line_token cfg in
  let file_tokens := rstrip_newline <$> vocab_file in
  s ∈ file_tokens → l ∈ file_tokens → s ≠ l → s ≠ space → l ≠ space →
  ∃ tk, CPMAntTokenizerFast.init vocab_file cfg = Ok tk ∧
    let enc := CPMAntTokenizerFast.encoder tk in
    dict_get enc space = dict_get (load_vocab vocab_file) s ∧
    dict_get enc newline = dict_get (load_vocab vocab_file) l ∧
    dict_get enc s = None ∧ dict_get enc l = None ∧
    (∀ k, k ≠ space → k ≠ newline → k ≠ s → k ≠ l →
          dict_get enc k = dict_get (load_vocab vocab_file) k) ∧
    (∀ k, is_Some (dict_get enc k) ↔
          k = space ∨ k = newline ∨ (k ∈ file_tokens ∧ k ≠ s ∧ k ≠ l)) ∧
    (∀ k i, dict_get (load_vocab vocab_file) k = Some i →
            ∃ n, i = Z.of_nat n ∧ file_tokens !! n = Some k).
Proof.
  intros s l file_tokens Hs Hl Hsl Hss Hls.
  assert (Hsn : s ≠ newline).
  { intros E. rewrite E in Hs. apply list_elem_of_fmap in Hs as (x & Hx & _).
    by apply (rstrip_newline_not_newline x). }
  assert (Hln : l ≠ newline).
  { intros E. rewrite E in Hl. apply list_elem_of_fmap in Hl as (x & Hx & _).
    by apply (rstrip_newline_not_newline x). }
  apply load_vocab_keys in Hs as [sid Hsid]. apply load_vocab_keys in Hl as [lid Hlid].
  destruct (CPMAntTokenizerFast.init vocab_file cfg) as [tk|e] eqn:Hinit.
  - exists tk. split; [done|]. cbn zeta.
    assert (Hget : ∀ k, dict_get (CPMAntTokenizerFast.encoder tk) k =
              if decide (l = k) then None
              else if decide (s = k) then None
              else if decide (newline = k) then Some lid
              else if decide (space = k) then Some sid
              else dict_get (load_vocab vocab_file) k).
    { intros k. destruct (init_encoder_get _ _ _ Hinit k) as (sid' & lid' & H1 & H2 & _ & ->).
      fold s l in H1, H2 |- *. rewrite dict_get_setitem, decide_False in H2 by done.
      by simplify_eq. }
    split_and!.
    + rewrite Hget, Hsid. by rewrite !decide_False, decide_True by done.
    + rewrite Hget, Hlid. by rewrite !decide_False, decide_True by done.
    + rewrite Hget. case_decide; [done|]. by rewrite decide_True.
    + rewrite Hget. by rewrite decide_True.
    + intros k ? ? ? ?. rewrite Hget. by rewrite !decide_False by done.
    + intros k. rewrite Hget. unfold file_tokens. rewrite <- load_vocab_keys.
      repeat case_decide; subst; split; try (intros [? ?]; done); eauto;
        try (intros [?|[?|(? & ? & ?)]]; done); try naive_solver.
    + intros k i. apply load_vocab_get.
  - exfalso. revert Hinit. unfold CPMAntTokenizerFast.init. fold s l.
    rewrite (proj2 (dict_getitem_Ok _ _ _) Hsid). cbn [mbind result_bind].
    assert (H2 : dict_getitem (dict_setitem (load_vocab vocab_file) space sid) l = Ok lid).
    { apply dict_getitem_Ok. by rewrite dict_get_setitem, decide_False. }
    rewrite H2. cbn [mbind result_bind].
    set (E2 := dict_setitem _ newline lid).
    assert (H3 : dict_delitem E2 s = Ok (filter (λ kv, kv.1 ≠ s) E2)).
    { apply dict_delitem_Ok. split; [|done]. unfold E2.
      rewrite !dict_get_setitem, !decide_False by done. eauto. }
    rewrite H3. cbn [mbind result_bind].
    set (E3 := filter _ E2).
    assert (H4 : dict_delitem E3 l = Ok (filter (λ kv, kv.1 ≠ l) E3)).
    { apply dict_delitem_Ok. split; [|done]. unfold E3, E2.
      rewrite dict_get_filter_ne, !dict_get_setitem, !decide_False by done. eauto. }
    rewrite H4. done.
Qed.

Lemma init_swaps_placeholders_witness :
  let cfg := CPMAntTokenizerFast.default_config in
  let s := CPMAntTokenizerFast.cfg_space_token cfg in
  let l := CPMAntTokenizerFast.cfg_line_token cfg in
  let file_tokens := rstrip_newline <$> example_vocab_file in
  s ∈ file_tokens ∧ l ∈ file_tokens ∧ s ≠ l ∧ s ≠ space ∧ l ≠ space ∧
  ∃ tk, CPMAntTokenizerFast.init example_vocab_file cfg = Ok tk ∧
    let enc := CPMAntTokenizerFast.encoder tk in
    dict_get enc space = dict_get (load_vocab example_vocab_file) s ∧
    dict_get enc newline = dict_get (load_vocab example_vocab_file) l ∧
    dict_get enc s = None ∧ dict_get enc l = None ∧
    (∀ k, k ≠ space → k ≠ newline → k ≠ s → k ≠ l →
          dict_get enc k = dict_get (load_vocab example_vocab_file) k) ∧
    (∀ k, is_Some (dict_get enc k) ↔
          k = space ∨ k = newline ∨ (k ∈ file_tokens ∧ k ≠ s ∧ k ≠ l)) ∧
    (∀ k i, dict_get (load_vocab example_vocab_file) k = Some i →
            ∃ n, i = Z.of_nat n ∧ file_tokens !! n = Some k).
Proof.
  intros cfg s l file_tokens.
  assert (Hs : s ∈ file_tokens) by (vm_compute; do 5 right; left).
  assert (Hl : l ∈ file_tokens) by (vm_compute; do 6 right; left).
  assert (Hsl : s ≠ l) by (vm_compute; discriminate).
  assert (Hss : s ≠ space) by (vm_compute; discriminate).
  assert (Hls : l ≠ space) by (vm_compute; discriminate).
  split_and!; try done.
  exact (init_swaps_placeholders example_vocab_file cfg Hs Hl Hsl Hss Hls).
Defined.

(** ** CPMAntTokenizerFast: tokenize, encode and the conversions *)

(** Every token the segmenter emits is the unknown marker or a vocabulary
    entry. *)
Lemma wordpiece_tokenize_tokens (self : WordpieceTokenizer.t) (token x : str) :
  x ∈ WordpieceTokenizer.tokenize self token →
  x = WordpieceTokenizer.unk_token self ∨
  dict_contains (WordpieceTokenizer.vocab self) x = true.
Proof.
  unfold WordpieceTokenizer.tokenize. case_decide.
  - intros ->%list_elem_of_singleton. by left.
  - set (P := λ x : str, x = WordpieceTokenizer.unk_token self ∨
                dict_contains (WordpieceTokenizer.vocab self) x = true).
    assert (Hinv : ∀ fuel st toks,
               Forall P st.2 →
               WordpieceTokenizer.while_loop self token fuel st = Some toks →
               Forall P toks).
    { induction fuel as [|fuel IH]; intros [start acc] toks Hacc;
        rewrite while_loop_unfold; cbn [fst snd] in *; case_decide; try done;
        try (by intros [= <-]).
      apply IH. unfold WordpieceTokenizer.loop_body.
      destruct (WordpieceTokenizer.inner_loop _ _ _ _) as [[e s]|] eqn:E; cbn [snd].
      - apply inner_loop_Some in E as (_ & _ & Hc & _).
        apply Forall_app. split; [done|]. apply Forall_singleton. by right.
      - apply Forall_app. split; [done|]. apply Forall_singleton. by left. }
    destruct (WordpieceTokenizer.while_loop _ _ _ _) as [toks|] eqn:E; simpl.
    + intros Hx. apply Hinv in E; [|constructor].
      by apply (proj1 (Forall_forall _ _) E).
    + by intros ?%elem_of_nil.
Qed.

Lemma facade_tokenize_tokens (cut : str → list str) (tk : CPMAntTokenizerFast.t)
    (text x : str) :
  x ∈ CPMAntTokenizerFast.tokenize cut tk text →
  ∃ span, span ∈ cut text ∧
    x ∈ WordpieceTokenizer.tokenize (CPMAntTokenizerFast.wordpiece_tokenizer tk) span.
Proof.
  unfold CPMAntTokenizerFast.tokenize.
  assert (Hgen : ∀ spans acc,
    x ∈ foldl (λ out y, out ++ WordpieceTokenizer.tokenize
                 (CPMAntTokenizerFast.wordpiece_tokenizer tk) y) acc spans →
    x ∈ acc ∨ ∃ span, span ∈ spans ∧
      x ∈ WordpieceTokenizer.tokenize (CPMAntTokenizerFast.wordpiece_tokenizer tk) span).
  { induction spans as [|y spans IH]; intros acc; simpl; [auto|].
    intros [[?|?]%elem_of_app|(span & ? & ?)]%IH; [auto| |].
    - right. exists y. split; [left|done].
    - right. exists span. split; [by right|done]. }
  intros [?%elem_of_nil|?]%Hgen; done.
Qed.

(** C9 (as the code has it). Every token [tokenize] produces is a key of
    the encoder or the unknown marker; when the unknown marker is a key of
    the encoder, [encode] does not fail, whatever the text and the word
    segmenter. *)
Theorem encode_never_fails_given_unk (cut : str → list str) (vocab_file : list str)
    (cfg : CPMAntTokenizerFast.config) (tk : CPMAntTokenizerFast.t) (text : str) :
  CPMAntTokenizerFast.init vocab_file cfg = Ok tk →
  (∀ x, x ∈ CPMAntTokenizerFast.tokenize cut tk text →
        x = CPMAntTokenizerFast.unk_token tk ∨
        dict_contains (CPMAntTokenizerFast.encoder tk) x = true) ∧
  (dict_contains (CPMAntTokenizerFast.encoder tk) (CPMAntTokenizerFast.unk_token tk) = true →
   ∃ ids, CPMAntTokenizerFast.encode cut tk text = Ok ids ∧
          length ids = length (CPMAntTokenizerFast.tokenize cut tk text)).
Proof.
  intros Hinit.
  destruct (init_Ok_inv _ _ _ Hinit) as (_ & _ & _ & _ & _ & _ & _ & _ & Hwp).
  assert (Htok : ∀ x, x ∈ CPMAntTokenizerFast.tokenize cut tk text →
        x = CPMAntTokenizerFast.unk_token tk ∨
        dict_contains (CPMAntTokenizerFast.encoder tk) x = true).
  { intros x (span & _ & Hx)%facade_tokenize_tokens.
    apply wordpiece_tokenize_tokens in Hx. by rewrite Hwp in Hx. }
  split; [done|]. intros Hunk. unfold CPMAntTokenizerFast.encode.
  exists ((λ x, default 0%Z (dict_get (CPMAntTokenizerFast.encoder tk) x)) <$>
            CPMAntTokenizerFast.tokenize cut tk text).
  split; [|by rewrite length_fmap].
  apply mapM_total. intros x [->|Hx]%Htok.
  - revert Hunk. unfold dict_contains, dict_getitem. by destruct (dict_get _ _).
  - revert Hx. unfold dict_contains, dict_getitem. by destruct (dict_get _ _).
Qed.

Lemma encode_never_fails_given_unk_witness :
  CPMAntTokenizerFast.init example_vocab_file CPMAntTokenizerFast.default_config
    = Ok example_tokenizer ∧
  (∀ x, x ∈ CPMAntTokenizerFast.tokenize whole_text_cut example_tokenizer (py "ac") →
        x = CPMAntTokenizerFast.unk_token example_tokenizer ∨
        dict_contains (CPMAntTokenizerFast.encoder example_tokenizer) x = true) ∧
  (dict_contains (CPMAntTokenizerFast.encoder example_tokenizer)
     (CPMAntTokenizerFast.unk_token example_tokenizer) = true →
   ∃ ids, CPMAntTokenizerFast.encode whole_text_cut example_tokenizer (py "ac") = Ok ids ∧
          length ids =
          length (CPMAntTokenizerFast.tokenize whole_text_cut example_tokenizer (py "ac"))).
Proof.
  assert (H : CPMAntTokenizerFast.init example_vocab_file
                CPMAntTokenizerFast.default_config = Ok example_tokenizer)
    by (vm_compute; reflexivity).
  split; [exact H|].
  exact (encode_never_fails_given_unk whole_text_cut example_vocab_file
           CPMAntTokenizerFast.default_config example_tokenizer (py "ac") H).
Defined.

(** C9, the claim as stated fails: a vocabulary file without the unknown
    token builds a tokenizer whose [encode] raises [KeyError] on a text
    with a character outside the vocabulary. *)
Lemma encode_fails_without_unk :
  CPMAntTokenizerFast.init no_unk_vocab_file CPMAntTokenizerFast.default_config
    = Ok no_unk_tokenizer ∧
  CPMAntTokenizerFast.tokenize whole_text_cut no_unk_tokenizer (py "b") = [py "<unk>"] ∧
  dict_contains (CPMAntTokenizerFast.encoder no_unk_tokenizer)
    (CPMAntTokenizerFast.unk_token no_unk_tokenizer) = false ∧
  CPMAntTokenizerFast.encode whole_text_cut no_unk_tokenizer (py "b") = Raise KeyError.
Proof. vm_compute. done. Qed.

(** C6 (as the code has it). The conversions recover from the misses they
    guard against: [decode] skips negative ids, [convert_ids_to_tokens]
    gives the unknown token for a negative id, and [convert_tokens_to_ids]
    gives the unknown id for a token outside the table (the unknown token
    being in the table). An id that is not negative and not in the decoder
    is not recovered: both id-to-token paths raise [KeyError]. *)
Theorem lookup_miss_recovery (tk : CPMAntTokenizerFast.t) :
  let dec := CPMAntTokenizerFast.decoder tk in
  let enc := CPMAntTokenizerFast.encoder tk in
  let unk_token := CPMAntTokenizerFast.unk_token tk in
  (∀ ids, Forall (λ i, (0 ≤ i)%Z → is_Some (dict_get dec i)) ids →
     CPMAntTokenizerFast.decode tk ids =
       Ok (concat ((λ i, default [] (dict_get dec i)) <$> filter (λ i, (0 ≤ i)%Z) ids)) ∧
     CPMAntTokenizerFast.convert_ids_to_tokens tk ids =
       Ok ((λ i, if decide (0 ≤ i)%Z then default [] (dict_get dec i) else unk_token)
             <$> ids)) ∧
  (∀ ids, Exists (λ i, (0 ≤ i)%Z ∧ dict_get dec i = None) ids →
     CPMAntTokenizerFast.decode tk ids = Raise KeyError ∧
     CPMAntTokenizerFast.convert_ids_to_tokens tk ids = Raise KeyError) ∧
  (∀ tokens unk, dict_get enc unk_token = Some unk →
     CPMAntTokenizerFast.convert_tokens_to_ids tk tokens =
       Ok ((λ x, default unk (dict_get enc x)) <$> tokens)).
Proof.
  intros dec enc unk_token. split_and!.
  - intros ids Hall. rewrite Forall_forall in Hall. split.
    + unfold CPMAntTokenizerFast.decode. fold dec.
      rewrite (mapM_total _ _ (λ i, default [] (dict_get dec i))); [done|].
      intros i [Hi Hin]%list_elem_of_filter.
      destruct (Hall i Hin Hi) as [t Ht]. unfold dict_getitem. by rewrite Ht.
    + unfold CPMAntTokenizerFast.convert_ids_to_tokens. fold dec unk_token.
      apply mapM_total. intros i Hin. case_decide as Hi; [|done].
      destruct (Hall i Hin Hi) as [t Ht]. unfold dict_getitem. by rewrite Ht.
  - intros ids Hex. split.
    + unfold CPMAntTokenizerFast.decode. fold dec.
      rewrite (mapM_raise _ _ KeyError); [done| |].
      * apply Exists_exists in Hex as (i & Hin & Hi & Hnone).
        apply Exists_exists. exists i. split; [by apply list_elem_of_filter|].
        unfold dict_getitem. by rewrite Hnone.
      * apply Forall_forall. intros i _. unfold dict_getitem, is_Ok.
        destruct (dict_get dec i); eauto.
    + unfold CPMAntTokenizerFast.convert_ids_to_tokens. fold dec unk_token.
      apply mapM_raise.
      * apply Exists_exists in Hex as (i & Hin & Hi & Hnone).
        apply Exists_exists. exists i. split; [done|].
        rewrite decide_True by done. unfold dict_getitem. by rewrite Hnone.
      * apply Forall_forall. intros i _. unfold dict_getitem, is_Ok.
        case_decide; [|eauto]. destruct (dict_get dec i); eauto.
  - intros tokens unk Hunk. unfold CPMAntTokenizerFast.convert_tokens_to_ids.
    fold enc unk_token. apply mapM_total. intros x _.
    unfold dict_getitem, dict_get_default. rewrite Hunk. cbn [mbind result_bind].
    by destruct (dict_get enc x).
Qed.

Lemma lookup_miss_recovery_witness :
  let dec := CPMAntTokenizerFast.decoder example_tokenizer in
  let enc := CPMAntTokenizerFast.encoder example_tokenizer in
  Forall (λ i, (0 ≤ i)%Z → is_Some (dict_get dec i)) [4; -1; 5; 2]%Z ∧
  Exists (λ i, (0 ≤ i)%Z ∧ dict_get dec i = None) [4; 7]%Z ∧
  dict_get enc (CPMAntTokenizerFast.unk_token example_tokenizer) = Some 0%Z ∧
  CPMAntTokenizerFast.decode example_tokenizer [4; -1; 5; 2]%Z = Ok (py "ab a") ∧
  CPMAntTokenizerFast.convert_ids_to_tokens example_tokenizer [4; -1; 5; 2]%Z
    = Ok [py "ab"; py "<unk>"; space; py "a"] ∧
  CPMAntTokenizerFast.decode example_tokenizer [4; 7]%Z = Raise KeyError ∧
  CPMAntTokenizerFast.convert_ids_to_tokens example_tokenizer [4; 7]%Z = Raise KeyError ∧
  CPMAntTokenizerFast.convert_tokens_to_ids example_tokenizer [py "ab"; py "c"]
    = Ok [4; 0]%Z.
Proof.
  intros dec enc.
  assert (H1 : Forall (λ i, (0 ≤ i)%Z → is_Some (dict_get dec i)) [4; -1; 5; 2]%Z).
  { repeat constructor; intros; try lia; vm_compute; eauto. }
  assert (H2 : Exists (λ i, (0 ≤ i)%Z ∧ dict_get dec i = None) [4; 7]%Z).
  { right. left. split; [lia|]. vm_compute. reflexivity. }
  assert (H3 : dict_get enc (CPMAntTokenizerFast.unk_token example_tokenizer) = Some 0%Z)
    by (vm_compute; reflexivity).
  destruct (lookup_miss_recovery example_tokenizer) as (Hok & Hraise & Htok).
  split; [exact H1|]. split; [exact H2|]. split; [exact H3|].
  destruct (Hok _ H1) as [Hd Hc]. destruct (Hraise _ H2) as [Hd' Hc'].
  split; [exact Hd|]. split; [exact Hc|]. split; [exact Hd'|]. split; [exact Hc'|].
  exact (Htok [py "ab"; py "c"] 0%Z H3).
Defined.

(** C6, the claim as stated fails: an id that is not negative and not in
    the decoder makes [decode] and [convert_ids_to_tokens] raise. *)
Lemma lookup_miss_raises :
  dict_get (CPMAntTokenizerFast.decoder example_tokenizer) 7%Z = None ∧
  CPMAntTokenizerFast.decode example_tokenizer [7%Z] = Raise KeyError ∧
  CPMAntTokenizerFast.convert_ids_to_tokens example_tokenizer [7%Z] = Raise KeyError.
Proof. vm_compute. done. Qed.

(** ** save_vocabulary *)

(** The loop writes the items whose ids are [index], [index + 1], ... as
    long as they come; it returns when these are all the items, and raises
    at the first item with another id, which is not written. *)
Lemma save_loop_outcome (items : list (str * Z)) (index : Z) (written : str) :
  ∃ n,
    (take n items).*2 = (λ k, (index + Z.of_nat k)%Z) <$> seq 0 n ∧
    (CPMAntTokenizerFast.save_loop items (index, written)).1
      = written ++ concat ((λ kv, kv.1 ++ newline) <$> take n items) ∧
    match items !! n with
    | None =>
        n = length items ∧
        (CPMAntTokenizerFast.save_loop items (index, written)).2 = Ok ()
    | Some kv =>
        kv.2 ≠ (index + Z.of_nat n)%Z ∧
        (CPMAntTokenizerFast.save_loop items (index, written)).2 = Raise AttributeError
    end.
Proof.
  revert index written.
  induction items as [|[token token_index] items IH]; intros index written.
  - exists 0. simpl. by rewrite app_nil_r.
  - cbn [CPMAntTokenizerFast.save_loop CPMAntTokenizerFast.save_step].
    destruct (decide (index ≠ token_index)) as [Hne|Heq].
    + exists 0. cbn [mbind result_bind CPMAntTokenizerFast.logging_warning].
      simpl. rewrite app_nil_r, Z.add_0_r. by split_and!.
    + apply dec_stable in Heq. subst token_index. cbn [mbind result_bind].
      destruct (IH (index + 1)%Z (written ++ token ++ newline))
        as (n & Hids & Hw & Hend).
      exists (S n). cbn [take lookup list_lookup length]. split_and!.
      * csimpl. rewrite Hids, Z.add_0_r, <- fmap_S_seq, <- list_fmap_compose.
        f_equal. apply list_fmap_ext. intros ? k _. simpl. lia.
      * etrans; [exact Hw|]. csimpl. by rewrite <- !app_assoc.
      * destruct (items !! n) as [kv|].
        -- destruct Hend as [Hkv Hr]. split; [|done].
           intros E. apply Hkv. rewrite E. lia.
        -- destruct Hend as [-> Hr]. done.
Qed.

Lemma seq_ids_sorted (a n : nat) : StronglySorted Z.lt (Z.of_nat <$> seq a n).
Proof.
  revert a. induction n as [|n IH]; intros a; csimpl; constructor; [apply IH|].
  apply Forall_forall. intros x (y & -> & Hy%elem_of_seq)%list_elem_of_fmap. lia.
Qed.

(** How [save_vocabulary] ends, for every table, and what the file then
    holds: the tokens met before the first id that is not the position of
    its token, one per line. *)
Lemma save_vocabulary_prefix (tk : CPMAntTokenizerFast.t) :
  let enc := CPMAntTokenizerFast.encoder tk in
  let out := CPMAntTokenizerFast.save_vocabulary tk in
  ∃ n,
    (take n enc).*2 = Z.of_nat <$> seq 0 n ∧
    out.1 = concat ((λ kv, kv.1 ++ newline) <$> take n enc) ∧
    match enc !! n with
    | None => n = length enc ∧ out.2 = Ok ()
    | Some kv => kv.2 ≠ Z.of_nat n ∧ out.2 = Raise AttributeError
    end.
Proof.
  intros enc out.
  destruct (save_loop_outcome enc 0 []) as (n & Hids & Hw & Hend).
  exists n. split_and!; [by rewrite Hids|exact Hw|].
  destruct (enc !! n); [|done]. by rewrite Z.add_0_l in Hend.
Qed.

(** C8. The warning is fatal: on a table that is not met in the order of
    its ids, such as the one [__init__] builds from a file whose
    placeholders are not the last two lines, [save_vocabulary] raises
    [AttributeError] at the first id out of place and the file holds only
    the tokens before it. On a table met in the order of its ids (the one
    built from the example file) it writes every token, one per line, in
    id order, and returns. *)
Theorem save_vocabulary_warning_raises :
  CPMAntTokenizerFast.init unordered_vocab_file CPMAntTokenizerFast.default_config
    = Ok unordered_tokenizer ∧
  CPMAntTokenizerFast.save_vocabulary unordered_tokenizer =
    (py "<pad>" ++ newline ++ py "<unk>" ++ newline, Raise AttributeError) ∧
  CPMAntTokenizerFast.init example_vocab_file CPMAntTokenizerFast.default_config
    = Ok example_tokenizer ∧
  CPMAntTokenizerFast.save_vocabulary example_tokenizer =
    (concat ((λ token, token ++ newline) <$>
               [py "<unk>"; py "<s>"; py "a"; py "b"; py "ab"; space; newline]),
     Ok ()).
Proof. split_and!; vm_compute; reflexivity. Qed.

(** X20. How [save_vocabulary] ends, for every table. It returns exactly
    when the ids met are 0, 1, 2, ... in that order, and the file then
    holds every token, one per line, in id order. Otherwise it raises
    [AttributeError] at the first id that is not the position of its
    token, and the file holds the tokens before that one. *)
Theorem save_vocabulary_outcome (tk : CPMAntTokenizerFast.t) :
  let enc := CPMAntTokenizerFast.encoder tk in
  let out := CPMAntTokenizerFast.save_vocabulary tk in
  (out.2 = Ok () ↔ enc.*2 = Z.of_nat <$> seq 0 (length enc)) ∧
  (out.2 = Ok () →
   out.1 = concat ((λ kv, kv.1 ++ newline) <$> enc) ∧ StronglySorted Z.lt enc.*2) ∧
  (∀ e, out.2 = Raise e →
     e = AttributeError ∧
     ∃ n kv, enc !! n = Some kv ∧ kv.2 ≠ Z.of_nat n ∧
             (take n enc).*2 = Z.of_nat <$> seq 0 n ∧
             out.1 = concat ((λ kv, kv.1 ++ newline) <$> take n enc)).
Proof.
  intros enc out.
  destruct (save_vocabulary_prefix tk) as (n & Hids & Hw & Hend).
  fold enc in Hids, Hw, Hend. fold out in Hw, Hend.
  destruct (enc !! n) as [kv|] eqn:Hn.
  - destruct Hend as [Hkv Hr].
    assert (Hbad : enc.*2 ≠ Z.of_nat <$> seq 0 (length enc)).
    { intros E. apply Hkv.
      assert (Hl : enc.*2 !! n = Some kv.2) by (by rewrite list_lookup_fmap, Hn).
      rewrite E, list_lookup_fmap in Hl.
      apply lookup_lt_Some in Hn.
      rewrite lookup_seq_lt in Hl by done. by injection Hl as <-. }
    split_and!.
    + split; [by rewrite Hr|done].
    + by rewrite Hr.
    + intros e. rewrite Hr. intros [= <-]. split; [done|]. by exists n, kv.
  - destruct Hend as [-> Hr]. rewrite take_ge in Hids, Hw by done.
    split_and!.
    + done.
    + intros _. split; [done|]. rewrite Hids. apply seq_ids_sorted.
    + intros e. by rewrite Hr.
Qed.

(** ** _convert_to_tensors *)

Lemma to_int32_fits (z : Z) : fits_int32 z → to_int32 z = z.
Proof. unfold fits_int32, to_int32. intros H. rewrite Z.mod_small; lia. Qed.

Lemma list_to_tensor_Ok (l : list Z) (t : tensor) :
  list_to_tensor l = Ok t → t = T2 (length l) [to_int32 <$> l].
Proof.
  unfold list_to_tensor, torch_tensor. case_decide; [|done].
  cbn [mbind result_bind]. by intros [= <-].
Qed.

Lemma list_to_tensor_wf (l : list Z) (t : tensor) :
  list_to_tensor l = Ok t → tensor_wf t.
Proof.
  intros ->%list_to_tensor_Ok. simpl. apply Forall_singleton. by rewrite length_fmap.
Qed.

Lemma py_range_elem (n i : Z) :
  i ∈ CPMAntTokenizerFast.py_range n ↔ (0 ≤ i < n)%Z.
Proof.
  unfold CPMAntTokenizerFast.py_range. rewrite list_elem_of_fmap. split.
  - intros (k & -> & Hk%elem_of_seq). lia.
  - intros Hi. exists (Z.to_nat i). split; [lia|]. apply elem_of_seq. lia.
Qed.

(** What the builder puts under ["input"]. *)
Lemma convert_to_tensors_input (cut : str → list str) (tk : CPMAntTokenizerFast.t)
    (text : str) (prompt_length task_id : Z) (b : bundle) :
  CPMAntTokenizerFast._convert_to_tensors cut tk text prompt_length task_id = Ok b →
  ∃ bos ids unk,
    CPMAntTokenizerFast.bos_id tk = Ok bos ∧
    CPMAntTokenizerFast.encode cut tk text = Ok ids ∧
    CPMAntTokenizerFast.unk_id tk = Ok unk ∧
    let input :=
      ((λ x, x + prompt_length * task_id)%Z <$> CPMAntTokenizerFast.py_range prompt_length)
        ++ filter (λ j, j ≠ unk) (bos :: ids) in
    dict_get b (py "input") = Some (VTensor (T2 (length input) [to_int32 <$> input])).
Proof.
  unfold CPMAntTokenizerFast._convert_to_tensors. intros H. bind_inv H.
  injection H as <-. eexists _, _, _. split_and!; [done..|].
  cbn zeta. cbn [dict_get]. rewrite decide_True by done.
  by rewrite (list_to_tensor_Ok _ _ E2).
Qed.

(** C5 (as the code has it). The ids equal to the unknown id are dropped
    before the prompt prefix is put in front: with the ids of the table
    within 32 bits, the part of [input] after the prefix holds no unknown
    id, and [input] as a whole holds none when no prefix id
    [i + prompt_length * task_id] is the unknown id. *)
Theorem convert_to_tensors_drops_unknown (cut : str → list str)
    (tk : CPMAntTokenizerFast.t) (text : str) (prompt_length task_id : Z) (b : bundle) :
  CPMAntTokenizerFast._convert_to_tensors cut tk text prompt_length task_id = Ok b →
  Forall (λ kv, fits_int32 kv.2) (CPMAntTokenizerFast.encoder tk) →
  ∃ unk row,
    CPMAntTokenizerFast.unk_id tk = Ok unk ∧
    dict_get b (py "input") = Some (VTensor (T2 (length row) [row])) ∧
    (unk ∉ drop (Z.to_nat prompt_length) row) ∧
    ((∀ i, (0 ≤ i < prompt_length)%Z → to_int32 (i + prompt_length * task_id) ≠ unk) →
     unk ∉ row).
Proof.
  intros Hb Hfits.
  destruct (convert_to_tensors_input _ _ _ _ _ _ Hb)
    as (bos & ids & unk & Hbos & Hids & Hunk & Hinput).
  cbn zeta in Hinput.
  set (prefix := (λ x, x + prompt_length * task_id)%Z <$>
                   CPMAntTokenizerFast.py_range prompt_length) in *.
  set (content := filter (λ j, j ≠ unk) (bos :: ids)) in *.
  assert (Hval : ∀ k v, dict_getitem (CPMAntTokenizerFast.encoder tk) k = Ok v →
                        fits_int32 v).
  { intros k v Hk%dict_getitem_Ok%dict_get_Some_elem.
    by apply (proj1 (Forall_forall _ _) Hfits (k, v)). }
  assert (Hcontent : to_int32 <$> content = content).
  { rewrite <- (list_fmap_id content) at 2. apply list_fmap_ext.
    intros _ x Hx%list_elem_of_lookup_2. simpl. apply to_int32_fits.
    apply list_elem_of_filter in Hx as [_ [->|Hx]%elem_of_cons].
    - by apply (Hval _ _ Hbos).
    - destruct (mapM_Ok_elem _ _ _ _ Hids Hx) as (t & _ & Ht). by apply (Hval _ _ Ht). }
  exists unk, (to_int32 <$> (prefix ++ content)).
  rewrite length_fmap. split; [done|]. split; [done|].
  rewrite fmap_app, Hcontent.
  assert (Hunk_content : unk ∉ content).
  { by intros [? _]%list_elem_of_filter. }
  split.
  - rewrite drop_app_length'; [done|].
    unfold prefix, CPMAntTokenizerFast.py_range. by rewrite !length_fmap, length_seq.
  - intros Hprefix [Hin|Hin]%elem_of_app; [|done].
    apply list_elem_of_fmap in Hin as (x & -> & (i & -> & Hi%py_range_elem)%list_elem_of_fmap).
    by apply (Hprefix i).
Qed.

Lemma convert_to_tensors_drops_unknown_witness :
  CPMAntTokenizerFast._convert_to_tensors whole_text_cut example_tokenizer (py "ac") 2 2
    = Ok example_bundle ∧
  Forall (λ kv, fits_int32 kv.2) (CPMAntTokenizerFast.encoder example_tokenizer) ∧
  ∃ unk row,
    CPMAntTokenizerFast.unk_id example_tokenizer = Ok unk ∧
    dict_get example_bundle (py "input") = Some (VTensor (T2 (length row) [row])) ∧
    (unk ∉ drop (Z.to_nat 2) row) ∧
    ((∀ i, (0 ≤ i < 2)%Z → to_int32 (i + 2 * 2) ≠ unk) → unk ∉ row).
Proof.
  assert (Hb : CPMAntTokenizerFast._convert_to_tensors whole_text_cut example_tokenizer
                 (py "ac") 2 2 = Ok example_bundle) by (vm_compute; reflexivity).
  assert (Hfits : Forall (λ kv, fits_int32 kv.2)
                    (CPMAntTokenizerFast.encoder example_tokenizer)).
  { repeat constructor; vm_compute; congruence. }
  split; [exact Hb|]. split; [exact Hfits|].
  exact (convert_to_tensors_drops_unknown whole_text_cut example_tokenizer (py "ac")
           2 2 example_bundle Hb Hfits).
Defined.

(** C5, the claim as stated fails: with [prompt_length = 2] and
    [task_id = 0] the prompt prefix is [0, 1], and 0 is the unknown id of
    the example table, so [input] holds the unknown id. *)
Lemma convert_to_tensors_input_has_unknown :
  CPMAntTokenizerFast._convert_to_tensors whole_text_cut example_tokenizer (py "ac") 2 0
    = Ok colliding_bundle ∧
  CPMAntTokenizerFast.unk_id example_tokenizer = Ok 0%Z ∧
  dict_get colliding_bundle (py "input") = Some (VTensor (T2 4 [[0; 1; 1; 2]%Z])) ∧
  0%Z ∈ [0; 1; 1; 2]%Z.
Proof. split_and!; [vm_compute; reflexivity..|left]. Qed.

(** ** pad *)
Section pad_facts.
Variable key : str.
Variable padding_value : Z.
Variable padding_side : str.

Local Abbreviation row_batch := (row_batch key).

Lemma foldl_copy_raise (m : nat) (e : exn) (l : list (nat * bundle)) :
  foldl (λ acc '(i, item), out ← acc; pad_copy_row key m padding_side out i item)
        (Raise e) l = Raise e.
Proof. induction l as [|[i item] l IH]; [done|]. simpl. exact IH. Qed.

(** The copy loop, row by row. *)
Lemma pad_copy_loop (m : nat) (fill : Z) (items : list bundle)
    (rows filled : list (list Z)) :
  row_batch items rows →
  foldl (λ acc '(i, item), out ← acc; pad_copy_row key m padding_side out i item)
        (Ok (filled ++ replicate (length items) (replicate m fill)))
        (zip (seq (length filled) (length items)) items)
  = rest ← mapM (padded_row m fill padding_side) rows; Ok (filled ++ rest).
Proof.
  intros H. revert filled. induction H as [|it v items rows Hit _ IH]; intros filled.
  - simpl. by rewrite app_nil_r.
  - rewrite mapM_cons. cbn [length seq zip zip_with foldl replicate].
    cbn [mbind result_bind].
    assert (Hstep : pad_copy_row key m padding_side
              (filled ++ replicate m fill ::
                 replicate (length items) (replicate m fill))
              (length filled) it
            = row ← padded_row m fill padding_side v;
              Ok ((filled ++ [row]) ++
                    replicate (length items) (replicate m fill))).
    { unfold pad_copy_row, dict_getitem. rewrite Hit. cbn [mbind result_bind as_tensor
        tensor_getitem0 tensor_len].
      unfold list_getitem. rewrite list_lookup_middle by done. cbn [mbind result_bind].
      unfold padded_row. cbn zeta.
      destruct (if decide (padding_side = py "left") then _ else _) as [row|];
        cbn [mbind result_bind]; [|done].
      rewrite <- (Nat.add_0_r (length filled)), insert_app_r. simpl.
      by rewrite <- app_assoc. }
    rewrite Hstep.
    destruct (padded_row m fill padding_side v) as [row|e];
      cbn [mbind result_bind].
    + replace (S (length filled)) with (length (filled ++ [row]))
        by (rewrite length_app; simpl; lia).
      rewrite IH. destruct (mapM _ rows); cbn [mbind result_bind]; [|done].
      by rewrite <- app_assoc.
    + apply foldl_copy_raise.
Qed.

Lemma pad_copy_loop_full (m : nat) (items : list bundle) (rows : list (list Z)) :
  row_batch items rows →
  (out ← torch_full (length items) m padding_value;
   foldl (λ acc '(i, item), out ← acc; pad_copy_row key m padding_side out i item)
         (Ok out) (enumerate items))
  = if decide (fits_int64 padding_value)
    then mapM (padded_row m (to_int32 padding_value) padding_side) rows
    else Raise RuntimeError.
Proof.
  intros H. unfold torch_full. case_decide; [|done]. cbn [mbind result_bind].
  etrans; [exact (pad_copy_loop m (to_int32 padding_value) items rows [] H)|].
  by destruct (mapM _ rows).
Qed.

Lemma min_list_le (m : nat) (l : list nat) : foldr Nat.min m l ≤ m.
Proof. induction l; simpl; lia. Qed.

Lemma max_list_ge (l : list nat) (x : nat) : x ∈ l → x ≤ foldr Nat.max 0 l.
Proof.
  induction l as [|y l IH]; [by intros ?%elem_of_nil|].
  intros [->|?%IH]%elem_of_cons; simpl; lia.
Qed.

(** [pad] on rows of unequal lengths: a container of [max_length] columns
    with one padded row per bundle, when the padding value is one the
    container is allocated with. *)
Lemma pad_rank2_rows (orig_items : list bundle) (rows : list (list Z)) :
  row_batch orig_items rows →
  let max_length := foldr Nat.max 0 (length <$> rows) in
  foldr Nat.min max_length (length <$> rows) ≠ max_length →
  pad orig_items key padding_value padding_side
  = if decide (fits_int64 padding_value)
    then rows' ← mapM (padded_row max_length (to_int32 padding_value) padding_side) rows;
         Ok (T2 max_length rows')
    else Raise RuntimeError.
Proof.
  intros Hrows max_length Hne.
  assert (Hlen : mapM (λ item, t ← (v ← dict_getitem item key; as_tensor v);
                               tensor_last_dim t) orig_items = Ok (length <$> rows)).
  { apply mapM_Forall2. apply Forall2_fmap_r. eapply Forall2_impl; [exact Hrows|].
    intros it v Hit. unfold dict_getitem. by rewrite Hit. }
  pose proof (pad_copy_loop_full max_length orig_items rows Hrows) as Hloop.
  destruct Hrows as [|it0 v0 its vs Hit0 Hrows]; [done|].
  assert (H0 : dict_getitem it0 key = Ok (VTensor (T2 (length v0) [v0])))
    by (unfold dict_getitem; by rewrite Hit0).
  unfold pad. cbn zeta.
  change (list_getitem (it0 :: its) 0) with (Ok it0). cbn [mbind result_bind].
  rewrite H0. cbn [mbind result_bind tensor_getitem0].
  change (list_getitem (it0 :: its) 0) with (Ok it0). cbn [mbind result_bind].
  rewrite H0. cbn [mbind result_bind as_tensor tensor_dim].
  rewrite Hlen. cbn [mbind result_bind]. fold max_length.
  rewrite (decide_False (P := max_length = _)) by done.
  pose proof Hloop as Hloop'. revert Hloop'. unfold torch_full.
  case_decide; cbn [mbind result_bind]; [|done]. by intros ->.
Qed.

Lemma set_slice_raises row start stop src e :
  set_slice row start stop src = Raise e → e = RuntimeError.
Proof.
  unfold set_slice. case_decide; [done|]. destruct src as [|? [|? ?]]; congruence.
Qed.
End pad_facts.

Lemma padded_row_right (m : nat) (pv : Z) (side : str) (v : list Z) :
  side ≠ py "left" → length v ≤ m →
  padded_row m pv side v = Ok (v ++ replicate (m - length v) pv).
Proof.
  intros Hside Hle. unfold padded_row, set_slice. cbn zeta.
  rewrite decide_False by done. rewrite Nat.min_l by done.
  rewrite decide_True by lia. by rewrite take_0, drop_replicate.
Qed.

Lemma padded_row_left (m : nat) (pv : Z) (v : list Z) :
  v ≠ [] → length v ≤ m →
  padded_row m pv (py "left") v = Ok (replicate (m - length v) pv ++ v).
Proof.
  intros Hv Hle. unfold padded_row, set_slice, neg_slice_start. cbn zeta.
  rewrite (decide_True (P := py "left" = py "left")) by done.
  rewrite (decide_False (P := length v = 0)) by (by destruct v).
  rewrite decide_True by lia.
  rewrite take_replicate, drop_replicate, Nat.sub_diag, Nat.min_l by lia.
  simpl. by rewrite app_nil_r.
Qed.

Lemma padded_row_left_empty (m : nat) (pv : Z) :
  0 < m → padded_row m pv (py "left") [] = Raise RuntimeError.
Proof.
  intros Hm. unfold padded_row, set_slice, neg_slice_start. cbn zeta.
  rewrite (decide_True (P := py "left" = py "left")) by done.
  rewrite (decide_True (P := length [] = 0)) by done.
  rewrite decide_False by (simpl; lia). done.
Qed.

(** X1. Padding alignment, for a padding value in the 64-bit range: on
    rows of unequal lengths, right padding puts every row at the start of
    its padded row, and left padding puts every row at the end of its
    padded row when no row is empty. The other entries hold the padding
    value as the [torch.int32] container holds it: wrapped around to 32
    bits, so the padding value itself when it is a 32-bit integer. *)
Lemma pad_rows_aligned (orig_items : list bundle) (key : str) (pv : Z) (side : str)
    (rows : list (list Z)) :
  row_batch key orig_items rows →
  let m := foldr Nat.max 0 (length <$> rows) in
  foldr Nat.min m (length <$> rows) ≠ m →
  (side = py "left" → Forall (λ v, v ≠ []) rows) →
  fits_int64 pv →
  let fill := to_int32 pv in
  pad orig_items key pv side =
  Ok (T2 m ((λ v, if decide (side = py "left")
                  then replicate (m - length v) fill ++ v
                  else v ++ replicate (m - length v) fill) <$> rows)) ∧
  (fits_int32 pv → fill = pv).
Proof.
  intros Hrows m Hne Hnonempty Hpv fill. split; [|apply to_int32_fits].
  rewrite (pad_rank2_rows _ _ _ _ rows Hrows Hne).
  rewrite decide_True by done.
  fold m. fold fill. rewrite (mapM_total _ _ (λ v, if decide (side = py "left")
                  then replicate (m - length v) fill ++ v
                  else v ++ replicate (m - length v) fill)); [done|].
  intros v Hv.
  assert (length v ≤ m) by (apply max_list_ge, list_elem_of_fmap; eauto).
  case_decide as Hside.
  - subst side. apply padded_row_left; [|done].
    by apply (proj1 (Forall_forall _ _) (Hnonempty eq_refl)).
  - by apply padded_row_right.
Qed.

(** X2. Left padding of a batch with an empty row among rows of unequal
    lengths: the assignment to the slice [-0:] is refused. *)
Lemma pad_left_empty_row (orig_items : list bundle) (key : str) (pv : Z)
    (rows : list (list Z)) :
  row_batch key orig_items rows →
  let m := foldr Nat.max 0 (length <$> rows) in
  foldr Nat.min m (length <$> rows) ≠ m →
  [] ∈ rows →
  pad orig_items key pv (py "left") = Raise RuntimeError.
Proof.
  intros Hrows m Hne Hempty. rewrite (pad_rank2_rows _ _ _ _ rows Hrows Hne). fold m.
  case_decide; [|done].
  assert (0 < m) by (pose proof (min_list_le m (length <$> rows)); lia).
  rewrite (mapM_raise _ _ RuntimeError); [done| |].
  - apply Exists_exists. exists []. split; [done|]. by apply padded_row_left_empty.
  - apply Forall_forall. intros v _.
    destruct (padded_row m (to_int32 pv) (py "left") v) as [r|e] eqn:E;
      [left; by exists r|right].
    f_equal. revert E. unfold padded_row. cbn zeta. rewrite decide_True by done.
    apply set_slice_raises.
Qed.

(** The example of the specification: rows of lengths 3 and 5, padded on
    the left with 0, give a container of shape (2, 5). *)
Example pad_example_left :
  pad example_batch (py "input") 0 (py "left")
  = Ok (T2 5 [[0; 0; 1; 2; 3]; [4; 5; 6; 7; 8]]%Z).
Proof. vm_compute. reflexivity. Qed.

Example pad_example_right :
  pad example_batch (py "input") 0 (py "right")
  = Ok (T2 5 [[1; 2; 3; 0; 0]; [4; 5; 6; 7; 8]]%Z).
Proof. vm_compute. reflexivity. Qed.

(** C7. The padded container the claim describes is built when no row is
    empty ([pad_rows_aligned]); with an empty row in the batch, right
    padding builds it and left padding raises. *)
Theorem pad_left_empty_row_raises :
  pad empty_row_batch (py "input") 0 (py "left") = Raise RuntimeError ∧
  pad empty_row_batch (py "input") 0 (py "right")
    = Ok (T2 3 [[0; 0; 0]; [1; 2; 3]]%Z).
Proof. split; vm_compute; reflexivity. Qed.

(** [torch.cat] of rank-1 tensors is the concatenation of their entries. *)
Lemma torch_cat_rank1 (vs : list (list Z)) :
  vs ≠ [] → torch_cat (T1 <$> vs) = Ok (T1 (concat vs)).
Proof.
  intros Hne.
  assert (Hfilter : filter (λ t, cat_skipped t = false) (T1 <$> vs)
                    = T1 <$> filter (λ v, v ≠ []) vs).
  { clear Hne. induction vs as [|v vs IH]; [done|]. csimpl.
    rewrite !filter_cons, IH. by destruct v. }
  assert (Hconcat : concat (filter (λ v, v ≠ []) vs) = concat vs).
  { clear. induction vs as [|v vs IH]; [done|].
    rewrite filter_cons. destruct v; simpl; [done|]. by rewrite IH. }
  unfold torch_cat. rewrite Hfilter, <- Hconcat.
  destruct vs as [|v0 vs0]; [done|]. cbn [fmap list_fmap].
  destruct (filter (λ v, v ≠ []) (v0 :: vs0)) as [|v rest]; [done|]. csimpl.
  rewrite (mapM_Forall2 _ _ rest); [done|].
  apply Forall2_fmap_l, Forall_Forall2_diag, Forall_true. done.
Qed.

(** C10 (as the code has it). For a batch of rank-1 tensors whose first
    tensor is not empty, [pad] returns the concatenation of the tensors in
    bundle order, whatever [padding_value] and [padding_side]. *)
Theorem pad_rank1_is_concat (orig_items : list bundle) (key : str)
    (padding_value : Z) (padding_side : str) (vs : list (list Z)) :
  rank1_batch key orig_items vs →
  (∃ x v rest, vs = (x :: v) :: rest) →
  pad orig_items key padding_value padding_side = Ok (T1 (concat vs)).
Proof.
  intros Hvs (x & v & rest & ->).
  assert (Hts : mapM (λ item, v ← dict_getitem item key; as_tensor v) orig_items
                = Ok (T1 <$> (x :: v) :: rest)).
  { apply mapM_Forall2, Forall2_fmap_r. eapply Forall2_impl; [exact Hvs|].
    intros it v' Hit. unfold dict_getitem. by rewrite Hit. }
  assert (Hlen : mapM (λ item, t ← (v ← dict_getitem item key; as_tensor v);
                               tensor_last_dim t) orig_items
                 = Ok (length <$> (x :: v) :: rest)).
  { apply mapM_Forall2, Forall2_fmap_r. eapply Forall2_impl; [exact Hvs|].
    intros it v' Hit. unfold dict_getitem. by rewrite Hit. }
  unfold rank1_batch in Hvs.
  destruct orig_items as [|it0 its]; [by apply Forall2_nil_cons_inv in Hvs|].
  apply Forall2_cons in Hvs as [Hit0 _].
  assert (H0 : dict_getitem it0 key = Ok (VTensor (T1 (x :: v))))
    by (unfold dict_getitem; by rewrite Hit0).
  unfold pad. cbn zeta.
  change (list_getitem (it0 :: its) 0) with (Ok it0). cbn [mbind result_bind].
  rewrite H0. cbn [mbind result_bind tensor_getitem0].
  change (list_getitem (it0 :: its) 0) with (Ok it0). cbn [mbind result_bind].
  rewrite H0. cbn [mbind result_bind as_tensor tensor_dim].
  rewrite Hlen. cbn [mbind result_bind]. rewrite Hts. cbn [mbind result_bind].
  by apply torch_cat_rank1.
Qed.

Lemma pad_rank1_is_concat_witness :
  rank1_batch (py "length") length_batch [[3]; [5]]%Z ∧
  (∃ x v rest, [[3]; [5]]%Z = (x :: v) :: rest) ∧
  pad length_batch (py "length") 7 (py "right") = Ok (T1 (concat [[3]; [5]]%Z)).
Proof.
  assert (H1 : rank1_batch (py "length") length_batch [[3]; [5]]%Z)
    by (repeat constructor).
  assert (H2 : ∃ x v rest, [[3]; [5]]%Z = (x :: v) :: rest) by (by eexists _, _, _).
  split; [exact H1|]. split; [exact H2|].
  exact (pad_rank1_is_concat length_batch (py "length") 7 (py "right") _ H1 H2).
Defined.

(** C10, the claim as stated fails: [pad] indexes [orig_items[0]] and the
    first entry of its tensor before anything is concatenated, so an empty
    batch, and a batch whose first tensor is empty, raise. *)
Lemma pad_rank1_empty_raises :
  rank1_batch (py "length") [] [] ∧
  pad [] (py "length") 0 (py "left") = Raise IndexError ∧
  rank1_batch (py "length") empty_first_batch [[]; [5]]%Z ∧
  pad empty_first_batch (py "length") 0 (py "left") = Raise IndexError.
Proof. split_and!; [constructor|done|repeat constructor|vm_compute; reflexivity]. Qed.

(** * Further properties of the code *)

(** ** load_vocab: which id a token gets *)

Lemma dict_setitem_fresh {K V : Type} `{EqDecision K} (d : dict K V) (k : K) (v : V) :
  dict_get d k = None → dict_setitem d k v = d ++ [(k, v)].
Proof.
  induction d as [|[k0 v0] d IH]; simpl; [done|].
  case_decide; [done|]. intros H0. by rewrite IH.
Qed.

(** X3. In a file whose lines hold distinct tokens, the token of line [i] gets
    the id [i], and the table lists the tokens in file order. *)
Theorem load_vocab_distinct (lines : list str) :
  NoDup (rstrip_newline <$> lines) →
  load_vocab lines = zip (rstrip_newline <$> lines) (Z.of_nat <$> seq 0 (length lines)).
Proof.
  induction lines as [|token lines IH] using rev_ind; [done|].
  rewrite fmap_app. intros [Hnd [Hfresh _]]%NoDup_app.
  rewrite load_vocab_snoc, IH by done.
  rewrite dict_setitem_fresh.
  - rewrite length_app, seq_app, fmap_app. csimpl.
    rewrite zip_with_app by (by rewrite !length_fmap, length_seq). done.
  - rewrite <- IH by done. apply eq_None_not_Some. rewrite load_vocab_keys.
    intros Hin. apply (Hfresh _ Hin). csimpl. left.
Qed.

Lemma load_vocab_distinct_witness :
  NoDup (rstrip_newline <$> example_vocab_file) ∧
  load_vocab example_vocab_file =
  zip (rstrip_newline <$> example_vocab_file)
      (Z.of_nat <$> seq 0 (length example_vocab_file)).
Proof.
  assert (H : NoDup (rstrip_newline <$> example_vocab_file))
    by (apply (bool_decide_unpack _); vm_compute; reflexivity).
  split; [exact H|]. exact (load_vocab_distinct example_vocab_file H).
Defined.

(** X4. When a token stands on several lines, it gets the index of the last of
    them: the id of a token is the index of the last line that holds it. *)
Theorem load_vocab_last_line (lines : list str) (k : str) (v : Z) :
  dict_get (load_vocab lines) k = Some v ↔
  ∃ i, v = Z.of_nat i ∧ (rstrip_newline <$> lines) !! i = Some k ∧
       ∀ j, i < j → (rstrip_newline <$> lines) !! j ≠ Some k.
Proof.
  revert v. induction lines as [|token lines IH] using rev_ind; intros v.
  - simpl. split; [done|]. by intros (i & _ & ? & _).
  - rewrite load_vocab_snoc, dict_get_setitem, fmap_app. csimpl.
    assert (Hlen : length (rstrip_newline <$> lines) = length lines)
      by apply length_fmap.
    case_decide as Hk.
    + split.
      * intros [= <-]. exists (length lines). split_and!; [done| |].
        -- rewrite lookup_app_r by lia. rewrite Hlen, Nat.sub_diag. simpl. by rewrite Hk.
        -- intros j Hj. rewrite lookup_ge_None_2; [done|].
           rewrite length_app, Hlen. simpl. lia.
      * intros (i & -> & Hi & Hlast).
        destruct (decide (i = length lines)) as [->|Hne]; [done|].
        exfalso. apply (Hlast (length lines)).
        -- apply lookup_lt_Some in Hi. rewrite length_app, Hlen in Hi. simpl in Hi. lia.
        -- rewrite lookup_app_r by lia. rewrite Hlen, Nat.sub_diag. simpl. by rewrite Hk.
    + rewrite IH. split.
      * intros (i & -> & Hi & Hlast). exists i. split_and!; [done| |].
        -- by apply lookup_app_l_Some.
        -- intros j Hj. destruct (decide (j < length lines)).
           ++ rewrite lookup_app_l by lia. by apply Hlast.
           ++ destruct (decide (j = length lines)) as [->|].
              ** rewrite lookup_app_r by lia. rewrite Hlen, Nat.sub_diag. simpl. congruence.
              ** rewrite lookup_ge_None_2; [done|]. rewrite length_app, Hlen. simpl. lia.
      * intros (i & -> & Hi & Hlast). exists i.
        assert (i < length lines).
        { destruct (decide (i < length lines)); [done|]. exfalso.
          pose proof (lookup_lt_Some _ _ _ Hi) as Hlt.
          rewrite length_app, Hlen in Hlt. simpl in Hlt.
          assert (i = length lines) as -> by lia.
          rewrite lookup_app_r in Hi by lia. rewrite Hlen, Nat.sub_diag in Hi.
          simpl in Hi. congruence. }
        split_and!; [done| |].
        -- by rewrite lookup_app_l in Hi by lia.
        -- intros j Hj Hjk. apply (Hlast j Hj). by apply lookup_app_l_Some.
Qed.

(** ** __init__: when construction succeeds, and what the table then holds *)

Lemma init_Ok_intro (vocab_file : list str) (cfg : CPMAntTokenizerFast.config)
    (space_id line_id : Z) :
  dict_get (load_vocab vocab_file) (CPMAntTokenizerFast.cfg_space_token cfg)
    = Some space_id →
  dict_get (dict_setitem (load_vocab vocab_file) space space_id)
    (CPMAntTokenizerFast.cfg_line_token cfg) = Some line_id →
  CPMAntTokenizerFast.cfg_space_token cfg ≠ CPMAntTokenizerFast.cfg_line_token cfg →
  is_Ok (CPMAntTokenizerFast.init vocab_file cfg).
Proof.
  intros Hs Hl Hne. unfold CPMAntTokenizerFast.init.
  rewrite (proj2 (dict_getitem_Ok _ _ _) Hs). cbn [mbind result_bind].
  rewrite (proj2 (dict_getitem_Ok _ _ _) Hl). cbn [mbind result_bind].
  set (E2 := dict_setitem _ newline line_id).
  assert (H3 : dict_delitem E2 (CPMAntTokenizerFast.cfg_space_token cfg)
               = Ok (filter (λ kv, kv.1 ≠ CPMAntTokenizerFast.cfg_space_token cfg) E2)).
  { apply dict_delitem_Ok. split; [|done]. unfold E2. rewrite !dict_get_setitem.
    repeat case_decide; eauto. }
  rewrite H3. cbn [mbind result_bind].
  set (E3 := filter _ E2).
  assert (H4 : dict_delitem E3 (CPMAntTokenizerFast.cfg_line_token cfg)
               = Ok (filter (λ kv, kv.1 ≠ CPMAntTokenizerFast.cfg_line_token cfg) E3)).
  { apply dict_delitem_Ok. split; [|done]. unfold E3, E2.
    rewrite dict_get_filter_ne, decide_False by done. rewrite dict_get_setitem.
    case_decide; eauto. }
  rewrite H4. cbn [mbind result_bind]. by eexists.
Qed.

(** X5. Construction succeeds exactly when the space placeholder is a token of
    the file, the line placeholder is a token of the file or the space
    character, and the two placeholders differ; when it fails, it fails
    with [KeyError]. *)
Theorem init_succeeds_iff (vocab_file : list str) (cfg : CPMAntTokenizerFast.config) :
  let s := CPMAntTokenizerFast.cfg_space_token cfg in
  let l := CPMAntTokenizerFast.cfg_line_token cfg in
  let file_tokens := rstrip_newline <$> vocab_file in
  (is_Ok (CPMAntTokenizerFast.init vocab_file cfg) ↔
   s ∈ file_tokens ∧ (l ∈ file_tokens ∨ l = space) ∧ s ≠ l) ∧
  (∀ e, CPMAntTokenizerFast.init vocab_file cfg = Raise e → e = KeyError).
Proof.
  intros s l file_tokens. split; [split|].
  - intros [tk Hinit].
    destruct (init_Ok_inv _ _ _ Hinit) as (sid & lid & Hs & Hl & Hne & _).
    split_and!; [|rewrite dict_get_setitem in Hl|done].
    + apply load_vocab_keys. eauto.
    + case_decide; [by right|left]. apply load_vocab_keys. eauto.
  - intros (Hs & Hl & Hne). apply load_vocab_keys in Hs as [sid Hs].
    destruct (decide (space = l)) as [Heq|Hsp].
    + apply (init_Ok_intro _ _ sid sid); [done| |done].
      fold l. rewrite <- Heq, dict_get_setitem. by rewrite decide_True.
    + destruct Hl as [Hl|Hl]; [|congruence].
      apply load_vocab_keys in Hl as [lid Hl].
      apply (init_Ok_intro _ _ sid lid); [done| |done].
      fold l. rewrite dict_get_setitem. by rewrite decide_False.
  - intros e. unfold CPMAntTokenizerFast.init, dict_getitem, dict_delitem.
    repeat (match goal with
            | |- context [match ?x with Some _ => _ | None => _ end] => destruct x
            | |- context [if ?b then _ else _] => destruct b
            end; cbn [mbind result_bind]); congruence.
Qed.

(** X6. After construction neither placeholder is a token of the table, and
    the newline character always is, so [newline_id] does not raise. *)
Theorem init_placeholders_gone (vocab_file : list str)
    (cfg : CPMAntTokenizerFast.config) (tk : CPMAntTokenizerFast.t) :
  CPMAntTokenizerFast.init vocab_file cfg = Ok tk →
  CPMAntTokenizerFast.check tk (CPMAntTokenizerFast.cfg_space_token cfg) = false ∧
  CPMAntTokenizerFast.check tk (CPMAntTokenizerFast.cfg_line_token cfg) = false ∧
  CPMAntTokenizerFast.check tk newline = true ∧
  is_Ok (CPMAntTokenizerFast.newline_id tk).
Proof.
  intros Hinit.
  assert (Hs : CPMAntTokenizerFast.cfg_space_token cfg ∈ rstrip_newline <$> vocab_file).
  { destruct (init_Ok_inv _ _ _ Hinit) as (sid & lid & Hs & _).
    apply load_vocab_keys. eauto. }
  assert (Hsn : CPMAntTokenizerFast.cfg_space_token cfg ≠ newline).
  { intros E. rewrite E in Hs. apply list_elem_of_fmap in Hs as (x & Hx & _).
    by apply (rstrip_newline_not_newline x). }
  assert (Hln : CPMAntTokenizerFast.cfg_line_token cfg ≠ newline).
  { destruct (init_Ok_inv _ _ _ Hinit) as (sid & lid & _ & Hl & _).
    intros E. rewrite E, dict_get_setitem, decide_False in Hl by done.
    assert (Hin : newline ∈ rstrip_newline <$> vocab_file)
      by (apply load_vocab_keys; eauto).
    apply list_elem_of_fmap in Hin as (x & Hx & _).
    by apply (rstrip_newline_not_newline x). }
  unfold CPMAntTokenizerFast.check, CPMAntTokenizerFast.newline_id, dict_contains,
    dict_getitem, is_Ok.
  split_and!.
  - destruct (init_encoder_get _ _ _ Hinit (CPMAntTokenizerFast.cfg_space_token cfg))
      as (sid & lid & _ & _ & _ & ->).
    case_decide; [done|]. by rewrite decide_True.
  - destruct (init_encoder_get _ _ _ Hinit (CPMAntTokenizerFast.cfg_line_token cfg))
      as (sid & lid & _ & _ & _ & ->).
    by rewrite decide_True.
  - destruct (init_encoder_get _ _ _ Hinit newline) as (sid & lid & _ & _ & _ & ->).
    by rewrite !decide_False, decide_True by done.
  - destruct (init_encoder_get _ _ _ Hinit newline) as (sid & lid & _ & _ & _ & ->).
    rewrite !decide_False, decide_True by done. eauto.
Qed.

Lemma init_placeholders_gone_witness :
  CPMAntTokenizerFast.init example_vocab_file CPMAntTokenizerFast.default_config
    = Ok example_tokenizer ∧
  CPMAntTokenizerFast.check example_tokenizer (py "</_>") = false ∧
  CPMAntTokenizerFast.check example_tokenizer (py "</n>") = false ∧
  CPMAntTokenizerFast.check example_tokenizer newline = true ∧
  is_Ok (CPMAntTokenizerFast.newline_id example_tokenizer).
Proof.
  assert (H : CPMAntTokenizerFast.init example_vocab_file
                CPMAntTokenizerFast.default_config = Ok example_tokenizer)
    by (vm_compute; reflexivity).
  split; [exact H|].
  exact (init_placeholders_gone example_vocab_file
           CPMAntTokenizerFast.default_config example_tokenizer H).
Defined.

(** Every id of a constructed table is the id of a token of the file. *)
Lemma init_encoder_value (vocab_file : list str) (cfg : CPMAntTokenizerFast.config)
    (tk : CPMAntTokenizerFast.t) (k : str) (v : Z) :
  CPMAntTokenizerFast.init vocab_file cfg = Ok tk →
  dict_get (CPMAntTokenizerFast.encoder tk) k = Some v →
  ∃ k0, dict_get (load_vocab vocab_file) k0 = Some v.
Proof.
  intros Hinit. destruct (init_encoder_get _ _ _ Hinit k) as (sid & lid & Hs & Hl & _ & ->).
  rewrite dict_get_setitem in Hl.
  repeat case_decide; intros; simplify_eq; eauto.
Qed.

(** X7. The ids of a constructed table are line indices of the file: none is
    negative, none reaches the number of lines. *)
Theorem init_ids_in_range (vocab_file : list str) (cfg : CPMAntTokenizerFast.config)
    (tk : CPMAntTokenizerFast.t) (k : str) (v : Z) :
  CPMAntTokenizerFast.init vocab_file cfg = Ok tk →
  dict_get (CPMAntTokenizerFast.encoder tk) k = Some v →
  (0 ≤ v < Z.of_nat (length vocab_file))%Z.
Proof.
  intros Hinit Hk.
  destruct (init_encoder_value _ _ _ _ _ Hinit Hk) as (k0 & (i & -> & Hi)%load_vocab_get).
  apply lookup_lt_Some in Hi. rewrite length_fmap in Hi. lia.
Qed.

Lemma init_ids_in_range_witness :
  CPMAntTokenizerFast.init example_vocab_file CPMAntTokenizerFast.default_config
    = Ok example_tokenizer ∧
  dict_get (CPMAntTokenizerFast.encoder example_tokenizer) space = Some 5%Z ∧
  (0 ≤ 5 < Z.of_nat (length example_vocab_file))%Z.
Proof.
  assert (H : CPMAntTokenizerFast.init example_vocab_file
                CPMAntTokenizerFast.default_config = Ok example_tokenizer)
    by (vm_compute; reflexivity).
  assert (H5 : dict_get (CPMAntTokenizerFast.encoder example_tokenizer) space = Some 5%Z)
    by (vm_compute; reflexivity).
  split; [exact H|]. split; [exact H5|].
  exact (init_ids_in_range example_vocab_file CPMAntTokenizerFast.default_config
           example_tokenizer space 5%Z H H5).
Defined.

Lemma dict_filter_absent {K V : Type} `{EqDecision K} (d : dict K V) (k : K) :
  dict_get d k = None → filter (λ kv, kv.1 ≠ k) d = d.
Proof.
  induction d as [|[k0 v0] d IH]; [done|]. simpl. rewrite filter_cons. simpl.
  case_decide; [done|]. intros H0. rewrite decide_True by done. by rewrite IH.
Qed.

Lemma dict_filter_ne_length {K V : Type} `{EqDecision K} (d : dict K V) (k : K) :
  dict_wf d → is_Some (dict_get d k) →
  S (length (filter (λ kv, kv.1 ≠ k) d)) = length d.
Proof.
  unfold dict_wf. induction d as [|[k0 v0] d IH]; csimpl; [by intros _ [? ?]|].
  rewrite NoDup_cons. intros [Hk0 Hnd]. rewrite filter_cons. simpl.
  destruct (decide (k0 = k)) as [->|Hne].
  - intros _. rewrite decide_False by (intros Hc; by apply Hc). simpl.
    rewrite dict_filter_absent; [done|]. by apply dict_get_None_keys.
  - intros Hk. rewrite decide_True by done. simpl. f_equal. by apply IH.
Qed.

Lemma load_vocab_length_distinct (lines : list str) :
  NoDup (rstrip_newline <$> lines) → length (load_vocab lines) = length lines.
Proof.
  induction lines as [|token lines IH] using rev_ind; [done|].
  rewrite fmap_app. intros [Hnd [Hfresh _]]%NoDup_app.
  rewrite load_vocab_snoc, dict_setitem_fresh.
  - rewrite !length_app, IH by done. done.
  - apply eq_None_not_Some. rewrite load_vocab_keys.
    intros Hin. apply (Hfresh _ Hin). csimpl. left.
Qed.

(** X8. [len(tokenizer)]: when the space character is not itself a token of
    the file, the constructed table has as many tokens as the file has
    distinct tokens; one per line when the lines hold distinct tokens. *)
Theorem init_vocab_size (vocab_file : list str) (cfg : CPMAntTokenizerFast.config)
    (tk : CPMAntTokenizerFast.t) :
  CPMAntTokenizerFast.init vocab_file cfg = Ok tk →
  space ∉ rstrip_newline <$> vocab_file →
  CPMAntTokenizerFast.vocab_size tk = length (load_vocab vocab_file) ∧
  (NoDup (rstrip_newline <$> vocab_file) →
   CPMAntTokenizerFast.vocab_size tk = length vocab_file).
Proof.
  intros Hinit Hspace.
  assert (Hsize : CPMAntTokenizerFast.vocab_size tk = length (load_vocab vocab_file)).
  { destruct (init_Ok_inv _ _ _ Hinit) as (sid & lid & Hs & Hl & Hne & Henc & _).
    unfold CPMAntTokenizerFast.vocab_size. rewrite Henc.
    set (E0 := load_vocab vocab_file) in *.
    assert (H0 : dict_get E0 space = None).
    { apply eq_None_not_Some. unfold E0. by rewrite load_vocab_keys. }
    assert (Hn : dict_get (dict_setitem E0 space sid) newline = None).
    { rewrite dict_get_setitem, decide_False by done.
      apply eq_None_not_Some. unfold E0. rewrite load_vocab_keys.
      intros (x & Hx & _)%list_elem_of_fmap. by apply (rstrip_newline_not_newline x). }
    set (E2 := dict_setitem (dict_setitem E0 space sid) newline lid) in *.
    assert (Hwf : dict_wf E2) by (do 2 apply dict_setitem_wf; apply load_vocab_wf).
    assert (Hlen2 : length E2 = S (S (length E0))).
    { unfold E2. rewrite (dict_setitem_fresh _ newline) by done.
      rewrite (dict_setitem_fresh _ space) by done. rewrite !length_app. simpl. lia. }
    assert (H3 : S (length (filter (λ kv, kv.1 ≠ CPMAntTokenizerFast.cfg_space_token cfg) E2))
                 = length E2).
    { apply dict_filter_ne_length; [done|]. unfold E2. rewrite !dict_get_setitem.
      repeat case_decide; eauto. }
    assert (H4 : S (length (filter (λ kv, kv.1 ≠ CPMAntTokenizerFast.cfg_line_token cfg)
                   (filter (λ kv, kv.1 ≠ CPMAntTokenizerFast.cfg_space_token cfg) E2)))
                 = length (filter (λ kv, kv.1 ≠ CPMAntTokenizerFast.cfg_space_token cfg) E2)).
    { apply dict_filter_ne_length; [by apply dict_filter_wf|].
      rewrite dict_get_filter_ne, decide_False by done. unfold E2.
      rewrite dict_get_setitem. case_decide; eauto. }
    lia. }
  split; [done|]. intros Hnd. by rewrite Hsize, load_vocab_length_distinct.
Qed.

Lemma init_vocab_size_witness :
  CPMAntTokenizerFast.init example_vocab_file CPMAntTokenizerFast.default_config
    = Ok example_tokenizer ∧
  (space ∉ rstrip_newline <$> example_vocab_file) ∧
  CPMAntTokenizerFast.vocab_size example_tokenizer = length (load_vocab example_vocab_file) ∧
  (NoDup (rstrip_newline <$> example_vocab_file) →
   CPMAntTokenizerFast.vocab_size example_tokenizer = length example_vocab_file).
Proof.
  assert (H : CPMAntTokenizerFast.init example_vocab_file
                CPMAntTokenizerFast.default_config = Ok example_tokenizer)
    by (vm_compute; reflexivity).
  assert (Hsp : space ∉ rstrip_newline <$> example_vocab_file)
    by (apply (bool_decide_unpack _); vm_compute; reflexivity).
  split; [exact H|]. split; [exact Hsp|].
  exact (init_vocab_size example_vocab_file CPMAntTokenizerFast.default_config
           example_tokenizer H Hsp).
Defined.

(** ** WordpieceTokenizer.tokenize: the tokens cover the span *)

Lemma spec_scan_covers (V : dict str Z) (unk : str) (fuel : nat) (rest : list char) :
  length rest ≤ fuel →
  ∃ pieces, concat pieces = rest ∧
            Forall2 (token_of_piece V unk) pieces
                    (WordpieceTokenizer.spec_scan V unk fuel rest).
Proof.
  revert rest. induction fuel as [|fuel IH]; intros rest Hlen.
  - destruct rest; [|simpl in Hlen; lia]. exists []. split; [done|constructor].
  - destruct (decide (rest = [])) as [->|Hne].
    { exists []. split; [done|constructor]. }
    rewrite spec_scan_S by done.
    destruct (WordpieceTokenizer.longest_match V rest) as [k|] eqn:Hm.
    + apply longest_match_Some in Hm as (Hk & Hc & _).
      destruct (IH (drop k rest)) as (pieces & Hcat & Hall);
        [rewrite length_drop; lia|].
      exists (take k rest :: pieces). split.
      * simpl. by rewrite Hcat, take_drop.
      * constructor; [|done]. left. split_and!; [done| |done].
        intros E%(f_equal length). rewrite length_take in E. simpl in E. lia.
    + pose proof (longest_match_None _ _ Hm 1) as Hc.
      destruct rest as [|c rest]; [done|]. simpl in Hlen.
      destruct (IH rest) as (pieces & Hcat & Hall); [lia|].
      exists ([c] :: pieces). split.
      * simpl. by rewrite Hcat.
      * simpl. rewrite drop_0. constructor; [|done]. right. split_and!; [|done|done].
        apply Hc. simpl. lia.
Qed.

Lemma tokenize_spec_scan (self : WordpieceTokenizer.t) (token : str) :
  (Z.of_nat (length token) ≤ WordpieceTokenizer.max_input_chars_per_word self)%Z →
  WordpieceTokenizer.tokenize self token =
  WordpieceTokenizer.spec_scan (WordpieceTokenizer.vocab self)
    (WordpieceTokenizer.unk_token self) (length token) token.
Proof.
  intros Hguard. unfold WordpieceTokenizer.tokenize. rewrite decide_False by lia.
  rewrite while_loop_spec_scan by lia. done.
Qed.

Lemma pieces_count (V : dict str Z) (unk : str) (pieces toks : list str) :
  Forall2 (token_of_piece V unk) pieces toks → length toks ≤ length (concat pieces).
Proof.
  induction 1 as [|piece tok pieces toks Hp _ IH]; [done|].
  simpl. rewrite length_app.
  assert (1 ≤ length piece); [|lia].
  destruct Hp as [(_ & Hne & _)|(_ & Hlen & _)]; [|lia].
  destruct piece; [done|simpl; lia].
Qed.

(** X9. Within the guard the tokens cover the span, piece by piece and in
    order: every token is a vocabulary entry that stands for itself, or the
    unknown marker standing for one character that is no entry. So there
    are at most as many tokens as characters. *)
Theorem wordpiece_tokenize_covers (self : WordpieceTokenizer.t) (token : str) :
  (Z.of_nat (length token) ≤ WordpieceTokenizer.max_input_chars_per_word self)%Z →
  (∃ pieces, concat pieces = token ∧
     Forall2 (token_of_piece (WordpieceTokenizer.vocab self)
                             (WordpieceTokenizer.unk_token self))
             pieces (WordpieceTokenizer.tokenize self token)) ∧
  length (WordpieceTokenizer.tokenize self token) ≤ length token.
Proof.
  intros Hguard. rewrite tokenize_spec_scan by done.
  destruct (spec_scan_covers (WordpieceTokenizer.vocab self)
              (WordpieceTokenizer.unk_token self) (length token) token)
    as (pieces & Hcat & Hall); [done|].
  split; [by exists pieces|].
  apply pieces_count in Hall. by rewrite Hcat in Hall.
Qed.

Lemma wordpiece_tokenize_covers_witness :
  (Z.of_nat (length (py "ac")) ≤
   WordpieceTokenizer.max_input_chars_per_word example_wordpiece)%Z ∧
  (∃ pieces, concat pieces = py "ac" ∧
     Forall2 (token_of_piece (WordpieceTokenizer.vocab example_wordpiece)
                             (WordpieceTokenizer.unk_token example_wordpiece))
             pieces (WordpieceTokenizer.tokenize example_wordpiece (py "ac"))) ∧
  length (WordpieceTokenizer.tokenize example_wordpiece (py "ac")) ≤ length (py "ac").
Proof.
  assert (Hg : (Z.of_nat (length (py "ac")) ≤
                WordpieceTokenizer.max_input_chars_per_word example_wordpiece)%Z)
    by (vm_compute; discriminate).
  split; [exact Hg|].
  exact (wordpiece_tokenize_covers example_wordpiece (py "ac") Hg).
Defined.

(** ** Round trips through the table *)

Lemma facade_tokenize_concat (cut : str → list str) (tk : CPMAntTokenizerFast.t)
    (text : str) :
  CPMAntTokenizerFast.tokenize cut tk text =
  concat (WordpieceTokenizer.tokenize (CPMAntTokenizerFast.wordpiece_tokenizer tk)
            <$> cut text).
Proof.
  unfold CPMAntTokenizerFast.tokenize.
  assert (Hgen : ∀ spans acc,
    foldl (λ out x, out ++ WordpieceTokenizer.tokenize
                      (CPMAntTokenizerFast.wordpiece_tokenizer tk) x) acc spans
    = acc ++ concat (WordpieceTokenizer.tokenize
                       (CPMAntTokenizerFast.wordpiece_tokenizer tk) <$> spans)).
  { induction spans as [|x spans IH]; intros acc; csimpl.
    - by rewrite app_nil_r.
    - by rewrite IH, app_assoc. }
  by rewrite Hgen.
Qed.

(** When every character of the span is a vocabulary entry, no unknown
    marker is emitted and the tokens concatenate to the span. *)
Lemma tokenize_known_chars (self : WordpieceTokenizer.t) (token : str) :
  (Z.of_nat (length token) ≤ WordpieceTokenizer.max_input_chars_per_word self)%Z →
  (∀ c, c ∈ token → dict_contains (WordpieceTokenizer.vocab self) [c] = true) →
  concat (WordpieceTokenizer.tokenize self token) = token ∧
  Forall (λ t, dict_contains (WordpieceTokenizer.vocab self) t = true)
         (WordpieceTokenizer.tokenize self token).
Proof.
  intros Hguard Hknown. rewrite tokenize_spec_scan by done.
  destruct (spec_scan_covers (WordpieceTokenizer.vocab self)
              (WordpieceTokenizer.unk_token self) (length token) token)
    as (pieces & Hcat & Hall); [done|].
  set (toks := WordpieceTokenizer.spec_scan _ _ _ _) in *. clearbody toks.
  subst token. clear Hguard.
  induction Hall as [|piece tok pieces toks Hp _ IH].
  - split; [done|constructor].
  - destruct IH as [IH1 IH2].
    { intros c Hc. apply Hknown. simpl. apply elem_of_app. by right. }
    destruct Hp as [(Hc & _ & ->)|(Hc & Hlen & _)].
    + split; [simpl; by rewrite IH1|by constructor].
    + exfalso. destruct piece as [|c [|? ?]]; try done.
      rewrite Hknown in Hc; [done|]. simpl. left.
Qed.

Lemma init_encoder_nonneg (vocab_file : list str) (cfg : CPMAntTokenizerFast.config)
    (tk : CPMAntTokenizerFast.t) (k : str) (v : Z) :
  CPMAntTokenizerFast.init vocab_file cfg = Ok tk →
  dict_get (CPMAntTokenizerFast.encoder tk) k = Some v → (0 ≤ v)%Z.
Proof.
  intros Hinit Hk.
  destruct (init_encoder_value _ _ _ _ _ Hinit Hk) as (k0 & (i & -> & Hi)%load_vocab_get).
  lia.
Qed.

Lemma init_inverse (vocab_file : list str) (cfg : CPMAntTokenizerFast.config)
    (tk : CPMAntTokenizerFast.t) (t : str) (i : Z) :
  CPMAntTokenizerFast.init vocab_file cfg = Ok tk →
  dict_get (CPMAntTokenizerFast.encoder tk) t = Some i ↔
  dict_get (CPMAntTokenizerFast.decoder tk) i = Some t.
Proof.
  intros Hinit.
  destruct (init_Ok_inv _ _ _ Hinit) as (_ & _ & _ & _ & _ & _ & -> & _).
  apply invert_inverse.
  - by eapply init_encoder_wf.
  - by eapply init_encoder_injective.
Qed.

Lemma filter_all {A : Type} (P : A → Prop) `{∀ x, Decision (P x)} (l : list A) :
  Forall P l → filter P l = l.
Proof.
  induction 1 as [|x l Hx _ IH]; [done|]. by rewrite filter_cons_True, IH.
Qed.

(** X10. [decode] undoes [encode]: when the word segmenter splits the text into
    spans of at most 200 characters that concatenate to the text, and every
    character of the text is a token of the table, decoding the ids of the
    text gives the text back. *)
Theorem decode_encode_roundtrip (cut : str → list str) (vocab_file : list str)
    (cfg : CPMAntTokenizerFast.config) (tk : CPMAntTokenizerFast.t) (text : str) :
  CPMAntTokenizerFast.init vocab_file cfg = Ok tk →
  concat (cut text) = text →
  Forall (λ span, length span ≤ 200) (cut text) →
  (∀ c, c ∈ text → dict_contains (CPMAntTokenizerFast.encoder tk) [c] = true) →
  ∃ ids, CPMAntTokenizerFast.encode cut tk text = Ok ids ∧
         CPMAntTokenizerFast.decode tk ids = Ok text.
Proof.
  intros Hinit Hcut Hspans Hknown.
  destruct (init_Ok_inv _ _ _ Hinit) as (_ & _ & _ & _ & _ & _ & _ & _ & Hwp).
  set (enc := CPMAntTokenizerFast.encoder tk) in *.
  set (toks := CPMAntTokenizerFast.tokenize cut tk text).
  assert (Htoks : concat toks = text ∧ Forall (λ t, dict_contains enc t = true) toks).
  { unfold toks. rewrite facade_tokenize_concat, Hwp.
    rewrite <- Hcut in Hknown. rewrite <- Hcut at 2. clear Hcut.
    induction Hspans as [|span spans Hlen _ IH]; [split; [done|constructor]|].
    destruct IH as [IH1 IH2].
    { intros c Hc. apply Hknown. simpl. apply elem_of_app. by right. }
    destruct (tokenize_known_chars (WordpieceTokenizer.init enc
                (CPMAntTokenizerFast.unk_token tk)) span) as [H1 H2].
    - simpl. lia.
    - intros c Hc. apply Hknown. simpl. apply elem_of_app. by left.
    - csimpl. rewrite concat_app, H1, IH1. split; [done|]. by apply Forall_app. }
  destruct Htoks as [Hcat Hin].
  exists ((λ t, default 0%Z (dict_get enc t)) <$> toks). split.
  - unfold CPMAntTokenizerFast.encode. fold toks enc. apply mapM_total.
    intros t Ht. apply (proj1 (Forall_forall _ _) Hin) in Ht.
    revert Ht. unfold dict_contains, dict_getitem. by destruct (dict_get enc t).
  - unfold CPMAntTokenizerFast.decode.
    assert (Hids : Forall2 (λ i t, dict_get (CPMAntTokenizerFast.decoder tk) i = Some t)
                     ((λ t, default 0%Z (dict_get enc t)) <$> toks) toks).
    { apply Forall2_fmap_l, Forall_Forall2_diag.
      eapply Forall_impl; [exact Hin|]. intros t Ht. simpl.
      unfold dict_contains in Ht. destruct (dict_get enc t) as [i|] eqn:E; [|done].
      simpl. by apply (init_inverse _ _ _ _ _ Hinit). }
    rewrite filter_all.
    + rewrite (mapM_Forall2 _ _ toks); [cbn [mbind result_bind]; by rewrite Hcat|].
      eapply Forall2_impl; [exact Hids|]. intros i t Hi. unfold dict_getitem.
      by rewrite Hi.
    + apply Forall_fmap. eapply Forall_impl; [exact Hin|]. intros t Ht. simpl.
      unfold dict_contains in Ht. destruct (dict_get enc t) as [i|] eqn:E; [|done].
      simpl. by apply (init_encoder_nonneg _ _ _ _ _ Hinit E).
Qed.

Lemma decode_encode_roundtrip_witness :
  CPMAntTokenizerFast.init example_vocab_file CPMAntTokenizerFast.default_config
    = Ok example_tokenizer ∧
  concat (whole_text_cut (py "ab a")) = py "ab a" ∧
  Forall (λ span, length span ≤ 200) (whole_text_cut (py "ab a")) ∧
  (∀ c, c ∈ py "ab a" →
        dict_contains (CPMAntTokenizerFast.encoder example_tokenizer) [c] = true) ∧
  ∃ ids, CPMAntTokenizerFast.encode whole_text_cut example_tokenizer (py "ab a") = Ok ids ∧
         CPMAntTokenizerFast.decode example_tokenizer ids = Ok (py "ab a").
Proof.
  assert (H : CPMAntTokenizerFast.init example_vocab_file
                CPMAntTokenizerFast.default_config = Ok example_tokenizer)
    by (vm_compute; reflexivity).
  assert (Hcut : concat (whole_text_cut (py "ab a")) = py "ab a")
    by (vm_compute; reflexivity).
  assert (Hspans : Forall (λ span, length span ≤ 200) (whole_text_cut (py "ab a")))
    by (repeat constructor; vm_compute; lia).
  assert (Hknown : ∀ c, c ∈ py "ab a" →
            dict_contains (CPMAntTokenizerFast.encoder example_tokenizer) [c] = true).
  { intros c Hc. vm_compute in Hc.
    repeat (apply elem_of_cons in Hc as [->|Hc]; [vm_compute; reflexivity|]).
    by apply elem_of_nil in Hc. }
  split; [exact H|]. split; [exact Hcut|]. split; [exact Hspans|]. split; [exact Hknown|].
  exact (decode_encode_roundtrip whole_text_cut example_vocab_file
           CPMAntTokenizerFast.default_config example_tokenizer (py "ab a")
           H Hcut Hspans Hknown).
Defined.

(** X11. [convert_ids_to_tokens] after [convert_tokens_to_ids]: a token of the
    table comes back as itself, any other token as the unknown token. *)
Theorem convert_tokens_ids_roundtrip (vocab_file : list str)
    (cfg : CPMAntTokenizerFast.config) (tk : CPMAntTokenizerFast.t)
    (tokens : list str) :
  CPMAntTokenizerFast.init vocab_file cfg = Ok tk →
  dict_contains (CPMAntTokenizerFast.encoder tk) (CPMAntTokenizerFast.unk_token tk) = true →
  ∃ ids, CPMAntTokenizerFast.convert_tokens_to_ids tk tokens = Ok ids ∧
         CPMAntTokenizerFast.convert_ids_to_tokens tk ids =
         Ok ((λ t, if dict_contains (CPMAntTokenizerFast.encoder tk) t then t
                   else CPMAntTokenizerFast.unk_token tk) <$> tokens).
Proof.
  intros Hinit Hunk.
  set (enc := CPMAntTokenizerFast.encoder tk) in *.
  set (unk_token := CPMAntTokenizerFast.unk_token tk) in *.
  unfold dict_contains in Hunk. destruct (dict_get enc unk_token) as [unk|] eqn:Eunk; [|done].
  exists ((λ x, default unk (dict_get enc x)) <$> tokens). split.
  - unfold CPMAntTokenizerFast.convert_tokens_to_ids. fold enc unk_token.
    apply mapM_total. intros x _. unfold dict_getitem, dict_get_default. rewrite Eunk.
    cbn [mbind result_bind]. by destruct (dict_get enc x).
  - unfold CPMAntTokenizerFast.convert_ids_to_tokens. fold unk_token.
    apply mapM_Forall2, Forall2_fmap, Forall_Forall2_diag, Forall_forall.
    intros t _. simpl. unfold dict_contains, dict_getitem.
    destruct (dict_get enc t) as [i|] eqn:E; simpl.
    + rewrite decide_True by (by eapply init_encoder_nonneg).
      apply (init_inverse _ _ _ _ _ Hinit) in E. by rewrite E.
    + rewrite decide_True by (by eapply init_encoder_nonneg).
      apply (init_inverse _ _ _ _ _ Hinit) in Eunk. by rewrite Eunk.
Qed.

Lemma convert_tokens_ids_roundtrip_witness :
  CPMAntTokenizerFast.init example_vocab_file CPMAntTokenizerFast.default_config
    = Ok example_tokenizer ∧
  dict_contains (CPMAntTokenizerFast.encoder example_tokenizer)
    (CPMAntTokenizerFast.unk_token example_tokenizer) = true ∧
  ∃ ids, CPMAntTokenizerFast.convert_tokens_to_ids example_tokenizer [py "ab"; py "c"]
           = Ok ids ∧
         CPMAntTokenizerFast.convert_ids_to_tokens example_tokenizer ids =
         Ok ((λ t, if dict_contains (CPMAntTokenizerFast.encoder example_tokenizer) t
                   then t else CPMAntTokenizerFast.unk_token example_tokenizer)
               <$> [py "ab"; py "c"]).
Proof.
  assert (H : CPMAntTokenizerFast.init example_vocab_file
                CPMAntTokenizerFast.default_config = Ok example_tokenizer)
    by (vm_compute; reflexivity).
  assert (Hunk : dict_contains (CPMAntTokenizerFast.encoder example_tokenizer)
                   (CPMAntTokenizerFast.unk_token example_tokenizer) = true)
    by (vm_compute; reflexivity).
  split; [exact H|]. split; [exact Hunk|].
  exact (convert_tokens_ids_roundtrip example_vocab_file
           CPMAntTokenizerFast.default_config example_tokenizer [py "ab"; py "c"] H Hunk).
Defined.

(** X12. [encode] is [convert_tokens_to_ids] after [tokenize], when the unknown
    token is in the table. *)
Theorem encode_is_convert_tokenize (cut : str → list str) (vocab_file : list str)
    (cfg : CPMAntTokenizerFast.config) (tk : CPMAntTokenizerFast.t) (text : str) :
  CPMAntTokenizerFast.init vocab_file cfg = Ok tk →
  dict_contains (CPMAntTokenizerFast.encoder tk) (CPMAntTokenizerFast.unk_token tk) = true →
  CPMAntTokenizerFast.encode cut tk text =
  CPMAntTokenizerFast.convert_tokens_to_ids tk (CPMAntTokenizerFast.tokenize cut tk text).
Proof.
  intros Hinit Hunk.
  destruct (init_Ok_inv _ _ _ Hinit) as (_ & _ & _ & _ & _ & _ & _ & _ & Hwp).
  set (enc := CPMAntTokenizerFast.encoder tk) in *.
  set (unk_token := CPMAntTokenizerFast.unk_token tk) in *.
  unfold dict_contains in Hunk. destruct (dict_get enc unk_token) as [unk|] eqn:Eunk; [|done].
  unfold CPMAntTokenizerFast.encode, CPMAntTokenizerFast.convert_tokens_to_ids.
  fold enc unk_token.
  rewrite !(mapM_total _ _ (λ x, default unk (dict_get enc x))); [done| |].
  - intros x _. unfold dict_getitem, dict_get_default. rewrite Eunk.
    cbn [mbind result_bind]. by destruct (dict_get enc x).
  - intros x (span & _ & Hx)%facade_tokenize_tokens.
    apply wordpiece_tokenize_tokens in Hx. rewrite Hwp in Hx. simpl in Hx.
    unfold dict_getitem. destruct Hx as [->|Hx].
    + fold unk_token. by rewrite Eunk.
    + unfold dict_contains in Hx. fold enc in Hx. by destruct (dict_get enc x).
Qed.

Lemma encode_is_convert_tokenize_witness :
  CPMAntTokenizerFast.init example_vocab_file CPMAntTokenizerFast.default_config
    = Ok example_tokenizer ∧
  dict_contains (CPMAntTokenizerFast.encoder example_tokenizer)
    (CPMAntTokenizerFast.unk_token example_tokenizer) = true ∧
  CPMAntTokenizerFast.encode whole_text_cut example_tokenizer (py "ac") =
  CPMAntTokenizerFast.convert_tokens_to_ids example_tokenizer
    (CPMAntTokenizerFast.tokenize whole_text_cut example_tokenizer (py "ac")).
Proof.
  assert (H : CPMAntTokenizerFast.init example_vocab_file
                CPMAntTokenizerFast.default_config = Ok example_tokenizer)
    by (vm_compute; reflexivity).
  assert (Hunk : dict_contains (CPMAntTokenizerFast.encoder example_tokenizer)
                   (CPMAntTokenizerFast.unk_token example_tokenizer) = true)
    by (vm_compute; reflexivity).
  split; [exact H|]. split; [exact Hunk|].
  exact (encode_is_convert_tokenize whole_text_cut example_vocab_file
           CPMAntTokenizerFast.default_config example_tokenizer (py "ac") H Hunk).
Defined.

(** X13. Without the unknown token in the table, [convert_tokens_to_ids] raises
    [KeyError] on every token list that is not empty, also when all its
    tokens are in the table: the default of [get] is looked up for each
    token. The empty list is converted to the empty list. *)
Theorem convert_tokens_to_ids_without_unk (tk : CPMAntTokenizerFast.t)
    (tokens : list str) :
  dict_contains (CPMAntTokenizerFast.encoder tk) (CPMAntTokenizerFast.unk_token tk) = false →
  CPMAntTokenizerFast.convert_tokens_to_ids tk tokens =
  match tokens with [] => Ok [] | _ :: _ => Raise KeyError end.
Proof.
  intros Hunk. destruct tokens as [|x tokens]; [done|].
  unfold CPMAntTokenizerFast.convert_tokens_to_ids. rewrite mapM_cons.
  unfold dict_contains in Hunk. unfold dict_getitem.
  by destruct (dict_get _ (CPMAntTokenizerFast.unk_token tk)).
Qed.

Lemma convert_tokens_to_ids_without_unk_witness :
  dict_contains (CPMAntTokenizerFast.encoder no_unk_tokenizer)
    (CPMAntTokenizerFast.unk_token no_unk_tokenizer) = false ∧
  CPMAntTokenizerFast.convert_tokens_to_ids no_unk_tokenizer [py "a"] = Raise KeyError.
Proof.
  assert (Hunk : dict_contains (CPMAntTokenizerFast.encoder no_unk_tokenizer)
                   (CPMAntTokenizerFast.unk_token no_unk_tokenizer) = false)
    by (vm_compute; reflexivity).
  split; [exact Hunk|].
  exact (convert_tokens_to_ids_without_unk no_unk_tokenizer [py "a"] Hunk).
Defined.

(** ** pad: rows of equal lengths, and the alignment in general *)

Lemma torch_cat_rows (n : nat) (rows : list (list Z)) :
  rows ≠ [] → Forall (λ v, length v = n) rows →
  torch_cat ((λ v, T2 (length v) [v]) <$> rows) = Ok (T2 n rows).
Proof.
  intros Hne Hall.
  assert (Hfilter : filter (λ t, cat_skipped t = false) ((λ v, T2 (length v) [v]) <$> rows)
                    = (λ v, T2 (length v) [v]) <$> rows).
  { apply filter_all, Forall_fmap, Forall_true. done. }
  unfold torch_cat. rewrite Hfilter.
  destruct rows as [|v0 rows]; [done|]. csimpl.
  apply Forall_cons in Hall as [Hv0 Hall]. rewrite Hv0.
  rewrite (mapM_Forall2 _ _ ((λ v, [v]) <$> rows)).
  - cbn [mbind result_bind]. do 2 f_equal. simpl. f_equal.
    clear. induction rows as [|v rows IH]; [done|]. csimpl. by rewrite IH.
  - apply Forall2_fmap, Forall_Forall2_diag.
    eapply Forall_impl; [exact Hall|]. intros v Hv. simpl. by rewrite decide_True.
Qed.

Lemma max_list_const (n : nat) (l : list nat) :
  l ≠ [] → Forall (λ x, x = n) l → foldr Nat.max 0 l = n ∧ foldr Nat.min n l = n.
Proof.
  intros Hne Hall. induction Hall as [|x l -> Hall IH]; [done|].
  destruct l as [|y l].
  - simpl. lia.
  - destruct IH as [IH1 IH2]; [done|]. simpl in *. lia.
Qed.

Lemma pad_equal_rows (orig_items : list bundle) (key : str)
    (padding_value : Z) (padding_side : str) (rows : list (list Z)) (n : nat) :
  row_batch key orig_items rows →
  rows ≠ [] →
  Forall (λ v, length v = n) rows →
  pad orig_items key padding_value padding_side = Ok (T2 n rows).
Proof.
  intros Hrows Hne Hall.
  assert (Hlen : mapM (λ item, t ← (v ← dict_getitem item key; as_tensor v);
                               tensor_last_dim t) orig_items = Ok (length <$> rows)).
  { apply mapM_Forall2. apply Forall2_fmap_r. eapply Forall2_impl; [exact Hrows|].
    intros it v Hit. unfold dict_getitem. by rewrite Hit. }
  assert (Hts : mapM (λ item, v ← dict_getitem item key; as_tensor v) orig_items
                = Ok ((λ v, T2 (length v) [v]) <$> rows)).
  { apply mapM_Forall2, Forall2_fmap_r. eapply Forall2_impl; [exact Hrows|].
    intros it v' Hit. unfold dict_getitem. by rewrite Hit. }
  destruct (max_list_const n (length <$> rows)) as [Hmax Hmin].
  { by destruct rows. }
  { by apply Forall_fmap. }
  pose proof (torch_cat_rows n rows Hne Hall) as Hcat.
  unfold row_batch in Hrows.
  destruct Hrows as [|it0 v0 its vs Hit0 Hrows]; [done|].
  assert (H0 : dict_getitem it0 key = Ok (VTensor (T2 (length v0) [v0])))
    by (unfold dict_getitem; by rewrite Hit0).
  unfold pad. cbn zeta.
  change (list_getitem (it0 :: its) 0) with (Ok it0). cbn [mbind result_bind].
  rewrite H0. cbn [mbind result_bind tensor_getitem0].
  change (list_getitem (it0 :: its) 0) with (Ok it0). cbn [mbind result_bind].
  rewrite H0. cbn [mbind result_bind as_tensor tensor_dim].
  rewrite Hlen. cbn [mbind result_bind]. rewrite Hmax, Hmin.
  rewrite decide_True by done. rewrite Hts. cbn [mbind result_bind]. exact Hcat.
Qed.

(** X14. Padding no-op: when all rows of the batch have the same length, [pad]
    returns the rows as they are, one per bundle; no padding value is put
    in, and [padding_value] and [padding_side] have no effect. *)
Theorem pad_equal_lengths (orig_items : list bundle) (key : str)
    (padding_value : Z) (padding_side : str) (rows : list (list Z)) (n : nat) :
  row_batch key orig_items rows →
  rows ≠ [] →
  Forall (λ v, length v = n) rows →
  pad orig_items key padding_value padding_side = Ok (T2 n rows) ∧
  ∀ padding_value' padding_side',
    pad orig_items key padding_value' padding_side'
    = pad orig_items key padding_value padding_side.
Proof.
  intros Hrows Hne Hall. split; [by apply pad_equal_rows|].
  intros pv' side'. by rewrite !(pad_equal_rows _ _ _ _ rows n).
Qed.

Lemma pad_equal_lengths_witness :
  row_batch (py "input") [field (py "input") (T2 2 [[1; 2]%Z]);
                          field (py "input") (T2 2 [[3; 4]%Z])] [[1; 2]; [3; 4]]%Z ∧
  [[1; 2]; [3; 4]]%Z ≠ [] ∧
  Forall (λ v, length v = 2) [[1; 2]; [3; 4]]%Z ∧
  pad [field (py "input") (T2 2 [[1; 2]%Z]); field (py "input") (T2 2 [[3; 4]%Z])]
      (py "input") 9 (py "left") = Ok (T2 2 [[1; 2]; [3; 4]]%Z) ∧
  ∀ padding_value' padding_side',
    pad [field (py "input") (T2 2 [[1; 2]%Z]); field (py "input") (T2 2 [[3; 4]%Z])]
        (py "input") padding_value' padding_side'
    = pad [field (py "input") (T2 2 [[1; 2]%Z]); field (py "input") (T2 2 [[3; 4]%Z])]
        (py "input") 9 (py "left").
Proof.
  assert (H1 : row_batch (py "input")
                 [field (py "input") (T2 2 [[1; 2]%Z]);
                  field (py "input") (T2 2 [[3; 4]%Z])] [[1; 2]; [3; 4]]%Z)
    by (repeat constructor).
  assert (H2 : [[1; 2]; [3; 4]]%Z ≠ []) by discriminate.
  assert (H3 : Forall (λ v, length v = 2) [[1; 2]; [3; 4]]%Z) by (repeat constructor).
  split; [exact H1|]. split; [exact H2|]. split; [exact H3|].
  exact (pad_equal_lengths _ (py "input") 9 (py "left") _ 2 H1 H2 H3).
Defined.

Lemma min_list_le_elem (k x : nat) (l : list nat) : x ∈ l → foldr Nat.min k l ≤ x.
Proof.
  induction l as [|y l IH]; [by intros ?%elem_of_nil|].
  intros [->|?%IH]%elem_of_cons; simpl; lia.
Qed.

(** In one statement for a batch of rows none of which is empty: left
    padding puts every row at the end of a row of [max_length] entries,
    the lengths being equal or not. *)
Lemma pad_left_rows (orig_items : list bundle) (key : str) (pv : Z)
    (rows : list (list Z)) :
  row_batch key orig_items rows →
  rows ≠ [] →
  Forall (λ v, v ≠ []) rows →
  fits_int64 pv →
  let m := foldr Nat.max 0 (length <$> rows) in
  pad orig_items key pv (py "left") =
  Ok (T2 m ((λ v, replicate (m - length v) (to_int32 pv) ++ v) <$> rows)).
Proof.
  intros Hrows Hne Hnonempty Hpv m.
  destruct (decide (foldr Nat.min m (length <$> rows) = m)) as [Heq|Hneq].
  - assert (Hall : Forall (λ v, length v = m) rows).
    { apply Forall_forall. intros v Hv.
      assert (Hle : length v ≤ m) by (apply max_list_ge, list_elem_of_fmap; eauto).
      assert (Hge : foldr Nat.min m (length <$> rows) ≤ length v)
        by (apply min_list_le_elem, list_elem_of_fmap; eauto).
      lia. }
    rewrite (pad_equal_rows _ _ _ _ rows m Hrows Hne Hall). do 2 f_equal.
    rewrite <- (list_fmap_id rows) at 1. apply list_fmap_ext.
    intros i v Hv%list_elem_of_lookup_2. simpl.
    rewrite (proj1 (Forall_forall _ _) Hall v Hv), Nat.sub_diag. done.
  - rewrite (pad_rank2_rows _ _ _ _ rows Hrows Hneq). fold m.
    rewrite decide_True by done.
    rewrite (mapM_total _ _ (λ v, replicate (m - length v) (to_int32 pv) ++ v)); [done|].
    intros v Hv. apply padded_row_left.
    + by apply (proj1 (Forall_forall _ _) Hnonempty).
    + apply max_list_ge, list_elem_of_fmap. eauto.
Qed.

Lemma pad_rows_aligned_witness :
  row_batch (py "input") example_batch [[1; 2; 3]; [4; 5; 6; 7; 8]]%Z ∧
  foldr Nat.min 5 (length <$> [[1; 2; 3]; [4; 5; 6; 7; 8]]%Z) ≠ 5 ∧
  (py "left" = py "left" → Forall (λ v, v ≠ []) [[1; 2; 3]; [4; 5; 6; 7; 8]]%Z) ∧
  fits_int64 2147483648 ∧
  pad example_batch (py "input") 2147483648 (py "left")
  = Ok (T2 5 [[-2147483648; -2147483648; 1; 2; 3]; [4; 5; 6; 7; 8]]%Z) ∧
  (fits_int32 2147483648 → to_int32 2147483648 = 2147483648%Z).
Proof.
  assert (H1 : row_batch (py "input") example_batch [[1; 2; 3]; [4; 5; 6; 7; 8]]%Z)
    by (repeat constructor).
  assert (H2 : foldr Nat.min 5 (length <$> [[1; 2; 3]; [4; 5; 6; 7; 8]]%Z) ≠ 5)
    by (simpl; lia).
  assert (H3 : py "left" = py "left" → Forall (λ v, v ≠ []) [[1; 2; 3]; [4; 5; 6; 7; 8]]%Z)
    by (intros _; repeat constructor; discriminate).
  assert (H4 : fits_int64 2147483648) by (unfold fits_int64; lia).
  split; [exact H1|]. split; [exact H2|]. split; [exact H3|]. split; [exact H4|].
  exact (pad_rows_aligned example_batch (py "input") 2147483648 (py "left") _ H1 H2 H3 H4).
Defined.

Lemma pad_left_empty_row_witness :
  row_batch (py "input") empty_row_batch [[]; [1; 2; 3]]%Z ∧
  foldr Nat.min 3 (length <$> [[]; [1; 2; 3]]%Z) ≠ 3 ∧
  [] ∈ [[]; [1; 2; 3]]%Z ∧
  pad empty_row_batch (py "input") 7 (py "left") = Raise RuntimeError.
Proof.
  assert (H1 : row_batch (py "input") empty_row_batch [[]; [1; 2; 3]]%Z)
    by (repeat constructor).
  assert (H2 : foldr Nat.min 3 (length <$> [[]; [1; 2; 3]]%Z) ≠ 3) by (simpl; lia).
  assert (H3 : [] ∈ [[]; [1; 2; 3]]%Z) by left.
  split; [exact H1|]. split; [exact H2|]. split; [exact H3|].
  exact (pad_left_empty_row empty_row_batch (py "input") 7 _ H1 H2 H3).
Defined.

(** ** _convert_to_tensors: the layout of the bundle *)

Lemma int_to_tensor_Ok (n : Z) (t : tensor) :
  int_to_tensor n = Ok t → t = T1 [to_int32 n].
Proof.
  unfold int_to_tensor, torch_tensor. case_decide; [|done].
  cbn [mbind result_bind]. by intros [= <-].
Qed.

Lemma py_range_length (n : nat) :
  length (CPMAntTokenizerFast.py_range (Z.of_nat n)) = n.
Proof. unfold CPMAntTokenizerFast.py_range. by rewrite length_fmap, length_seq, Nat2Z.id. Qed.

Lemma py_repeat_int32 (x : Z) (n : nat) :
  fits_int32 x →
  to_int32 <$> CPMAntTokenizerFast.py_repeat x (Z.of_nat n) = replicate n x.
Proof.
  intros Hx. unfold CPMAntTokenizerFast.py_repeat.
  by rewrite fmap_replicate, Nat2Z.id, to_int32_fits.
Qed.

(** The bundle the builder returns, field by field. *)
Lemma convert_to_tensors_bundle (cut : str → list str) (tk : CPMAntTokenizerFast.t)
    (text : str) (prompt_length task_id : Z) (b : bundle) :
  CPMAntTokenizerFast._convert_to_tensors cut tk text prompt_length task_id = Ok b →
  ∃ bos ids unk,
    CPMAntTokenizerFast.bos_id tk = Ok bos ∧
    CPMAntTokenizerFast.encode cut tk text = Ok ids ∧
    CPMAntTokenizerFast.unk_id tk = Ok unk ∧
    let content := filter (λ j, j ≠ unk) (bos :: ids) in
    let input :=
      ((λ x, x + prompt_length * task_id)%Z <$> CPMAntTokenizerFast.py_range prompt_length)
        ++ content in
    let n := Z.to_nat prompt_length + length content in
    length input = n ∧
    b = [(py "input", VTensor (T2 n [to_int32 <$> input]));
         (py "length", VTensor (T1 [to_int32 (Z.of_nat n)]));
         (py "position",
          VTensor (T2 n [to_int32 <$> CPMAntTokenizerFast.py_range (Z.of_nat n)]));
         (py "span", VTensor (T2 n [replicate n 0%Z]));
         (py "context", VTensor (T2 n [replicate n 1%Z]));
         (py "segment",
          VTensor (T2 n [replicate (Z.to_nat prompt_length) 0%Z
                           ++ replicate (length content) 2%Z]))].
Proof.
  unfold CPMAntTokenizerFast._convert_to_tensors. intros H. bind_inv H.
  injection H as <-. eexists _, _, _.
  split; [done|]. split; [done|]. split; [done|].
  cbn zeta.
  set (content := filter _ (_ :: _)) in *.
  set (input := _ ++ content) in *.
  assert (Hn : length input = Z.to_nat prompt_length + length content).
  { unfold input, CPMAntTokenizerFast.py_range.
    by rewrite length_app, !length_fmap, length_seq. }
  split; [done|]. rewrite Hn in *.
  apply list_to_tensor_Ok in E2, E4, E5, E6, E7. apply int_to_tensor_Ok in E3.
  subst a2 a3 a4 a5 a6 a7.
  rewrite Hn, py_range_length, fmap_app.
  rewrite !py_repeat_int32 by (vm_compute; split; congruence).
  unfold CPMAntTokenizerFast.py_repeat.
  rewrite length_app, !length_replicate, !Nat2Z.id, fmap_replicate.
  by rewrite (to_int32_fits 0) by (unfold fits_int32; lia).
Qed.

(** X15. The layout of the bundle the builder returns: its fields are the six
    names in the order they are set, the five sequences all have the
    number of entries that [length] holds, which is at least the length of
    the prompt prefix; [span] is all 0, [context] all 1, and [segment] has
    a 0 for every prefix entry and a 2 for every other entry. *)
Theorem convert_to_tensors_layout (cut : str → list str) (tk : CPMAntTokenizerFast.t)
    (text : str) (prompt_length task_id : Z) (b : bundle) :
  CPMAntTokenizerFast._convert_to_tensors cut tk text prompt_length task_id = Ok b →
  ∃ n,
    Z.to_nat prompt_length ≤ n ∧
    b.*1 = bundle_keys ∧
    dict_get b (py "length") = Some (VTensor (T1 [to_int32 (Z.of_nat n)])) ∧
    (∀ key, key ∈ [py "input"; py "position"; py "span"; py "context"; py "segment"] →
       ∃ row, dict_get b key = Some (VTensor (T2 n [row])) ∧ length row = n) ∧
    dict_get b (py "span") = Some (VTensor (T2 n [replicate n 0%Z])) ∧
    dict_get b (py "context") = Some (VTensor (T2 n [replicate n 1%Z])) ∧
    dict_get b (py "segment") =
      Some (VTensor (T2 n [replicate (Z.to_nat prompt_length) 0%Z
                             ++ replicate (n - Z.to_nat prompt_length) 2%Z])).
Proof.
  intros Hb.
  destruct (convert_to_tensors_bundle _ _ _ _ _ _ Hb)
    as (bos & ids & unk & _ & _ & _ & Hlen & ->).
  cbn zeta in *.
  set (content := filter _ (_ :: _)) in *.
  set (input := _ ++ content) in *.
  exists (Z.to_nat prompt_length + length content).
  split; [lia|]. split; [done|]. split; [done|]. split; [|split; [done|split; [done|]]].
  - intros key Hkey.
    repeat (apply elem_of_cons in Hkey as [->|Hkey]); [..|by apply elem_of_nil in Hkey];
      eexists; (split; [reflexivity|]).
    + by rewrite length_fmap.
    + by rewrite length_fmap, py_range_length.
    + by rewrite length_replicate.
    + by rewrite length_replicate.
    + by rewrite length_app, !length_replicate.
  - replace (Z.to_nat prompt_length + length content - Z.to_nat prompt_length)
      with (length content) by lia. done.
Qed.

Lemma convert_to_tensors_layout_witness :
  CPMAntTokenizerFast._convert_to_tensors whole_text_cut example_tokenizer (py "ac") 2 2
    = Ok example_bundle ∧
  ∃ n,
    Z.to_nat 2 ≤ n ∧
    example_bundle.*1 = bundle_keys ∧
    dict_get example_bundle (py "length") = Some (VTensor (T1 [to_int32 (Z.of_nat n)])) ∧
    (∀ key, key ∈ [py "input"; py "position"; py "span"; py "context"; py "segment"] →
       ∃ row, dict_get example_bundle key = Some (VTensor (T2 n [row])) ∧ length row = n) ∧
    dict_get example_bundle (py "span") = Some (VTensor (T2 n [replicate n 0%Z])) ∧
    dict_get example_bundle (py "context") = Some (VTensor (T2 n [replicate n 1%Z])) ∧
    dict_get example_bundle (py "segment") =
      Some (VTensor (T2 n [replicate (Z.to_nat 2) 0%Z ++ replicate (n - Z.to_nat 2) 2%Z])).
Proof.
  assert (Hb : CPMAntTokenizerFast._convert_to_tensors whole_text_cut example_tokenizer
                 (py "ac") 2 2 = Ok example_bundle) by (vm_compute; reflexivity).
  split; [exact Hb|].
  exact (convert_to_tensors_layout whole_text_cut example_tokenizer (py "ac") 2 2
           example_bundle Hb).
Defined.

(** ** get_model_input *)

Lemma pad_rank1_concat (orig_items : list bundle) (key : str) (pv : Z) (side : str)
    (x : Z) (v : list Z) (rest : list (list Z)) :
  rank1_batch key orig_items ((x :: v) :: rest) →
  pad orig_items key pv side = Ok (T1 (concat ((x :: v) :: rest))).
Proof.
  intros Hvs.
  assert (Hts : mapM (λ item, v ← dict_getitem item key; as_tensor v) orig_items
                = Ok (T1 <$> (x :: v) :: rest)).
  { apply mapM_Forall2, Forall2_fmap_r. eapply Forall2_impl; [exact Hvs|].
    intros it v' Hit. unfold dict_getitem. by rewrite Hit. }
  assert (Hlen : mapM (λ item, t ← (v ← dict_getitem item key; as_tensor v);
                               tensor_last_dim t) orig_items
                 = Ok (length <$> (x :: v) :: rest)).
  { apply mapM_Forall2, Forall2_fmap_r. eapply Forall2_impl; [exact Hvs|].
    intros it v' Hit. unfold dict_getitem. by rewrite Hit. }
  unfold rank1_batch in Hvs.
  destruct orig_items as [|it0 its]; [by apply Forall2_nil_cons_inv in Hvs|].
  apply Forall2_cons in Hvs as [Hit0 _].
  assert (H0 : dict_getitem it0 key = Ok (VTensor (T1 (x :: v))))
    by (unfold dict_getitem; by rewrite Hit0).
  unfold pad. cbn zeta.
  change (list_getitem (it0 :: its) 0) with (Ok it0). cbn [mbind result_bind].
  rewrite H0. cbn [mbind result_bind tensor_getitem0].
  change (list_getitem (it0 :: its) 0) with (Ok it0). cbn [mbind result_bind].
  rewrite H0. cbn [mbind result_bind as_tensor tensor_dim].
  rewrite Hlen. cbn [mbind result_bind]. rewrite Hts. cbn [mbind result_bind].
  by apply torch_cat_rank1.
Qed.

Lemma Forall_exists_Forall2 {A B : Type} (P : A → B → Prop) (l : list A) :
  Forall (λ a, ∃ b, P a b) l → ∃ k, Forall2 P l k.
Proof.
  induction 1 as [|a l [b Hb] _ [k IH]]; [exists []; constructor|].
  exists (b :: k). by constructor.
Qed.

(** The loop over the keys: when [pad] returns for every key, the result
    holds, for every key, what [pad] returned for it. *)
Lemma pad_keys_loop (input_tensors : list bundle) (keys : list str) :
  (∀ key, key ∈ keys → is_Ok (pad input_tensors key 0 (py "left"))) →
  ∃ padded,
    foldl (λ acc key,
             padded ← acc;
             t ← pad input_tensors key 0 (py "left");
             Ok (dict_setitem padded key t))
          (Ok []) keys = Ok padded ∧
    ∀ key, dict_get padded key =
           if decide (key ∈ keys)
           then match pad input_tensors key 0 (py "left") with
                | Ok t => Some t
                | Raise _ => None
                end
           else None.
Proof.
  induction keys as [|key keys IH] using rev_ind; intros Hall.
  - exists []. split; [done|]. intros key. by rewrite decide_False by apply not_elem_of_nil.
  - destruct IH as (padded & Hrun & Hget).
    { intros k Hk. apply Hall, elem_of_app. by left. }
    destruct (Hall key) as [t Ht]; [apply elem_of_app; right; left|].
    exists (dict_setitem padded key t). split.
    + rewrite foldl_app, Hrun. simpl. by rewrite Ht.
    + intros k. rewrite dict_get_setitem, Hget.
      destruct (decide (key = k)) as [->|Hne].
      * rewrite Ht. rewrite decide_True; [done|]. apply elem_of_app. right. left.
      * destruct (decide (k ∈ keys)) as [Hin|Hnin].
        -- rewrite decide_True; [done|]. apply elem_of_app. by left.
        -- rewrite decide_False; [done|].
           intros [?|?%list_elem_of_singleton]%elem_of_app; congruence.
Qed.

(** The row a bundle built with the default prompt holds under the name of
    one of its five sequences: it has at least 32 entries. *)
Lemma convert_to_tensors_row (cut : str → list str) (tk : CPMAntTokenizerFast.t)
    (text : str) (b : bundle) (key : str) :
  CPMAntTokenizerFast._convert_to_tensors cut tk text 32 2 = Ok b →
  key ∈ [py "input"; py "position"; py "span"; py "context"; py "segment"] →
  ∃ row, dict_get b key = Some (VTensor (T2 (length row) [row])) ∧ 32 ≤ length row.
Proof.
  intros Hb Hkey.
  destruct (convert_to_tensors_bundle _ _ _ _ _ _ Hb)
    as (bos & ids & unk & _ & _ & _ & Hlen & ->).
  cbn zeta in *.
  set (content := filter _ (_ :: _)) in *.
  set (input := _ ++ content) in *.
  change (Z.to_nat 32) with 32 in *.
  repeat (apply elem_of_cons in Hkey as [->|Hkey]); [..|by apply elem_of_nil in Hkey].
  - exists (to_int32 <$> input). rewrite length_fmap, Hlen. split; [reflexivity|lia].
  - exists (to_int32 <$> CPMAntTokenizerFast.py_range (Z.of_nat (32 + length content))).
    rewrite length_fmap, py_range_length. split; [reflexivity|lia].
  - exists (replicate (32 + length content) 0%Z).
    rewrite length_replicate. split; [reflexivity|lia].
  - exists (replicate (32 + length content) 1%Z).
    rewrite length_replicate. split; [reflexivity|lia].
  - exists (replicate 32 0%Z ++ replicate (length content) 2%Z).
    rewrite length_app, !length_replicate. split; [reflexivity|lia].
Qed.

Lemma convert_to_tensors_length_field (cut : str → list str)
    (tk : CPMAntTokenizerFast.t) (text : str) (b : bundle) :
  CPMAntTokenizerFast._convert_to_tensors cut tk text 32 2 = Ok b →
  b.*1 = bundle_keys ∧ ∃ n, dict_get b (py "length") = Some (VTensor (T1 [n])).
Proof.
  intros Hb.
  destruct (convert_to_tensors_bundle _ _ _ _ _ _ Hb)
    as (bos & ids & unk & _ & _ & _ & Hlen & ->).
  split; [done|]. by eexists.
Qed.

Lemma Forall2_split_r {A B : Type} (P : A → B → Prop) (Q : B → Prop)
    (l : list A) (k : list B) :
  Forall2 (λ a b, P a b ∧ Q b) l k → Forall2 P l k ∧ Forall Q k.
Proof.
  induction 1 as [|a b l k [HP HQ] _ [IH1 IH2]]; [split; constructor|].
  split; by constructor.
Qed.

Lemma concat_singletons {A : Type} (l : list A) : concat ((λ x, [x]) <$> l) = l.
Proof. induction l as [|x l IH]; [done|]. csimpl. by rewrite IH. Qed.

(** What [pad] returns for the fields of bundles the builder returned:
    the rows of each of the five sequences, padded on the left, and the
    lengths, concatenated. *)
Lemma get_model_input_fields (cut : str → list str) (tk : CPMAntTokenizerFast.t)
    (bundles : list bundle) :
  Forall (λ b, ∃ text, CPMAntTokenizerFast._convert_to_tensors cut tk text 32 2 = Ok b)
         bundles →
  bundles ≠ [] →
  (∀ key, key ∈ [py "input"; py "position"; py "span"; py "context"; py "segment"] →
     ∃ rows, row_batch key bundles rows ∧ Forall (λ v, 32 ≤ length v) rows ∧
             pad bundles key 0 (py "left") =
             Ok (T2 (foldr Nat.max 0 (length <$> rows))
                    ((λ v, replicate (foldr Nat.max 0 (length <$> rows) - length v) 0%Z ++ v)
                       <$> rows))) ∧
  (∃ lens, rank1_batch (py "length") bundles ((λ n, [n]) <$> lens) ∧
           pad bundles (py "length") 0 (py "left") = Ok (T1 lens)).
Proof.
  intros Heach Hbne. split.
  - intros key Hkey.
    destruct (Forall_exists_Forall2
                (λ b row, dict_get b key = Some (VTensor (T2 (length row) [row])) ∧
                          32 ≤ length row) bundles) as [rows Hrows].
    { eapply Forall_impl; [exact Heach|]. intros b [text Hb].
      by apply (convert_to_tensors_row _ _ _ _ _ Hb). }
    apply Forall2_split_r in Hrows as [Hbatch Hlong].
    exists rows. split; [done|]. split; [done|].
    apply (pad_left_rows _ _ 0 rows Hbatch).
    + intros ->. apply Forall2_nil_inv_r in Hbatch. done.
    + eapply Forall_impl; [exact Hlong|]. intros v Hv ->. simpl in Hv. lia.
    + unfold fits_int64. lia.
  - destruct (Forall_exists_Forall2
                (λ b n, dict_get b (py "length") = Some (VTensor (T1 [n]))) bundles)
      as [lens Hl].
    { eapply Forall_impl; [exact Heach|]. intros b [text Hb].
      by apply (convert_to_tensors_length_field _ _ _ _ Hb). }
    assert (Hbatch : rank1_batch (py "length") bundles ((λ n, [n]) <$> lens))
      by (by apply Forall2_fmap_r).
    exists lens. split; [done|].
    destruct lens as [|n0 lens]; [by apply Forall2_nil_inv_r in Hl|].
    rewrite (pad_rank1_concat _ _ _ _ n0 [] _ Hbatch).
    do 2 f_equal. exact (concat_singletons (n0 :: lens)).
Qed.

(** The loop of [get_model_input] over the keys of the first bundle, in
    any order: the result holds, under each of the six names, what [pad]
    returns for it, and nothing else. *)
Lemma get_model_input_loop (cut : str → list str) (tk : CPMAntTokenizerFast.t)
    (set_order : list str → list str) (text_list : list str) (bundles : list bundle) :
  Forall2 (λ text b, CPMAntTokenizerFast._convert_to_tensors cut tk text 32 2 = Ok b)
          text_list bundles →
  text_list ≠ [] →
  set_order bundle_keys ≡ₚ bundle_keys →
  ∃ padded,
    CPMAntTokenizerFast.get_model_input cut tk set_order text_list = Ok padded ∧
    ∀ key, dict_get padded key =
           if decide (key ∈ bundle_keys)
           then match pad bundles key 0 (py "left") with
                | Ok t => Some t
                | Raise _ => None
                end
           else None.
Proof.
  intros Hbuilt Hne Horder.
  assert (Hmap : mapM (λ text, CPMAntTokenizerFast._convert_to_tensors cut tk text 32 2)
                   text_list = Ok bundles) by (by apply mapM_Forall2).
  assert (Heach : Forall (λ b, ∃ text,
             CPMAntTokenizerFast._convert_to_tensors cut tk text 32 2 = Ok b) bundles).
  { clear -Hbuilt. induction Hbuilt; constructor; eauto. }
  assert (Hbne : bundles ≠ []).
  { intros ->. apply Forall2_nil_inv_r in Hbuilt. done. }
  destruct (get_model_input_fields cut tk bundles Heach Hbne) as [Hrows Hlens].
  destruct bundles as [|b0 bs]; [done|].
  assert (Hkeys0 : (dict_items b0).*1 = bundle_keys).
  { apply Forall_cons in Heach as [[text Hb] _].
    by apply (convert_to_tensors_length_field _ _ _ _ Hb). }
  destruct (pad_keys_loop (b0 :: bs) (set_order bundle_keys)) as (padded & Hrun & Hget).
  { intros key Hkey. rewrite Horder in Hkey. unfold bundle_keys in Hkey.
    destruct (decide (key = py "length")) as [->|Hnl].
    - destruct Hlens as (lens & _ & ->). by eexists.
    - destruct (Hrows key) as (rows & _ & _ & ->); [|by eexists].
      repeat (apply elem_of_cons in Hkey as [->|Hkey]); try done;
        [repeat constructor..|by apply elem_of_nil in Hkey]. }
  exists padded. split.
  - unfold CPMAntTokenizerFast.get_model_input. rewrite Hmap. cbn [mbind result_bind].
    change (list_getitem (b0 :: bs) 0) with (Ok b0). cbn [mbind result_bind].
    cbn zeta. rewrite Hkeys0. exact Hrun.
  - intros key. rewrite Hget.
    destruct (decide (key ∈ bundle_keys)) as [Hin|Hnin].
    + rewrite decide_True; [done|]. by rewrite Horder.
    + rewrite decide_False; [done|]. by rewrite Horder.
Qed.

(** X16. [get_model_input] on a list of texts that is not empty and for which
    the builder returns: every one of the five sequences is padded on the
    left with 0 to the longest of its rows, one row per text, and [length]
    holds the lengths, one per text. Every row has the 32 prefix entries,
    so no row is empty; the result has no other key, and it does not
    depend on the order in which the keys are met. *)
Theorem get_model_input_pads (cut : str → list str) (tk : CPMAntTokenizerFast.t)
    (set_order : list str → list str) (text_list : list str) (bundles : list bundle) :
  Forall2 (λ text b, CPMAntTokenizerFast._convert_to_tensors cut tk text 32 2 = Ok b)
          text_list bundles →
  text_list ≠ [] →
  set_order bundle_keys ≡ₚ bundle_keys →
  ∃ padded,
    CPMAntTokenizerFast.get_model_input cut tk set_order text_list = Ok padded ∧
    (∀ key, key ∈ [py "input"; py "position"; py "span"; py "context"; py "segment"] →
       ∃ rows, row_batch key bundles rows ∧
               Forall (λ v, 32 ≤ length v) rows ∧
               let m := foldr Nat.max 0 (length <$> rows) in
               dict_get padded key =
               Some (T2 m ((λ v, replicate (m - length v) 0%Z ++ v) <$> rows))) ∧
    (∃ lens, rank1_batch (py "length") bundles ((λ n, [n]) <$> lens) ∧
             dict_get padded (py "length") = Some (T1 lens)) ∧
    (∀ key, key ∉ bundle_keys → dict_get padded key = None).
Proof.
  intros Hbuilt Hne Horder.
  destruct (get_model_input_loop cut tk set_order text_list bundles Hbuilt Hne Horder)
    as (padded & Hrun & Hget).
  assert (Heach : Forall (λ b, ∃ text,
             CPMAntTokenizerFast._convert_to_tensors cut tk text 32 2 = Ok b) bundles).
  { clear -Hbuilt. induction Hbuilt; constructor; eauto. }
  assert (Hbne : bundles ≠ []).
  { intros ->. apply Forall2_nil_inv_r in Hbuilt. done. }
  destruct (get_model_input_fields cut tk bundles Heach Hbne) as [Hrows Hlens].
  exists padded. split; [done|]. split; [|split].
  - intros key Hkey. destruct (Hrows key Hkey) as (rows & Hbatch & Hlong & Hpad).
    exists rows. split; [done|]. split; [done|]. cbn zeta.
    rewrite Hget, Hpad. rewrite decide_True; [done|]. unfold bundle_keys.
    repeat (apply elem_of_cons in Hkey as [->|Hkey]);
      [repeat constructor..|by apply elem_of_nil in Hkey].
  - destruct Hlens as (lens & Hbatch & Hpad). exists lens. split; [done|].
    rewrite Hget, Hpad. rewrite decide_True; [done|].
    unfold bundle_keys. repeat constructor.
  - intros key Hkey. rewrite Hget. by rewrite decide_False.
Qed.

Lemma get_model_input_pads_witness :
  Forall2 (λ text b, CPMAntTokenizerFast._convert_to_tensors
                       whole_text_cut example_tokenizer text 32 2 = Ok b)
          model_input_texts model_input_bundles ∧
  model_input_texts ≠ [] ∧
  reverse bundle_keys ≡ₚ bundle_keys ∧
  ∃ padded,
    CPMAntTokenizerFast.get_model_input whole_text_cut example_tokenizer reverse
      model_input_texts = Ok padded ∧
    (∀ key, key ∈ [py "input"; py "position"; py "span"; py "context"; py "segment"] →
       ∃ rows, row_batch key model_input_bundles rows ∧
               Forall (λ v, 32 ≤ length v) rows ∧
               let m := foldr Nat.max 0 (length <$> rows) in
               dict_get padded key =
               Some (T2 m ((λ v, replicate (m - length v) 0%Z ++ v) <$> rows))) ∧
    (∃ lens, rank1_batch (py "length") model_input_bundles ((λ n, [n]) <$> lens) ∧
             dict_get padded (py "length") = Some (T1 lens)) ∧
    (∀ key, key ∉ bundle_keys → dict_get padded key = None).
Proof.
  assert (H1 : Forall2 (λ text b, CPMAntTokenizerFast._convert_to_tensors
                                    whole_text_cut example_tokenizer text 32 2 = Ok b)
                 model_input_texts model_input_bundles)
    by (repeat constructor).
  assert (H2 : model_input_texts ≠ []) by discriminate.
  assert (H3 : reverse bundle_keys ≡ₚ bundle_keys) by apply reverse_Permutation.
  split; [exact H1|]. split; [exact H2|]. split; [exact H3|].
  exact (get_model_input_pads whole_text_cut example_tokenizer reverse
           model_input_texts model_input_bundles H1 H2 H3).
Defined.

(** X17. [get_model_input] returns exactly when the list of texts is not empty
    and the builder returns for every text; on the empty list the lookup
    of the first bundle raises [IndexError]. *)
Theorem get_model_input_succeeds_iff (cut : str → list str) (tk : CPMAntTokenizerFast.t)
    (set_order : list str → list str) (text_list : list str) :
  set_order bundle_keys ≡ₚ bundle_keys →
  (text_list = [] →
   CPMAntTokenizerFast.get_model_input cut tk set_order text_list = Raise IndexError) ∧
  (is_Ok (CPMAntTokenizerFast.get_model_input cut tk set_order text_list) ↔
   text_list ≠ [] ∧
   Forall (λ text, is_Ok (CPMAntTokenizerFast._convert_to_tensors cut tk text 32 2))
          text_list).
Proof.
  intros Horder. split; [by intros ->|]. split.
  - intros [padded H]. unfold CPMAntTokenizerFast.get_model_input in H. bind_inv H.
    apply mapM_Ok_inv in E. split.
    + intros ->. apply Forall2_nil_inv_l in E as ->. done.
    + clear -E. induction E; constructor; [by eexists|done].
  - intros [Hne Hall].
    destruct (Forall_exists_Forall2
                (λ text b, CPMAntTokenizerFast._convert_to_tensors cut tk text 32 2 = Ok b)
                text_list) as [bundles Hbuilt]; [done|].
    destruct (get_model_input_loop cut tk set_order text_list bundles Hbuilt Hne Horder)
      as (padded & Hrun & _).
    by exists padded.
Qed.

Lemma get_model_input_succeeds_iff_witness :
  reverse bundle_keys ≡ₚ bundle_keys ∧
  (model_input_texts = [] →
   CPMAntTokenizerFast.get_model_input whole_text_cut example_tokenizer reverse
     model_input_texts = Raise IndexError) ∧
  (is_Ok (CPMAntTokenizerFast.get_model_input whole_text_cut example_tokenizer reverse
            model_input_texts) ↔
   model_input_texts ≠ [] ∧
   Forall (λ text, is_Ok (CPMAntTokenizerFast._convert_to_tensors
                            whole_text_cut example_tokenizer text 32 2))
          model_input_texts).
Proof.
  assert (H1 : reverse bundle_keys ≡ₚ bundle_keys) by apply reverse_Permutation.
  split; [exact H1|].
  exact (get_model_input_succeeds_iff whole_text_cut example_tokenizer reverse
           model_input_texts H1).
Defined.

(** ** save_vocabulary and __init__: the file written is not read back *)

Lemma universal_newlines_no_cr (b : bool) (text : str) :
  13%N ∉ universal_newlines b text.
Proof.
  revert b. induction text as [|c text IH]; intros b; simpl; [apply not_elem_of_nil|].
  repeat case_decide; try destruct b; rewrite ?not_elem_of_cons; try split;
    try apply IH; try done.
Qed.

Lemma universal_newlines_id (text : str) :
  13%N ∉ text → universal_newlines false text = text.
Proof.
  induction text as [|c text IH]; [done|].
  intros [Hc Ht]%not_elem_of_cons. simpl.
  rewrite decide_False by done. rewrite IH by done. by case_decide; subst.
Qed.

Lemma rstrip_newline_id (token : str) : 10%N ∉ token → rstrip_newline token = token.
Proof.
  induction token as [|c token IH]; [done|].
  intros [Hc Ht]%not_elem_of_cons. simpl. rewrite IH by done.
  destruct token; [by rewrite decide_False|done].
Qed.

Lemma rstrip_newline_snoc (token : str) :
  rstrip_newline (token ++ [10%N]) = rstrip_newline token.
Proof.
  induction token as [|c token IH]; [done|].
  simpl. by rewrite IH.
Qed.

(** The lines [split_lines] returns: no line feed but at the end. *)
Lemma split_lines_line (cur text line : str) :
  (10%N ∉ cur) → (13%N ∉ cur) → (13%N ∉ text) →
  line ∈ split_lines cur text →
  ∃ body, (10%N ∉ body) ∧ (13%N ∉ body) ∧ (line = body ∨ line = body ++ [10%N]).
Proof.
  revert cur. induction text as [|c text IH]; intros cur Hnl Hcr Ht; simpl.
  - case_decide; [by intros ?%elem_of_nil|].
    intros ->%list_elem_of_singleton. exists cur. eauto.
  - apply not_elem_of_cons in Ht as [Hc Ht]. case_decide as Hc10.
    + intros [->|Hin]%elem_of_cons.
      * exists cur. subst c. eauto.
      * apply (IH []); [apply not_elem_of_nil..|done|done].
    + apply IH; [| |done].
      * rewrite elem_of_app, list_elem_of_singleton. intros [?|?]; [done|congruence].
      * rewrite elem_of_app, list_elem_of_singleton. intros [?|?]; [done|congruence].
Qed.

(** The tokens [load_vocab] reads from the lines of a file hold neither a
    line feed nor a carriage return. *)
Lemma readlines_tokens (text token : str) :
  token ∈ rstrip_newline <$> readlines text → (10%N ∉ token) ∧ (13%N ∉ token).
Proof.
  intros (line & -> & Hline)%list_elem_of_fmap.
  apply split_lines_line in Hline as (body & Hnl & Hcr & [->| ->]);
    [| | apply not_elem_of_nil.. | apply universal_newlines_no_cr].
  - by rewrite rstrip_newline_id.
  - by rewrite rstrip_newline_snoc, rstrip_newline_id.
Qed.

Lemma split_lines_token (cur k rest : str) :
  10%N ∉ k →
  split_lines cur (k ++ 10%N :: rest) = (cur ++ k ++ [10%N]) :: split_lines [] rest.
Proof.
  revert cur. induction k as [|c k IH]; intros cur Hk; simpl.
  - done.
  - apply not_elem_of_cons in Hk as [Hc Hk].
    rewrite decide_False by done. rewrite IH by done. by rewrite <- app_assoc.
Qed.

(** The tokens read back from a text that holds one line per key: the keys
    without line feed, and the empty token for the key that is the line
    feed. *)
Lemma reload_tokens (ks : list str) (t : str) :
  Forall (λ k, k = newline ∨ (10%N ∉ k)) ks →
  t ∈ rstrip_newline <$> split_lines [] (concat ((λ k, k ++ newline) <$> ks)) →
  t = [] ∨ t ∈ ks.
Proof.
  induction 1 as [|k ks Hk _ IH]; csimpl; [by intros ?%elem_of_nil|].
  destruct Hk as [->|Hk].
  - simpl. rewrite !elem_of_cons. intros [->|[->|Hin]]; [by left..|].
    destruct (IH Hin); eauto.
  - unfold newline at 1. rewrite <- app_assoc. simpl.
    rewrite split_lines_token by done. csimpl.
    rewrite rstrip_newline_snoc, rstrip_newline_id by done.
    rewrite !elem_of_cons. intros [->|Hin]; [by right; left|].
    destruct (IH Hin); eauto.
Qed.

Lemma elem_of_concat {A : Type} (x : A) (ls : list (list A)) :
  x ∈ concat ls → ∃ l, x ∈ l ∧ l ∈ ls.
Proof.
  induction ls as [|l0 ls IH]; simpl; [by intros ?%elem_of_nil|].
  intros [?|(l & ? & ?)%IH]%elem_of_app.
  - exists l0. split; [done|by left].
  - exists l. split; [done|by right].
Qed.

(** X18. What [save_vocabulary] leaves in the file is not read back by
    [__init__], whether the call returned or raised: the tokenizer built
    from a file holds the space and the line feed in place of their
    placeholders, [save_vocabulary] writes the tokens of the table as they
    are, and the constructor then misses the space placeholder and raises
    [KeyError]. *)
Theorem save_vocabulary_not_read_back (text : str) (cfg : CPMAntTokenizerFast.config)
    (tk : CPMAntTokenizerFast.t) :
  CPMAntTokenizerFast.init (readlines text) cfg = Ok tk →
  CPMAntTokenizerFast.cfg_space_token cfg ≠ [] →
  CPMAntTokenizerFast.init (readlines (CPMAntTokenizerFast.save_vocabulary tk).1) cfg
  = Raise KeyError.
Proof.
  intros Hinit Hs.
  set (enc := CPMAntTokenizerFast.encoder tk).
  (* the keys of the table *)
  assert (Hkeys : ∀ k, k ∈ enc.*1 →
            k ≠ CPMAntTokenizerFast.cfg_space_token cfg ∧
            (k = newline ∨ (10%N ∉ k) ∧ (13%N ∉ k))).
  { intros k Hk.
    destruct (init_encoder_get _ _ _ Hinit k) as (sid & lid & _ & _ & _ & Hget).
    fold enc in Hget.
    destruct (dict_get enc k) as [v|] eqn:E;
      [|by apply dict_get_None_keys in E].
    revert Hget. repeat case_decide; try done; intros Hget.
    - split; [done|]. by left.
    - split; [done|]. right. subst k. split; by intros ?%list_elem_of_singleton.
    - split; [done|]. right. apply (readlines_tokens text).
      apply load_vocab_keys. by rewrite <- Hget. }
  (* the text written: the tokens met before the loop ended *)
  destruct (save_vocabulary_prefix tk) as (n & _ & Hw & _). fold enc in Hw.
  set (ks := (take n enc).*1).
  assert (Hout : (CPMAntTokenizerFast.save_vocabulary tk).1
                 = concat ((λ k, k ++ newline) <$> ks)).
  { rewrite Hw. unfold ks. by rewrite <- list_fmap_compose. }
  assert (Hks : ∀ k, k ∈ ks → k ∈ enc.*1).
  { intros k ([k' v] & -> & Hin)%list_elem_of_fmap.
    apply list_elem_of_fmap. exists (k', v). split; [done|].
    by apply (subseteq_take n enc). }
  assert (Hcr : 13%N ∉ concat ((λ k, k ++ newline) <$> ks)).
  { intros (line & Hin & (k & -> & Hk)%list_elem_of_fmap)%elem_of_concat.
    apply elem_of_app in Hin as [Hin|Hin].
    - destruct (Hkeys k (Hks k Hk)) as [_ [->|[_ Hn]]]; [|done].
      apply list_elem_of_singleton in Hin. done.
    - apply list_elem_of_singleton in Hin. done. }
  (* the placeholder is not read back *)
  assert (Hmiss : dict_get (load_vocab (readlines (CPMAntTokenizerFast.save_vocabulary tk).1))
                    (CPMAntTokenizerFast.cfg_space_token cfg) = None).
  { destruct (dict_get _ _) as [v|] eqn:E; [exfalso|done].
    assert (Hin : CPMAntTokenizerFast.cfg_space_token cfg
                  ∈ rstrip_newline <$>
                      readlines (CPMAntTokenizerFast.save_vocabulary tk).1)
      by (apply load_vocab_keys; eauto).
    rewrite Hout in Hin. unfold readlines in Hin.
    rewrite universal_newlines_id in Hin by done.
    apply reload_tokens in Hin as [Hin|Hin]; [done| |].
    - by apply Hks, Hkeys in Hin as [? _].
    - apply Forall_forall. intros k Hk.
      destruct (Hkeys k (Hks k Hk)) as [_ [?|[? _]]]; eauto. }
  unfold CPMAntTokenizerFast.init, dict_getitem. by rewrite Hmiss.
Qed.

Lemma save_vocabulary_not_read_back_witness :
  CPMAntTokenizerFast.init (readlines (concat unordered_vocab_file))
    CPMAntTokenizerFast.default_config = Ok unordered_tokenizer ∧
  CPMAntTokenizerFast.cfg_space_token CPMAntTokenizerFast.default_config ≠ [] ∧
  CPMAntTokenizerFast.init
    (readlines (CPMAntTokenizerFast.save_vocabulary unordered_tokenizer).1)
    CPMAntTokenizerFast.default_config
  = Raise KeyError.
Proof.
  assert (H1 : CPMAntTokenizerFast.init (readlines (concat unordered_vocab_file))
                 CPMAntTokenizerFast.default_config = Ok unordered_tokenizer)
    by (vm_compute; reflexivity).
  assert (H2 : CPMAntTokenizerFast.cfg_space_token CPMAntTokenizerFast.default_config ≠ [])
    by discriminate.
  split; [exact H1|]. split; [exact H2|].
  exact (save_vocabulary_not_read_back (concat unordered_vocab_file)
           CPMAntTokenizerFast.default_config unordered_tokenizer H1 H2).
Defined.

(** ** _convert_to_tensors: when the builder returns *)

Lemma mapM_Raise_inv {A B : Type} (f : A → result B) (l : list A) (e : exn) :
  mapM f l = Raise e → ∃ x, x ∈ l ∧ f x = Raise e.
Proof.
  induction l as [|x l IH]; [done|].
  rewrite mapM_cons. destruct (f x) as [y|e'] eqn:Hx; cbn [mbind result_bind].
  - destruct (mapM f l) as [ys|e'] eqn:Hl; cbn [mbind result_bind]; [done|].
    intros [= ->]. destruct (IH eq_refl) as (x' & Hin & Hx').
    exists x'. split; [by right|done].
  - intros [= ->]. exists x. split; [by left|done].
Qed.

Lemma dict_getitem_raises {K V : Type} `{EqDecision K} (d : dict K V) (k : K) (e : exn) :
  dict_getitem d k = Raise e → e = KeyError.
Proof. unfold dict_getitem. destruct (dict_get d k); [done|]. by intros [= <-]. Qed.

Lemma dict_getitem_is_Ok {K V : Type} `{EqDecision K} (d : dict K V) (k : K) :
  is_Ok (dict_getitem d k) ↔ dict_contains d k = true.
Proof.
  unfold dict_getitem, dict_contains, is_Ok. destruct (dict_get d k) as [v|].
  - split; [done|]. intros _. by exists v.
  - split; [by intros [v ?]|done].
Qed.

(** With the unknown token in the table, [encode] returns one id of the
    table for every token. *)
Lemma encode_total (cut : str → list str) (vocab_file : list str)
    (cfg : CPMAntTokenizerFast.config) (tk : CPMAntTokenizerFast.t) (text : str) :
  CPMAntTokenizerFast.init vocab_file cfg = Ok tk →
  dict_contains (CPMAntTokenizerFast.encoder tk) (CPMAntTokenizerFast.unk_token tk) = true →
  ∃ ids, CPMAntTokenizerFast.encode cut tk text = Ok ids ∧
         length ids = length (CPMAntTokenizerFast.tokenize cut tk text).
Proof.
  intros Hinit Hunk.
  destruct (init_Ok_inv _ _ _ Hinit) as (_ & _ & _ & _ & _ & _ & _ & _ & Hwp).
  unfold CPMAntTokenizerFast.encode.
  exists ((λ x, default 0%Z (dict_get (CPMAntTokenizerFast.encoder tk) x)) <$>
            CPMAntTokenizerFast.tokenize cut tk text).
  split; [|by rewrite length_fmap].
  apply mapM_total. intros x (span & _ & Hx)%facade_tokenize_tokens.
  apply wordpiece_tokenize_tokens in Hx. rewrite Hwp in Hx. simpl in Hx.
  destruct Hx as [->|Hx].
  - revert Hunk. unfold dict_contains, dict_getitem. by destruct (dict_get _ _).
  - revert Hx. unfold dict_contains, dict_getitem. by destruct (dict_get _ _).
Qed.

Lemma list_to_tensor_total (l : list Z) :
  Forall fits_int64 l → list_to_tensor l = Ok (T2 (length l) [to_int32 <$> l]).
Proof.
  intros Hl. unfold list_to_tensor, torch_tensor. by rewrite decide_True.
Qed.

Lemma int_to_tensor_total (n : Z) :
  fits_int64 n → int_to_tensor n = Ok (T1 [to_int32 n]).
Proof.
  intros Hn. unfold int_to_tensor, torch_tensor.
  by rewrite decide_True by (by apply Forall_singleton).
Qed.

Lemma py_range_fits (n : Z) : fits_int64 n → Forall fits_int64 (CPMAntTokenizerFast.py_range n).
Proof.
  intros Hn. apply Forall_forall. intros i Hi%py_range_elem.
  unfold fits_int64 in *. lia.
Qed.

Lemma py_repeat_fits (x n : Z) :
  fits_int64 x → Forall fits_int64 (CPMAntTokenizerFast.py_repeat x n).
Proof.
  intros Hx. unfold CPMAntTokenizerFast.py_repeat. by apply Forall_replicate.
Qed.

(** The tensors are built when the ids and the length fit 64 bits. *)
Lemma convert_to_tensors_tail (cut : str → list str) (tk : CPMAntTokenizerFast.t)
    (text : str) (bos unk : Z) (ids : list Z) :
  CPMAntTokenizerFast.bos_id tk = Ok bos →
  CPMAntTokenizerFast.encode cut tk text = Ok ids →
  CPMAntTokenizerFast.unk_id tk = Ok unk →
  Forall fits_int64 (bos :: ids) →
  (Z.of_nat (length ids) < 2 ^ 62)%Z →
  is_Ok (CPMAntTokenizerFast._convert_to_tensors cut tk text 32 2).
Proof.
  intros Hbos Henc Hunk Hfits Hlen.
  unfold CPMAntTokenizerFast._convert_to_tensors.
  rewrite Hbos. cbn [mbind result_bind]. rewrite Henc. cbn [mbind result_bind].
  rewrite Hunk. cbn [mbind result_bind]. cbn zeta.
  set (content := filter _ (bos :: ids)).
  assert (Hc : Forall fits_int64 content).
  { apply Forall_forall. intros x [_ Hx]%list_elem_of_filter.
    by apply (proj1 (Forall_forall _ _) Hfits). }
  assert (Hcl : length content ≤ S (length ids))
    by apply (length_filter (λ j, j ≠ unk) (bos :: ids)).
  set (input := _ ++ content).
  assert (Hin : Forall fits_int64 input).
  { apply Forall_app. split; [|done]. apply Forall_forall.
    intros x (i & -> & Hi%py_range_elem)%list_elem_of_fmap. unfold fits_int64. lia. }
  assert (Hn : length input = 32 + length content).
  { unfold input, CPMAntTokenizerFast.py_range.
    rewrite length_app, !length_fmap, length_seq. reflexivity. }
  assert (Hnf : fits_int64 (Z.of_nat (length input))).
  { rewrite Hn. unfold fits_int64. lia. }
  rewrite (list_to_tensor_total input Hin). cbn [mbind result_bind].
  rewrite (int_to_tensor_total _ Hnf). cbn [mbind result_bind].
  rewrite (list_to_tensor_total _ (py_range_fits _ Hnf)). cbn [mbind result_bind].
  rewrite (list_to_tensor_total (CPMAntTokenizerFast.py_repeat 0 _)); cbn [mbind result_bind];
    [|apply py_repeat_fits; unfold fits_int64; lia].
  rewrite (list_to_tensor_total (CPMAntTokenizerFast.py_repeat 1 _)); cbn [mbind result_bind];
    [|apply py_repeat_fits; unfold fits_int64; lia].
  rewrite (list_to_tensor_total (_ ++ _)); cbn [mbind result_bind];
    [|apply Forall_app; split; apply py_repeat_fits; unfold fits_int64; lia].
  by eexists.
Qed.

(** X19. The builder with the default prompt, for a tokenizer built by
    [__init__] (the file and the text being of a size whose numbers fit 64
    bits): it returns exactly when the sentence-start token and the unknown
    token are in the table, and when it raises, it raises [KeyError]. The
    unknown token is needed even for a text all of whose characters are in
    the table, since its id is looked up to filter the ids. *)
Theorem convert_to_tensors_succeeds_iff (cut : str → list str) (vocab_file : list str)
    (cfg : CPMAntTokenizerFast.config) (tk : CPMAntTokenizerFast.t) (text : str) :
  CPMAntTokenizerFast.init vocab_file cfg = Ok tk →
  (Z.of_nat (length vocab_file) ≤ 2 ^ 63)%Z →
  (Z.of_nat (length (CPMAntTokenizerFast.tokenize cut tk text)) < 2 ^ 62)%Z →
  (is_Ok (CPMAntTokenizerFast._convert_to_tensors cut tk text 32 2) ↔
   CPMAntTokenizerFast.check tk (CPMAntTokenizerFast.bos_token tk) = true ∧
   CPMAntTokenizerFast.check tk (CPMAntTokenizerFast.unk_token tk) = true) ∧
  (∀ e, CPMAntTokenizerFast._convert_to_tensors cut tk text 32 2 = Raise e →
        e = KeyError).
Proof.
  intros Hinit Hfile Htext.
  assert (Hval : ∀ k v, dict_getitem (CPMAntTokenizerFast.encoder tk) k = Ok v →
                        fits_int64 v).
  { intros k v Hk%dict_getitem_Ok.
    destruct (init_encoder_value _ _ _ _ _ Hinit Hk) as (k0 & (i & -> & Hi)%load_vocab_get).
    apply lookup_lt_Some in Hi. rewrite length_fmap in Hi. unfold fits_int64. lia. }
  assert (Hids : ∀ ids, CPMAntTokenizerFast.encode cut tk text = Ok ids →
                        Forall fits_int64 ids ∧ (Z.of_nat (length ids) < 2 ^ 62)%Z).
  { intros ids Henc. split.
    - apply Forall_forall. intros i Hi.
      destruct (mapM_Ok_elem _ _ _ _ Henc Hi) as (x & _ & Hx). by apply (Hval x).
    - apply mapM_Ok_inv, Forall2_length in Henc. by rewrite <- Henc. }
  unfold CPMAntTokenizerFast.check. split; [split|].
  - intros [b Hb]. unfold CPMAntTokenizerFast._convert_to_tensors in Hb. bind_inv Hb.
    split; apply dict_getitem_is_Ok; by eexists.
  - intros [[bos Hbos]%dict_getitem_is_Ok Hunk].
    destruct (encode_total cut _ _ _ text Hinit Hunk) as (ids & Henc & _).
    apply dict_getitem_is_Ok in Hunk as [unk Hunk].
    destruct (Hids ids Henc) as [Hf Hl].
    apply (convert_to_tensors_tail _ _ _ bos unk ids); try done.
    constructor; [by apply (Hval _ _ Hbos)|done].
  - intros e He.
    destruct (CPMAntTokenizerFast.bos_id tk) as [bos|e1] eqn:Hbos.
    2:{ unfold CPMAntTokenizerFast._convert_to_tensors in He. rewrite Hbos in He.
        cbn [mbind result_bind] in He. injection He as <-.
        by apply dict_getitem_raises in Hbos. }
    destruct (CPMAntTokenizerFast.encode cut tk text) as [ids|e2] eqn:Henc.
    2:{ unfold CPMAntTokenizerFast._convert_to_tensors in He. rewrite Hbos, Henc in He.
        cbn [mbind result_bind] in He. injection He as <-.
        apply mapM_Raise_inv in Henc as (x & _ & Hx). by apply dict_getitem_raises in Hx. }
    destruct (CPMAntTokenizerFast.unk_id tk) as [unk|e3] eqn:Hunk.
    2:{ unfold CPMAntTokenizerFast._convert_to_tensors in He. rewrite Hbos, Henc, Hunk in He.
        cbn [mbind result_bind] in He. injection He as <-.
        by apply dict_getitem_raises in Hunk. }
    destruct (Hids ids eq_refl) as [Hf Hl].
    destruct (convert_to_tensors_tail cut tk text bos unk ids) as [b Hb]; try done.
    + constructor; [by apply (Hval _ _ Hbos)|done].
    + congruence.
Qed.

Lemma convert_to_tensors_succeeds_iff_witness :
  CPMAntTokenizerFast.init example_vocab_file CPMAntTokenizerFast.default_config
    = Ok example_tokenizer ∧
  (Z.of_nat (length example_vocab_file) ≤ 2 ^ 63)%Z ∧
  (Z.of_nat (length (CPMAntTokenizerFast.tokenize whole_text_cut example_tokenizer
                       (py "ac"))) < 2 ^ 62)%Z ∧
  (is_Ok (CPMAntTokenizerFast._convert_to_tensors whole_text_cut example_tokenizer
            (py "ac") 32 2) ↔
   CPMAntTokenizerFast.check example_tokenizer
     (CPMAntTokenizerFast.bos_token example_tokenizer) = true ∧
   CPMAntTokenizerFast.check example_tokenizer
     (CPMAntTokenizerFast.unk_token example_tokenizer) = true) ∧
  (∀ e, CPMAntTokenizerFast._convert_to_tensors whole_text_cut example_tokenizer
          (py "ac") 32 2 = Raise e →
        e = KeyError).
Proof.
  assert (H1 : CPMAntTokenizerFast.init example_vocab_file
                 CPMAntTokenizerFast.default_config = Ok example_tokenizer)
    by (vm_compute; reflexivity).
  assert (H2 : (Z.of_nat (length example_vocab_file) ≤ 2 ^ 63)%Z)
    by (vm_compute; discriminate).
  assert (H3 : (Z.of_nat (length (CPMAntTokenizerFast.tokenize whole_text_cut
                                    example_tokenizer (py "ac"))) < 2 ^ 62)%Z)
    by (vm_compute; reflexivity).
  split; [exact H1|]. split; [exact H2|]. split; [exact H3|].
  exact (convert_to_tensors_succeeds_iff whole_text_cut example_vocab_file
           CPMAntTokenizerFast.default_config example_tokenizer (py "ac") H1 H2 H3).
Defined.
